(** * Classroom chat server: session registry, room directory, dispatcher,
      session timer and attendance tracker.

    A shallow embedding of [session_manager.py], [db.py] and [server2.py].

    Conventions of the embedding:
    - a Python [dict] whose iteration order is never observed is a [gmap];
      the per-room [users] dict, which every broadcast iterates in insertion
      order, is an association list ([ChatRoomManager.users_set] keeps the
      position of a key that is already there and appends a new one);
    - sockets are the integer handles returned by [ws2_32.accept]; a slot or a
      session field that may hold [None] is an [option Z]; Python's truth test
      [if socket:] is [sock_truthy] (the handle is there and is not 0);
    - [time.time()] is an input of every function that reads the clock, and
      timestamps are rationals (the subtraction of two doubles is taken
      exactly, [int(...)] truncates toward zero);
    - [uuid.uuid4()] is an input as well (the fresh token);
    - SQL tables are lists of rows in insertion order (or a [gmap] on the
      primary key); [SELECT ... fetchone()] is the first matching row,
      [UPDATE ... WHERE] rewrites every matching row; string comparison in a
      [WHERE] clause is exact equality;
    - every [send_data], [close_socket] and thread start is appended to the
      trace of the world; the status of a send is read from an oracle
      indexed by the number of sends made so far;
    - the operations of the interpreter that raise on values the code can
      hand them do so here: the conversion of an [int] without a float in
      [start_time + duration * 60] ([float_of_int_ok]), [time.sleep] on a
      negative length or one beyond the bound of the platform
      ([sleep_raises]), and the [decode()] of [receive_data] on bytes that
      are not UTF-8 ([DecodeRaised]). *)

From stdpp Require Import gmap strings list.
From Stdlib Require Import Ascii ZArith QArith Lia.

Local Open Scope string_scope.
Local Open Scope Z_scope.

(** ** Python values *)

(** [if s:] on a [str]. *)
Definition str_truthy (s : string) : bool := negb (String.eqb s "").

(** [if sock:] on [None] or an integer handle. *)
Definition sock_truthy (s : option Z) : bool :=
  match s with
  | Some h => negb (h =? 0)
  | None => false
  end.

(** [slot == sock] where the slot may hold [None] and [sock] is a handle. *)
Definition slot_is (slot : option Z) (sock : Z) : bool :=
  match slot with
  | Some h => h =? sock
  | None => false
  end.

(** [int(x)] on a float: truncation toward zero. *)
Definition int_of_float (x : Q) : Z := Z.quot (Qnum x) (Zpos (Qden x)).

(** The least absolute value of an [int] that has no [float]: the
    conversion rounds to the nearest double, and from [2^1024 - 2^970] on the
    nearest is beyond the greatest finite one. *)
Definition float_overflow : Z := 2 ^ 1024 - 2 ^ 970.

(** Whether an [int] converts to a [float], as [x + n] requires of [n] for a
    float [x]; when it does not, the operation raises OverflowError. *)
Definition float_of_int_ok (n : Z) : bool := Z.abs n <? float_overflow.

(** [s.split(sep)] for a one-character separator. *)
Fixpoint split_on (sep : Ascii.ascii) (s : string) : list string :=
  match s with
  | EmptyString => [EmptyString]
  | String c rest =>
      if Ascii.eqb c sep then EmptyString :: split_on sep rest
      else match split_on sep rest with
           | h :: t => String c h :: t
           | [] => [String c EmptyString]
           end
  end.

Definition pipe : Ascii.ascii := "|"%char.

(** [sep.join(parts)]. *)
Fixpoint join (sep : string) (parts : list string) : string :=
  match parts with
  | [] => ""
  | [p] => p
  | p :: rest => p ++ sep ++ join sep rest
  end.

(** ** session_manager.py *)

Module SessionManager.

Record session := {
  session_id : string;
  user_id : string;
  role : string;
  name : string;
  login_time : Q;
  is_active : bool;
  socket : option Z
}.

Record t := {
  active_sessions : gmap string session;   (* user_id -> session *)
  session_lookup : gmap string string;     (* session_id -> user_id *)
  socket_to_session : gmap Z string        (* socket -> session_id *)
}.

Definition empty : t :=
  {| active_sessions := ∅; session_lookup := ∅; socket_to_session := ∅ |}.

(** [create_session(user_id, role, name, socket)]; [token] is the value of
    [str(uuid.uuid4())] and [now] that of [datetime.now()]. *)
Definition create_session (uid r n : string) (sock : option Z)
    (token : string) (now : Q) (m : t) : session * t :=
  let s := {| session_id := token; user_id := uid; role := r; name := n;
              login_time := now; is_active := true; socket := sock |} in
  (s,
   {| active_sessions := <[uid := s]> (active_sessions m);
      session_lookup := <[token := uid]> (session_lookup m);
      socket_to_session :=
        match sock with
        | Some h => if sock_truthy sock
                    then <[h := token]> (socket_to_session m)
                    else socket_to_session m
        | None => socket_to_session m
        end |}).

(** [user_has_active_session(user_id)]: a scan of the stored sessions. *)
Definition user_has_active_session (uid : string) (m : t) : bool :=
  existsb (fun kv => String.eqb (user_id (snd kv)) uid)
          (map_to_list (active_sessions m)).

(** [get_session_by_id(session_id)]. *)
Definition get_session_by_id (sid : string) (m : t) : option session :=
  match session_lookup m !! sid with
  | Some uid => if str_truthy uid then active_sessions m !! uid else None
  | None => None
  end.

(** [get_session_by_socket(socket)]. *)
Definition get_session_by_socket (sock : option Z) (m : t) : option session :=
  match sock with
  | Some h =>
      match socket_to_session m !! h with
      | Some sid => if str_truthy sid then get_session_by_id sid m else None
      | None => None
      end
  | None => None
  end.

(** [end_session(session_id)]. *)
Definition end_session (sid : string) (m : t) : bool * t :=
  match session_lookup m !! sid with
  | Some uid =>
      if str_truthy uid then
        let m1 :=
          match active_sessions m !! uid with
          | Some s =>
              {| active_sessions := delete uid (active_sessions m);
                 session_lookup := session_lookup m;
                 socket_to_session :=
                   match socket s with
                   | Some h => if sock_truthy (socket s)
                               then delete h (socket_to_session m)
                               else socket_to_session m
                   | None => socket_to_session m
                   end |}
          | None => m
          end in
        (true,
         {| active_sessions := active_sessions m1;
            session_lookup := delete sid (session_lookup m1);
            socket_to_session := socket_to_session m1 |})
      else (false, m)
  | None => (false, m)
  end.

Definition set_socket (s : session) (sock : option Z) : session :=
  {| session_id := session_id s; user_id := user_id s; role := role s;
     name := name s; login_time := login_time s; is_active := is_active s;
     socket := sock |}.

(** [update_socket(session_id, socket)]. *)
Definition update_socket (sid : string) (sock : option Z) (m : t) : bool * t :=
  match session_lookup m !! sid with
  | Some uid =>
      if str_truthy uid then
        match active_sessions m !! uid with
        | Some s =>
            let s2s1 :=
              match socket s with
              | Some old =>
                  if sock_truthy (socket s)
                     && bool_decide (is_Some (socket_to_session m !! old))
                  then delete old (socket_to_session m)
                  else socket_to_session m
              | None => socket_to_session m
              end in
            (true,
             {| active_sessions := <[uid := set_socket s sock]> (active_sessions m);
                session_lookup := session_lookup m;
                socket_to_session :=
                  match sock with
                  | Some h => if sock_truthy sock then <[h := sid]> s2s1 else s2s1
                  | None => s2s1
                  end |})
        | None => (false, m)
        end
      else (false, m)
  | None => (false, m)
  end.

End SessionManager.

(** ** db.py *)

Module Db.

Record user := {
  u_name : string;
  password_hash : string;
  u_role : string;
  profile_pic : option string               (* TEXT, may be NULL *)
}.

(** A row of [active_chats]; the primary key [tutorial_id] is the key of
    the map that holds it. *)
Record chat := {
  tutor_id : string;
  start_time : Q;
  end_time : Q;
  chat_session_id : string
}.

(** A row of [attendance] (its auto-increment [id] is the position in the
    table). *)
Record attendance := {
  a_chat_session_id : string;
  a_tutorial_id : string;
  student_id : string;
  first_join_time : Q;
  last_seen_time : Q;
  total_duration_seconds : Z;
  is_present : bool
}.

Record t := {
  users : gmap string user;                 (* id -> row *)
  tutorials : gmap string string;           (* id -> name *)
  assignments : list (string * string);     (* (user_id, tutorial_id) *)
  active_chats : gmap string chat;          (* tutorial_id -> row *)
  attendance_rows : list attendance
}.

Definition set_active_chats (d : t) (c : gmap string chat) : t :=
  {| users := users d; tutorials := tutorials d; assignments := assignments d;
     active_chats := c; attendance_rows := attendance_rows d |}.

Definition set_attendance (d : t) (a : list attendance) : t :=
  {| users := users d; tutorials := tutorials d; assignments := assignments d;
     active_chats := active_chats d; attendance_rows := a |}.

(** The result of a call that may raise. *)
Inductive outcome (A : Type) :=
| Returned (a : A)
| Raised (detail : string).
Arguments Returned {A} a.
Arguments Raised {A} detail.

Definition get_user (uid : string) (d : t) : option user := users d !! uid.

Definition get_user_role (uid : string) (d : t) : option string :=
  u_role <$> users d !! uid.

(** [get_active_chat(tutorial_id)]. *)
Definition get_active_chat (tid : string) (d : t) : option chat :=
  active_chats d !! tid.

(** [start_chat(tutorial_id, tutor_id, duration)]; [uuid] is the value of
    [str(uuid.uuid4())], [now] that of [time.time()].  The sum
    [start_time + (duration * 60)] of a float and an int raises when the int
    has no float; the [INSERT] raises when a foreign key of [active_chats] has
    no target. *)
Definition start_chat (tid tutor : string) (duration : Z)
    (uuid : string) (now : Q) (d : t) : outcome (option string) * t :=
  match get_active_chat tid d with
  | Some _ => (Returned None, d)
  | None =>
      if negb (float_of_int_ok (duration * 60))
      then (Raised "int too large to convert to float", d)
      else if bool_decide (is_Some (tutorials d !! tid))
              && bool_decide (is_Some (users d !! tutor))
      then
        (Returned (Some uuid),
         set_active_chats d
           (<[tid := {| tutor_id := tutor; start_time := now;
                        end_time := (now + inject_Z (duration * 60))%Q;
                        chat_session_id := uuid |}]> (active_chats d)))
      else (Raised "IntegrityError", d)
  end.

(** [end_chat(tutorial_id)]. *)
Definition end_chat (tid : string) (d : t) : bool * t :=
  (true, set_active_chats d (delete tid (active_chats d))).

(** The students assigned to a tutorial, in the order of [assignments]. *)
Definition students_of (tid : string) (d : t) : list string :=
  omap (fun a : string * string =>
          if String.eqb (snd a) tid then
            match users d !! fst a with
            | Some u => if String.eqb (u_role u) "student" then Some (fst a) else None
            | None => None
            end
          else None)
       (assignments d).

(** [initialize_attendance_for_session(chat_session_id, tutorial_id)]:
    one absent row per student, [total_duration_seconds] at its default. *)
Definition initialize_attendance_for_session (cs tid : string) (d : t) : t :=
  set_attendance d
    (attendance_rows d ++
     map (fun st => {| a_chat_session_id := cs; a_tutorial_id := tid;
                       student_id := st; first_join_time := 0%Q;
                       last_seen_time := 0%Q; total_duration_seconds := 0;
                       is_present := false |})
         (students_of tid d)).

(** [WHERE chat_session_id = %s AND student_id = %s]. *)
Definition row_of (cs st : string) (r : attendance) : bool :=
  String.eqb (a_chat_session_id r) cs && String.eqb (student_id r) st.

(** [UPDATE attendance SET ... WHERE chat_session_id = %s AND student_id = %s]. *)
Definition update_rows (cs st : string) (f : attendance -> attendance)
    (rows : list attendance) : list attendance :=
  map (fun r => if row_of cs st r then f r else r) rows.

Definition set_present (now : Q) (r : attendance) : attendance :=
  {| a_chat_session_id := a_chat_session_id r; a_tutorial_id := a_tutorial_id r;
     student_id := student_id r; first_join_time := first_join_time r;
     last_seen_time := now; total_duration_seconds := total_duration_seconds r;
     is_present := true |}.

Definition set_first_join (now : Q) (r : attendance) : attendance :=
  {| a_chat_session_id := a_chat_session_id r; a_tutorial_id := a_tutorial_id r;
     student_id := student_id r; first_join_time := now;
     last_seen_time := last_seen_time r;
     total_duration_seconds := total_duration_seconds r;
     is_present := is_present r |}.

Definition set_absent (total : Z) (now : Q) (r : attendance) : attendance :=
  {| a_chat_session_id := a_chat_session_id r; a_tutorial_id := a_tutorial_id r;
     student_id := student_id r; first_join_time := first_join_time r;
     last_seen_time := now; total_duration_seconds := total;
     is_present := false |}.

(** [mark_student_present(chat_session_id, tutorial_id, student_id)] on the
    attendance table; [now] is [time.time()]. *)
Definition mark_student_present (now : Q) (cs tid st : string)
    (rows : list attendance) : list attendance :=
  match find (row_of cs st) rows with
  | Some r =>
      if negb (is_present r) then
        let rows1 := update_rows cs st (set_present now) rows in
        if Qeq_bool (first_join_time r) 0
        then update_rows cs st (set_first_join now) rows1
        else rows1
      else rows
  | None =>
      rows ++ [{| a_chat_session_id := cs; a_tutorial_id := tid;
                  student_id := st; first_join_time := now;
                  last_seen_time := now; total_duration_seconds := 0;
                  is_present := true |}]
  end.

(** [disconnect_attendance(chat_session_id, student_id)]; the [SELECT]
    also asks for [is_present = TRUE]. *)
Definition disconnect_attendance (now : Q) (cs st : string)
    (rows : list attendance) : list attendance :=
  match find (fun r => row_of cs st r && is_present r) rows with
  | Some r =>
      let additional_duration := int_of_float (now - last_seen_time r)%Q in
      let new_total_duration := total_duration_seconds r + additional_duration in
      update_rows cs st (set_absent new_total_duration now) rows
  | None => rows
  end.

(** The attendance record of a (chat session, student) pair. *)
Definition record_of (cs st : string) (rows : list attendance) : option attendance :=
  find (row_of cs st) rows.

(** The table holds at most one row per (chat session, student) pair. *)
Definition keyed (rows : list attendance) : Prop :=
  NoDup (map (fun r => (a_chat_session_id r, student_id r)) rows).

(** *** Tutorials and assignments *)

Definition set_assignments (d : t) (a : list (string * string)) : t :=
  {| users := users d; tutorials := tutorials d; assignments := a;
     active_chats := active_chats d; attendance_rows := attendance_rows d |}.

(** [get_tutorial(tutorial_id)]: the name of the tutorial, if it exists. *)
Definition get_tutorial (tid : string) (d : t) : option string := tutorials d !! tid.

(** The role of a user is [tutor]. *)
Definition is_tutor (uid : string) (d : t) : bool :=
  match users d !! uid with
  | Some u => String.eqb (u_role u) "tutor"
  | None => false
  end.

(** [is_tutor_already_assigned(tutorial_id)]. *)
Definition is_tutor_already_assigned (tid : string) (d : t) : bool :=
  existsb (fun a : string * string => String.eqb (snd a) tid && is_tutor (fst a) d)
          (assignments d).

(** [assign_user_to_tutorial(user_id, tutorial_id)]: the [INSERT] fails, and
    the function returns [False], when a foreign key has no target or the
    pair is already assigned (the primary key). *)
Definition assign_user_to_tutorial (uid tid : string) (d : t) : bool * t :=
  if bool_decide (is_Some (users d !! uid))
     && bool_decide (is_Some (tutorials d !! tid))
     && negb (existsb (fun a : string * string =>
                         String.eqb (fst a) uid && String.eqb (snd a) tid)
                      (assignments d))
  then (true, set_assignments d (assignments d ++ [(uid, tid)]))
  else (false, d).

(** [get_user_tutorials(user_id)]: the (id, name) of the tutorials the user
    is assigned to. *)
Definition get_user_tutorials (uid : string) (d : t) : list (string * string) :=
  omap (fun a : string * string =>
          if String.eqb (fst a) uid
          then (fun n => (snd a, n)) <$> tutorials d !! snd a
          else None)
       (assignments d).

(** [any(t['id'] == tutorial_id for t in get_user_tutorials(user_id))]. *)
Definition enrolled (uid tid : string) (d : t) : bool :=
  existsb (fun t : string * string => String.eqb (fst t) tid) (get_user_tutorials uid d).

(** *** Attendance report *)

(** A row of [get_attendance_for_session]. *)
Record report := {
  r_student_id : string;
  r_student_name : string;
  r_is_present : bool;
  r_first_join_time : Q;
  r_last_seen_time : Q;
  r_total_duration_seconds : Z;
  current_duration : Z
}.

(** [get_attendance_for_session(chat_session_id)]; [now] is [time.time()].
    The join with [users] drops the rows of unknown students. *)
Definition get_attendance_for_session (now : Q) (cs : string) (d : t) : list report :=
  omap (fun a =>
          if String.eqb (a_chat_session_id a) cs then
            match users d !! student_id a with
            | Some u =>
                Some {| r_student_id := student_id a;
                        r_student_name := u_name u;
                        r_is_present := is_present a;
                        r_first_join_time := first_join_time a;
                        r_last_seen_time := last_seen_time a;
                        r_total_duration_seconds := total_duration_seconds a;
                        current_duration :=
                          if is_present a
                          then total_duration_seconds a
                               + int_of_float (now - last_seen_time a)%Q
                          else total_duration_seconds a |}
            | None => None
            end
          else None)
       (attendance_rows d).

End Db.

(** ** server2.py: ChatRoomManager *)

Module ChatRoomManager.

(** The two slots of a participant: [{"primary": ..., "chat": ...}]. *)
Record sockets := { primary : option Z; chat : option Z }.

(** [{"users": {...}, "messages": [...]}]; [users] in insertion order. *)
Record room := {
  users : list (string * sockets);
  messages : list string
}.

Definition no_sockets : sockets := {| primary := None; chat := None |}.
Definition new_room : room := {| users := []; messages := [] |}.

Definition set_users (r : room) (us : list (string * sockets)) : room :=
  {| users := us; messages := messages r |}.

(** [users.get(uid)], [uid in users], [users[uid] = v], [del users[uid]]. *)
Fixpoint users_get (uid : string) (us : list (string * sockets)) : option sockets :=
  match us with
  | [] => None
  | (k, v) :: rest => if String.eqb k uid then Some v else users_get uid rest
  end.

Definition users_mem (uid : string) (us : list (string * sockets)) : bool :=
  match users_get uid us with Some _ => true | None => false end.

Fixpoint users_set (uid : string) (v : sockets) (us : list (string * sockets))
    : list (string * sockets) :=
  match us with
  | [] => [(uid, v)]
  | (k, w) :: rest =>
      if String.eqb k uid then (k, v) :: rest else (k, w) :: users_set uid v rest
  end.

Fixpoint users_del (uid : string) (us : list (string * sockets))
    : list (string * sockets) :=
  match us with
  | [] => []
  | (k, w) :: rest =>
      if String.eqb k uid then rest else (k, w) :: users_del uid rest
  end.

(** [add_socket(tutorial_id, user_id, socket, is_chat_socket)].  The
    sockets are integer handles, so [existing_socket.close()] raises an
    [AttributeError] that the bare [except] swallows: the handle that is
    replaced is dropped from the room and nothing else happens to it. *)
Definition add_socket (tid uid : string) (sock : Z) (is_chat_socket : bool)
    (rooms : gmap string room) : gmap string room :=
  let r := match rooms !! tid with Some r => r | None => new_room end in
  let us := if users_mem uid (users r) then users r
            else users_set uid no_sockets (users r) in
  let cur := match users_get uid us with Some v => v | None => no_sockets end in
  let v := if is_chat_socket
           then {| primary := primary cur; chat := Some sock |}
           else {| primary := Some sock; chat := chat cur |} in
  <[tid := set_users r (users_set uid v us)]> rooms.

Definition drop_socket (dead : Z) (v : sockets) : sockets :=
  {| primary := if slot_is (primary v) dead then None else primary v;
     chat := if slot_is (chat v) dead then None else chat v |}.

(** [remove_dead_socket(tutorial_id, dead_socket)]. *)
Definition remove_dead_socket (tid : string) (dead : Z)
    (rooms : gmap string room) : gmap string room :=
  match rooms !! tid with
  | Some r =>
      <[tid := set_users r (map (fun kv => (fst kv, drop_socket dead (snd kv)))
                                (users r))]> rooms
  | None => rooms
  end.

(** [if exclude_user_id and user_id == exclude_user_id: continue]. *)
Definition excluded (exclude_user_id : option string) (uid : string) : bool :=
  match exclude_user_id with
  | Some e => str_truthy e && String.eqb uid e
  | None => false
  end.

Definition live (slot : option Z) : list Z :=
  match slot with
  | Some h => if sock_truthy slot then [h] else []
  | None => []
  end.

(** The loop shared by the three getters: [pick] lists the slots read. *)
Definition collect (pick : sockets -> list Z) (tid : string)
    (exclude_user_id : option string) (rooms : gmap string room) : list Z :=
  match rooms !! tid with
  | Some r =>
      flat_map (fun kv => if excluded exclude_user_id (fst kv) then []
                          else pick (snd kv))
               (users r)
  | None => []
  end.

Definition get_primary_sockets := collect (fun v => live (primary v)).
Definition get_all_sockets :=
  collect (fun v => (live (primary v) ++ live (chat v))%list).
Definition get_chat_sockets := collect (fun v => live (chat v)).

(** [remove_user(tutorial_id, user_id)]. *)
Definition remove_user (tid uid : string) (rooms : gmap string room)
    : bool * gmap string room :=
  match rooms !! tid with
  | Some r =>
      if users_mem uid (users r)
      then (true, <[tid := set_users r (users_del uid (users r))]> rooms)
      else (false, rooms)
  | None => (false, rooms)
  end.

(** [close_room(tutorial_id)]; the [close()] calls fail like the one of
    [add_socket]. *)
Definition close_room (tid : string) (rooms : gmap string room)
    : bool * gmap string room :=
  match rooms !! tid with
  | Some _ => (true, delete tid rooms)
  | None => (false, rooms)
  end.

(** [is_active(tutorial_id)]. *)
Definition is_active (tid : string) (rooms : gmap string room) : bool :=
  match rooms !! tid with
  | Some r => (0 <? Z.of_nat (length (users r)))
  | None => false
  end.

(** The user entries of a room, an absent room having none. *)
Definition users_of (tid : string) (rooms : gmap string room)
    : list (string * sockets) :=
  match rooms !! tid with Some r => users r | None => [] end.

End ChatRoomManager.

(** ** server2.py: TutorialServer *)

Module Server.

(** The completion status of a transport call. *)
Inductive sock_status :=
| SOCK_STATUS_OK
| SOCK_STATUS_TIMEOUT
| SOCK_STATUS_CLOSED
| SOCK_STATUS_ERROR.

Definition status_ok (st : sock_status) : bool :=
  match st with SOCK_STATUS_OK => true | _ => false end.

(** What the server does to the outside, in order. *)
Inductive event :=
| Send (sock : Z) (data : string)
| Close (sock : Z)
| StartTimer (tutorial_id : string) (duration : Z).

Record World := {
  session_manager : SessionManager.t;
  rooms : gmap string ChatRoomManager.room;
  db : Db.t;
  trace : list event
}.

Definition set_sessions (w : World) (m : SessionManager.t) : World :=
  {| session_manager := m; rooms := rooms w; db := db w; trace := trace w |}.
Definition set_rooms (w : World) (r : gmap string ChatRoomManager.room) : World :=
  {| session_manager := session_manager w; rooms := r; db := db w; trace := trace w |}.
Definition set_db (w : World) (d : Db.t) : World :=
  {| session_manager := session_manager w; rooms := rooms w; db := d; trace := trace w |}.
Definition emit (e : event) (w : World) : World :=
  {| session_manager := session_manager w; rooms := rooms w; db := db w;
     trace := trace w ++ [e] |}.

(** The sends of a trace, oldest first. *)
Definition sends (tr : list event) : list (Z * string) :=
  omap (fun e => match e with Send s d => Some (s, d) | _ => None end) tr.

(** The payloads sent to a socket, oldest first. *)
Definition sent_to (sock : Z) (tr : list event) : list string :=
  omap (fun e => match e with
                 | Send s d => if s =? sock then Some d else None
                 | _ => None
                 end) tr.

(** [str(x)] inside an f-string for a value that may be [None]. *)
Definition fmt (x : option string) : string :=
  match x with Some s => s | None => "None" end.

Section Transport.

(** [net k sock] is the status of the send number [k] (from 0) when it
    goes to [sock].  [send_data] returns a status and never raises. *)
Variable net : nat -> Z -> sock_status.

Definition send_data (sock : Z) (data : string) (w : World) : sock_status * World :=
  (net (length (sends (trace w))) sock, emit (Send sock data) w).

Definition reply (sock : Z) (data : string) (w : World) : World :=
  snd (send_data sock data w).

Definition close_socket (sock : Z) (w : World) : World := emit (Close sock) w.

(** A loop [for socket in socks: send_data(socket, data)] that ignores
    the status. *)
Fixpoint send_all (socks : list Z) (data : string) (w : World) : World :=
  match socks with
  | [] => w
  | s :: rest => send_all rest data (reply s data w)
  end.

(** The first loop of [_broadcast_chat_message]: a failed send removes
    the socket from the room. *)
Fixpoint send_chat_loop (tid : string) (socks : list Z) (data : string)
    (successful_sends : Z) (w : World) : Z * World :=
  match socks with
  | [] => (successful_sends, w)
  | s :: rest =>
      let (st, w1) := send_data s data w in
      if status_ok st
      then send_chat_loop tid rest data (successful_sends + 1) w1
      else send_chat_loop tid rest data successful_sends
             (set_rooms w1 (ChatRoomManager.remove_dead_socket tid s (rooms w1)))
  end.

(** The second loop: a failed send is only not counted. *)
Fixpoint send_primary_loop (socks : list Z) (data : string)
    (successful_sends : Z) (w : World) : Z * World :=
  match socks with
  | [] => (successful_sends, w)
  | s :: rest =>
      let (st, w1) := send_data s data w in
      if status_ok st
      then send_primary_loop rest data (successful_sends + 1) w1
      else send_primary_loop rest data successful_sends w1
  end.

Definition format_message (sender_name sender_id timestamp message : string)
    (profile_pic_url : option string) : string :=
  "MESSAGE|" ++ sender_name ++ "|" ++ sender_id ++ "|" ++ timestamp ++ "|"
    ++ message ++ "|" ++ fmt profile_pic_url.

(** [_broadcast_chat_message(client_socket, session_id, tutorial_id,
    message)]; [timestamp] is [datetime.now().strftime(...)]. *)
Definition _broadcast_chat_message (client_socket : Z)
    (session_id tutorial_id message timestamp : string) (w : World)
    : bool * World :=
  match SessionManager.get_session_by_id session_id (session_manager w) with
  | None => (false, w)
  | Some session =>
      let sender_id := SessionManager.user_id session in
      let sender_name := SessionManager.name session in
      let profile_pic_url :=
        match Db.get_user sender_id (db w) with
        | Some u => Db.profile_pic u
        | None => None
        end in
      let formatted_message :=
        format_message sender_name sender_id timestamp message profile_pic_url in
      let chat_sockets :=
        ChatRoomManager.get_chat_sockets tutorial_id (Some sender_id) (rooms w) in
      let (n1, w1) := send_chat_loop tutorial_id chat_sockets formatted_message 0 w in
      let (n2, w2) :=
        if n1 =? 0 then
          let primary_sockets :=
            ChatRoomManager.get_primary_sockets tutorial_id (Some sender_id)
              (rooms w1) in
          send_primary_loop primary_sockets formatted_message n1 w1
        else (n1, w1) in
      (0 <? n2, w2)
  end.

(** [_handle_chat_message(client_socket, session_id, parts)]. *)
Definition _handle_chat_message (client_socket : Z) (session_id : string)
    (parts : list string) (timestamp : string) (w : World) : World :=
  if (Z.of_nat (length parts) <? 4)
  then reply client_socket "FAIL:Invalid command format" w
  else snd (_broadcast_chat_message client_socket session_id
              (nth 2 parts "") (nth 3 parts "") timestamp w).

(** [verify_session(client_socket, cmd_session_id, expected_session_id)]. *)
Definition verify_session (client_socket : Z)
    (cmd_session_id expected_session_id : string) (w : World) : bool * World :=
  match SessionManager.get_session_by_id cmd_session_id (session_manager w) with
  | Some _ =>
      if String.eqb cmd_session_id expected_session_id then (true, w)
      else (false, reply client_socket "FAIL:Invalid session" w)
  | None => (false, reply client_socket "FAIL:Invalid session" w)
  end.

(** *** START_CHAT *)

(** [int(s)] on a [str]: [None] when it raises [ValueError]. *)
Variable py_int : string -> option Z.

(** A handler either returns or raises [Exception(detail)]; what it did
    to the world before stays done. *)
Definition handled : Type := World * option string.

(** [_handle_start_chat(client_socket, parts, tutor_id)]; [uuid] and
    [now] are the values [start_chat] draws from [uuid.uuid4()] and
    [time.time()]. *)
Definition _handle_start_chat (client_socket : Z) (parts : list string)
    (tutor_id uuid : string) (now : Q) (w : World) : handled :=
  if (Z.of_nat (length parts) <? 4)
  then (reply client_socket "FAIL:Invalid command format" w, None)
  else
    let tutorial_id := nth 2 parts "" in
    match py_int (nth 3 parts "") with
    | None => (reply client_socket "FAIL:Invalid duration format" w, None)
    | Some duration =>
        match Db.start_chat tutorial_id tutor_id duration uuid now (db w) with
        | (Db.Raised detail, d) => (set_db w d, Some detail)
        | (Db.Returned chat_session_id, d) =>
            let w1 := set_db w d in
            match chat_session_id with
            | Some cs =>
                if str_truthy cs then
                  let w2 := set_rooms w1
                    (ChatRoomManager.add_socket tutorial_id tutor_id
                       client_socket false (rooms w1)) in
                  let w3 := set_db w2
                    (Db.initialize_attendance_for_session cs tutorial_id (db w2)) in
                  let w4 := emit (StartTimer tutorial_id duration) w3 in
                  (reply client_socket ("CHAT_STARTED:" ++ cs) w4, None)
                else (reply client_socket "FAIL:Chat session already active" w1, None)
            | None => (reply client_socket "FAIL:Chat session already active" w1, None)
            end
        end
    end.

(** *** END_CHAT *)

(** [_handle_end_chat(client_socket, parts)]. *)
Definition _handle_end_chat (client_socket : Z) (parts : list string) (w : World)
    : World :=
  if (Z.of_nat (length parts) <? 3)
  then reply client_socket "FAIL:Invalid command format" w
  else
    let tutorial_id := nth 2 parts "" in
    let w1 := set_db w (snd (Db.end_chat tutorial_id (db w))) in
    let w2 := send_all (ChatRoomManager.get_chat_sockets tutorial_id None (rooms w1))
                "CHAT_ENDED" w1 in
    set_rooms w2 (snd (ChatRoomManager.close_room tutorial_id (rooms w2))).

(** *** The session timer *)

(** What the timer thread does, in order. *)
Inductive timer_step :=
| Slept (seconds : Z)
| Warned (socks : list Z)
| EndedChat
| NotifiedEnd (socks : list Z)
| ClosedRoom
| LoggedEndedBeforeWarning
| LoggedAlreadyEnded
| LoggedEndedByTimer
| SleepRaised.     (* [time.sleep] raises: the thread dies *)

(** [time.sleep(secs)] raises for a negative length (ValueError) and for a
    length beyond what the interpreter and the platform take (OverflowError,
    OSError); that bound depends on both, and five minutes lie within it.
    [sleep_beyond] is how many seconds beyond five minutes the bound lies. *)
Variable sleep_beyond : N.

Definition sleep_max : Z := 5 * 60 + Z.of_N sleep_beyond.

Definition sleep_raises (secs : Z) : bool := (secs <? 0) || (sleep_max <? secs).

(** Each step with the seconds the thread has slept before it. *)
Fixpoint stamped (clock : Z) (steps : list timer_step) : list (Z * timer_step) :=
  match steps with
  | [] => []
  | Slept n :: rest => (clock, Slept n) :: stamped (clock + n) rest
  | a :: rest => (clock, a) :: stamped clock rest
  end.

(** The part of [_chat_session_timer] after the last sleep. *)
Definition timer_expiry (tutorial_id : string) (w : World)
    : World * list timer_step :=
  match Db.get_active_chat tutorial_id (db w) with
  | Some _ =>
      let w1 := set_db w (snd (Db.end_chat tutorial_id (db w))) in
      let socks := ChatRoomManager.get_chat_sockets tutorial_id None (rooms w1) in
      let w2 := send_all socks "CHAT_ENDED" w1 in
      let w3 := set_rooms w2 (snd (ChatRoomManager.close_room tutorial_id (rooms w2))) in
      (w3, [EndedChat; NotifiedEnd socks; ClosedRoom; LoggedEndedByTimer])
  | None => (w, [LoggedAlreadyEnded])
  end.

(** [_chat_session_timer(tutorial_id, duration)].  The thread runs next
    to the connection threads: [during1 w] is the world the timer finds
    when its first [time.sleep] returns from the world [w] it went to
    sleep in, [during2] the same for its second sleep.  Between two
    sleeps the timer is taken to run without interruption.  A [time.sleep]
    that raises ends the thread where it stands. *)
Definition _chat_session_timer (tutorial_id : string) (duration : Z)
    (during1 during2 : World -> World) (w : World) : World * list timer_step :=
  let warning_time := duration - 5 in
  if 0 <? warning_time then
    if sleep_raises (warning_time * 60) then (w, [SleepRaised])
    else
      let w1 := during1 w in
      match Db.get_active_chat tutorial_id (db w1) with
      | Some _ =>
          let socks := ChatRoomManager.get_chat_sockets tutorial_id None (rooms w1) in
          let w2 := send_all socks "WARNING:5 minutes remaining" w1 in
          if sleep_raises (5 * 60)
          then (w2, [Slept (warning_time * 60); Warned socks; SleepRaised])
          else
            let w3 := during2 w2 in
            let (w4, steps) := timer_expiry tutorial_id w3 in
            (w4, Slept (warning_time * 60) :: Warned socks :: Slept (5 * 60) :: steps)
      | None => (w1, [Slept (warning_time * 60); LoggedEndedBeforeWarning])
      end
  else if sleep_raises (duration * 60) then (w, [SleepRaised])
  else
    let w1 := during1 w in
    let (w2, steps) := timer_expiry tutorial_id w1 in
    (w2, Slept (duration * 60) :: steps).

(** *** The command loop of a tutor connection *)

(** [s.strip()]. *)
Variable strip : string -> string.

(** The handlers behind the command names of [handle_tutor]:
    [tutor_handler command client_socket tutor_id session_id parts]. *)
Variable tutor_handler : string -> Z -> string -> string -> list string ->
                         World -> handled.

Definition tutor_commands : list string :=
  ["ASSIGNED_TUTORIALS"; "POLL_TUTOR_TUTORIALS"; "TUTORIAL_STUDENTS";
   "START_CHAT"; "CHECK_CHAT"; "CHAT_AUTH"; "CHAT_MESSAGE"; "LEAVE_CHAT";
   "END_CHAT"; "JOIN_CHAT"; "GET_ATTENDANCE"].

(** The result of one [receive_data(client_socket)]. *)
Record received := { status : sock_status; data : string }.

(** How one turn of the [while True] ends. *)
Inductive turn := Continue | Break.

(** One turn of the loop of [handle_tutor] on what [receive_data]
    returned. *)
Definition tutor_turn (client_socket : Z) (tutor_id session_id : string)
    (r : received) (w : World) : turn * World :=
  if negb (status_ok (status r)) then (Break, w)
  else if negb (str_truthy (data r)) then (Break, w)
  else
    let parts := split_on pipe (strip (data r)) in
    if (Z.of_nat (length parts) <? 2) then (Continue, w)
    else
      let cmd_session_id := nth 0 parts "" in
      let command := nth 1 parts "" in
      match verify_session client_socket cmd_session_id session_id w with
      | (false, w1) => (Continue, w1)
      | (true, w1) =>
          if existsb (String.eqb command) tutor_commands then
            match tutor_handler command client_socket tutor_id session_id parts w1 with
            | (w2, None) => (Continue, w2)
            | (w2, Some detail) =>
                (Continue, reply client_socket ("FAIL:Internal error: " ++ detail) w2)
            end
          else (Continue, reply client_socket "FAIL:Unknown command" w1)
      end.

(** What one call of [receive_data(client_socket)] does: it returns a
    result, or its [decode()] of the bytes received raises
    (UnicodeDecodeError: bytes that are not UTF-8, or a character cut by the
    end of the buffer).  The call stands before the [try] of the loop. *)
Inductive receive :=
| Received (r : received)
| DecodeRaised.

(** Where a command loop stands: waiting for a message, left by [break], or
    left by an exception that nothing in the loop catches. *)
Inductive loop_state := Waiting | Broke | Escaped.

(** [handle_tutor(client_socket, tutor_id, session_id)] on the successive
    calls of [receive_data]; [Waiting] when the loop is still waiting for a
    message after the last of them. *)
Fixpoint handle_tutor (client_socket : Z) (tutor_id session_id : string)
    (inputs : list receive) (w : World) : loop_state * World :=
  match inputs with
  | [] => (Waiting, w)
  | DecodeRaised :: _ => (Escaped, w)
  | Received r :: rest =>
      match tutor_turn client_socket tutor_id session_id r w with
      | (Break, w1) => (Broke, w1)
      | (Continue, w1) => handle_tutor client_socket tutor_id session_id rest w1
      end
  end.

(** *** Credential login *)

(** [bcrypt.checkpw(password, hash)]: [None] when it raises. *)
Variable checkpw : string -> string -> option bool.

(** The command loop of a role, run until it returns:
    [serve role client_socket user_id session_id]. *)
Variable serve : string -> Z -> string -> string -> World -> World.

Definition reject (client_socket : Z) (why : string) (w : World) : World :=
  close_socket client_socket (reply client_socket why w).

(** [_handle_credential_auth(client_socket, login_data)]; [token] and
    [now] are drawn by [create_session]. *)
Definition _handle_credential_auth (client_socket : Z) (login_data : string)
    (token : string) (now : Q) (w : World) : World :=
  match split_on pipe (strip login_data) with
  | [user_id; password] =>
      match Db.get_user user_id (db w) with
      | None => reject client_socket "FAIL:User not found" w
      | Some user =>
          match checkpw password (Db.password_hash user) with
          | None => reject client_socket "FAIL:Authentication error" w
          | Some false => reject client_socket "FAIL:Incorrect password" w
          | Some true =>
              if SessionManager.user_has_active_session user_id (session_manager w)
              then reject client_socket "FAIL:Already logged in" w
              else
                let (session, m) :=
                  SessionManager.create_session user_id (Db.u_role user)
                    (Db.u_name user) (Some client_socket) token now
                    (session_manager w) in
                let session_id := SessionManager.session_id session in
                let w1 := set_sessions w m in
                let w2 := reply client_socket
                  ("SUCCESS|" ++ Db.u_role user ++ "|" ++ Db.u_name user ++ "|"
                     ++ session_id ++ "|" ++ fmt (Db.profile_pic user)) w1 in
                let w3 :=
                  if existsb (String.eqb (Db.u_role user)) ["admin"; "tutor"; "student"]
                  then serve (Db.u_role user) client_socket user_id session_id w2
                  else w2 in
                close_socket client_socket
                  (set_sessions w3
                     (snd (SessionManager.end_session session_id (session_manager w3))))
          end
      end
  | _ => reject client_socket "FAIL:Malformed login data" w
  end.

(** *** ASSIGN *)

(** [_handle_assign(client_socket, parts)]. *)
Definition _handle_assign (client_socket : Z) (parts : list string) (w : World)
    : World :=
  if negb (length parts =? 4)%nat
  then reply client_socket "FAIL:Invalid command format" w
  else
    let uid := nth 2 parts "" in
    let tid := nth 3 parts "" in
    match Db.get_user_role uid (db w) with
    | None => reply client_socket "FAIL:User not found" w
    | Some role =>
        if negb (str_truthy role) then reply client_socket "FAIL:User not found" w
        else if String.eqb role "tutor" && Db.is_tutor_already_assigned tid (db w)
        then reply client_socket "FAIL:Tutor already assigned to this tutorial" w
        else
          match Db.assign_user_to_tutorial uid tid (db w) with
          | (true, d) => reply client_socket "ASSIGNED" (set_db w d)
          | (false, d) => reply client_socket "FAIL:Database error" (set_db w d)
          end
    end.

(** *** CHECK_CHAT *)

(** [_handle_check_chat(client_socket, parts, user_id)]. *)
Definition _handle_check_chat (client_socket : Z) (parts : list string)
    (user_id : string) (w : World) : World :=
  if (Z.of_nat (length parts) <? 3)
  then reply client_socket "FAIL:Invalid command format" w
  else
    let tutorial_id := nth 2 parts "" in
    match Db.get_active_chat tutorial_id (db w) with
    | None => reply client_socket "NO_ACTIVE_CHAT" w
    | Some chat =>
        match Db.get_user_role user_id (db w) with
        | Some "tutor" =>
            if String.eqb (Db.tutor_id chat) user_id
            then reply client_socket ("CHAT_ACTIVE:" ++ Db.chat_session_id chat) w
            else reply client_socket
                   "FAIL:Chat exists but was started by another tutor" w
        | Some "student" =>
            if Db.enrolled user_id tutorial_id (db w)
            then reply client_socket ("CHAT_ACTIVE:" ++ Db.chat_session_id chat) w
            else reply client_socket "FAIL:Not enrolled in this tutorial" w
        | _ => reply client_socket "FAIL:Invalid role for chat participation" w
        end
    end.

(** *** Attendance updates *)

(** [json.dumps] of the rows of [get_attendance_for_session]. *)
Variable json_dumps : list Db.report -> string.

(** The room of a tutorial as [self.chat_manager.rooms[tutorial_id]] reads
    it: [rooms] is a [defaultdict], the read of a missing key stores an empty
    room. *)
Definition touch_room (tid : string) (rooms : gmap string ChatRoomManager.room)
    : gmap string ChatRoomManager.room :=
  match rooms !! tid with
  | Some _ => rooms
  | None => <[tid := ChatRoomManager.new_room]> rooms
  end.

(** [_broadcast_attendance_update(tutorial_id)]; [now] is the clock of
    [get_attendance_for_session].  After its loop over the user entries the
    function reads the loop variable [user_id]: the last user of the room,
    and an unbound variable when the room has no user. *)
Definition _broadcast_attendance_update (tutorial_id : string) (now : Q) (w : World)
    : handled :=
  match Db.get_active_chat tutorial_id (db w) with
  | None => (w, None)
  | Some active_chat =>
      let chat_session_id := Db.chat_session_id active_chat in
      if negb (str_truthy chat_session_id) then (w, None)
      else
        let attendance_msg :=
          "ATTENDANCE_UPDATE|"
            ++ json_dumps (Db.get_attendance_for_session now chat_session_id (db w)) in
        let w1 := set_rooms w (touch_room tutorial_id (rooms w)) in
        let users := ChatRoomManager.users_of tutorial_id (rooms w1) in
        match last users with
        | None => (w1, Some "local variable 'user_id' referenced before assignment")
        | Some (user_id, _) =>
            let chat_socket :=
              match ChatRoomManager.users_get user_id users with
              | Some v => ChatRoomManager.chat v
              | None => None
              end in
            match chat_socket with
            | Some h => if sock_truthy chat_socket
                        then (reply h attendance_msg w1, None)
                        else (w1, None)
            | None => (w1, None)
            end
        end
  end.

(** *** JOIN_CHAT *)

(** [_handle_join_chat(client_socket, parts, student_id, session_id)];
    [now1] is the clock of [mark_student_present], [now2] that of the
    attendance update. *)
Definition _handle_join_chat (client_socket : Z) (parts : list string)
    (student_id session_id : string) (now1 now2 : Q) (w : World) : handled :=
  if (Z.of_nat (length parts) <? 3)
  then (reply client_socket "FAIL:Invalid command format" w, None)
  else
    let tutorial_id := nth 2 parts "" in
    if negb (Db.enrolled student_id tutorial_id (db w))
    then (reply client_socket "FAIL:Not authorized for this tutorial" w, None)
    else
      match Db.get_active_chat tutorial_id (db w) with
      | None => (reply client_socket "FAIL:No active chat for this tutorial" w, None)
      | Some chat =>
          match SessionManager.update_socket session_id (Some client_socket)
                  (session_manager w) with
          | (false, m) =>
              (reply client_socket "FAIL:Session update failed" (set_sessions w m), None)
          | (true, m) =>
              let w1 := set_sessions w m in
              let w2 := set_rooms w1
                (ChatRoomManager.add_socket tutorial_id student_id client_socket
                   false (rooms w1)) in
              match Db.get_user student_id (db w2) with
              | None => (w2, Some "'NoneType' object is not subscriptable")
              | Some student =>
                  let student_name := Db.u_name student in
                  let w3 := reply client_socket
                    ("CHAT_JOINED:" ++ Db.tutor_id chat ++ ":"
                       ++ Db.chat_session_id chat) w2 in
                  let w4 := set_db w3
                    (Db.set_attendance (db w3)
                       (Db.mark_student_present now1 (Db.chat_session_id chat)
                          tutorial_id student_id (Db.attendance_rows (db w3)))) in
                  match _broadcast_attendance_update tutorial_id now2 w4 with
                  | (w5, Some detail) => (w5, Some detail)
                  | (w5, None) =>
                      (send_all
                         (ChatRoomManager.get_chat_sockets tutorial_id
                            (Some student_id) (rooms w5))
                         ("USER_JOINED|" ++ student_id ++ "|" ++ student_name ++ "|"
                            ++ fmt (Db.profile_pic student)) w5,
                       None)
                  end
              end
          end
      end.

(** *** LEAVE_CHAT *)

(** [_handle_disconnect_message(client_socket, session_id, parts)]; [now1]
    is the clock of [disconnect_attendance], [now2] that of the attendance
    update. *)
Definition _handle_disconnect_message (client_socket : Z) (session_id : string)
    (parts : list string) (now1 now2 : Q) (w : World) : handled :=
  if (Z.of_nat (length parts) <? 3) then (w, None)
  else
    let tutorial_id := nth 2 parts "" in
    match SessionManager.get_session_by_id session_id (session_manager w) with
    | None => (w, None)
    | Some session =>
        let sender_id := SessionManager.user_id session in
        let sender_name := SessionManager.name session in
        let w1 := send_all
          (ChatRoomManager.get_chat_sockets tutorial_id (Some sender_id) (rooms w))
          ("USER_LEFT:" ++ sender_id ++ ":" ++ sender_name) w in
        let after_attendance :=
          match Db.get_active_chat tutorial_id (db w1) with
          | Some chat =>
              let w2 := set_db w1
                (Db.set_attendance (db w1)
                   (Db.disconnect_attendance now1 (Db.chat_session_id chat)
                      sender_id (Db.attendance_rows (db w1)))) in
              _broadcast_attendance_update tutorial_id now2 w2
          | None => (w1, None)
          end in
        match after_attendance with
        | (w3, Some detail) => (w3, Some detail)
        | (w3, None) =>
            (set_rooms w3
               (snd (ChatRoomManager.remove_user tutorial_id sender_id (rooms w3))),
             None)
        end
    end.

(** *** Tutor JOIN_CHAT *)

(** [_handle_tutor_join_chat(client_socket, parts, tutor_id, session_id)]. *)
Definition _handle_tutor_join_chat (client_socket : Z) (parts : list string)
    (tutor_id : string) (w : World) : handled :=
  if (Z.of_nat (length parts) <? 3)
  then (reply client_socket "FAIL:Invalid command format" w, None)
  else
    let tutorial_id := nth 2 parts "" in
    match Db.get_active_chat tutorial_id (db w) with
    | None => (reply client_socket "FAIL:No active chat for this tutorial" w, None)
    | Some chat =>
        if negb (String.eqb (Db.tutor_id chat) tutor_id)
        then (reply client_socket "FAIL:Not authorized for this chat" w, None)
        else
          let w1 := set_rooms w
            (ChatRoomManager.add_socket tutorial_id tutor_id client_socket false
               (rooms w)) in
          let w2 := reply client_socket
            ("CHAT_JOINED:" ++ tutor_id ++ ":" ++ Db.chat_session_id chat) w1 in
          match Db.get_user tutor_id (db w2) with
          | None => (w2, Some "'NoneType' object is not subscriptable")
          | Some tutor =>
              (send_all
                 (ChatRoomManager.get_chat_sockets tutorial_id (Some tutor_id)
                    (rooms w2))
                 ("USER_JOINED|" ++ tutor_id ++ "|" ++ Db.u_name tutor ++ "|"
                    ++ fmt (Db.profile_pic tutor)) w2,
               None)
          end
    end.

(** *** Session resumption *)

(** [_handle_session_auth(client_socket, login_data)] for a [login_data]
    that starts with SESSION_AUTH and a bar.  Every role but tutor is served
    by the student loop. *)
Definition _handle_session_auth (client_socket : Z) (login_data : string) (w : World)
    : World :=
  let session_id := nth 1 (split_on pipe login_data) "" in
  match SessionManager.get_session_by_id session_id (session_manager w) with
  | Some session =>
      let user_id := SessionManager.user_id session in
      let w1 := reply client_socket "SUCCESS:Session authenticated" w in
      if String.eqb (SessionManager.role session) "tutor"
      then serve "tutor" client_socket user_id session_id w1
      else serve "student" client_socket user_id session_id w1
  | None => reject client_socket "FAIL:Invalid session" w
  end.

(** [handle_client(client_socket)] on what the first [receive_data]
    returned. *)
Definition handle_client (client_socket : Z) (r : received) (token : string)
    (now : Q) (w : World) : World :=
  if negb (status_ok (status r)) then close_socket client_socket w
  else if String.prefix "SESSION_AUTH|" (data r)
  then _handle_session_auth client_socket (data r) w
  else _handle_credential_auth client_socket (data r) token now w.

End Transport.

End Server.

(** * Notions of the statements and worlds of the examples *)

Section SessionRegistryNotions.

Import SessionManager.

(** Every stored session sits under its own [user_id]. *)
Definition well_keyed (m : SessionManager.t) : Prop :=
  forall k s, active_sessions m !! k = Some s -> user_id s = k.

(** A registry in which alice is logged in on socket 7. *)
Definition alice_registry : SessionManager.t :=
  snd (create_session "alice" "student" "Alice" (Some 7) "tok-1" 0 SessionManager.empty).

End SessionRegistryNotions.

Section AttendanceNotions.

Import Db.

Definition key_of (r : attendance) : string * string :=
  (a_chat_session_id r, student_id r).

(** The three row updates leave the key of a row alone. *)
Definition keeps_key (f : attendance -> attendance) : Prop :=
  forall r, key_of (f r) = key_of r.

(** What a join does to the record of the pair that joins. *)
Definition joined (now : Q) (cs tid st : string) (r : option attendance) : attendance :=
  match r with
  | Some r =>
      if negb (is_present r) then
        if Qeq_bool (first_join_time r) 0
        then set_first_join now (set_present now r)
        else set_present now r
      else r
  | None =>
      {| a_chat_session_id := cs; a_tutorial_id := tid; student_id := st;
         first_join_time := now; last_seen_time := now;
         total_duration_seconds := 0; is_present := true |}
  end.

(** What a leave does to the record of the pair that leaves. *)
Definition left (now : Q) (r : attendance) : attendance :=
  if is_present r
  then set_absent (total_duration_seconds r + int_of_float (now - last_seen_time r)%Q)
         now r
  else r.

(** A call on the attendance table, with the clock it reads. *)
Inductive transition :=
| Join (now : Q) (cs tid st : string)    (* [mark_student_present] *)
| Leave (now : Q) (cs st : string).      (* [disconnect_attendance] *)

Definition transition_time (e : transition) : Q :=
  match e with Join now _ _ _ => now | Leave now _ _ => now end.

Definition transition_pair (e : transition) : string * string :=
  match e with Join _ cs _ st => (cs, st) | Leave _ cs st => (cs, st) end.

Definition step (e : transition) (rows : list attendance) : list attendance :=
  match e with
  | Join now cs tid st => mark_student_present now cs tid st rows
  | Leave now cs st => disconnect_attendance now cs st rows
  end.

Definition run (evs : list transition) (rows : list attendance) : list attendance :=
  fold_left (fun rows e => step e rows) evs rows.

(** The accumulated duration of a pair: that of its record, 0 before the
    record exists. *)
Definition accumulated (cs st : string) (rows : list attendance) : Z :=
  match record_of cs st rows with
  | Some r => total_duration_seconds r
  | None => 0
  end.

(** The clock of a transition of the pair is not before the stored
    [last_seen_time]. *)
Definition on_time (cs st : string) (e : transition) (rows : list attendance) : bool :=
  if bool_decide (transition_pair e = (cs, st)) then
    match record_of cs st rows with
    | Some r => Qle_bool (last_seen_time r) (transition_time e)
    | None => true
    end
  else true.

Fixpoint clock_ok (cs st : string) (evs : list transition) (rows : list attendance)
    : bool :=
  match evs with
  | [] => true
  | e :: rest => on_time cs st e rows && clock_ok cs st rest (step e rows)
  end.

(** The pair has not joined yet: it has no record, or the absent record
    that [initialize_attendance_for_session] gives every student. *)
Definition not_joined_yet (cs st : string) (rows : list attendance) : bool :=
  match record_of cs st rows with
  | Some r => negb (is_present r) && Qeq_bool (first_join_time r) 0
              && (total_duration_seconds r =? 0)
  | None => true
  end.

(** The attendance table after [initialize_attendance_for_session] for a
    tutorial with the students s1 and s2. *)
Definition two_absent_students : list attendance :=
  [ {| a_chat_session_id := "cs-1"; a_tutorial_id := "T1"; student_id := "s1";
       first_join_time := 0; last_seen_time := 0; total_duration_seconds := 0;
       is_present := false |};
    {| a_chat_session_id := "cs-1"; a_tutorial_id := "T1"; student_id := "s2";
       first_join_time := 0; last_seen_time := 0; total_duration_seconds := 0;
       is_present := false |} ].

End AttendanceNotions.

Section RoomDirectoryNotions.

Import ChatRoomManager.

(** The slot that [add_socket] fills. *)
Definition attached (sock : Z) (is_chat_socket : bool) : sockets :=
  if is_chat_socket then {| primary := None; chat := Some sock |}
  else {| primary := Some sock; chat := None |}.

End RoomDirectoryNotions.

Section BroadcastNotions.

Import ChatRoomManager Server.

(** The user entries a getter called with [exclude_user_id=sender] reads. *)
Definition recipients (sender tid : string) (rooms : gmap string room)
    : list (string * sockets) :=
  List.filter (fun kv => negb (excluded (Some sender) (fst kv))) (users_of tid rooms).

(** How many times a payload was sent to one of the two sockets of a
    participant. *)
Definition copies (v : sockets) (payload : string) (tr : list event) : nat :=
  length (List.filter
            (fun sd => (slot_is (primary v) (fst sd) || slot_is (chat v) (fst sd))
                       && String.eqb (snd sd) payload)
            (sends tr)).

(** Some slot of some participant holds the socket. *)
Definition held (sock : Z) (us : list (string * sockets)) : bool :=
  existsb (fun kv => slot_is (primary (snd kv)) sock || slot_is (chat (snd kv)) sock) us.

End BroadcastNotions.

Section SessionTimerNotions.

Import Server.

Definition warning : string := "WARNING:5 minutes remaining".

End SessionTimerNotions.

Section CommandLoopNotions.

Import Server.

(** What [receive_data] returned ends the loop: a status other than OK, or
    no data. *)
Definition ends_loop (r : received) : Prop :=
  status r <> SOCK_STATUS_OK \/ data r = "".

(** A call of [receive_data] ends the loop: it raises, or what it returns
    ends it. *)
Definition ends_call (x : receive) : Prop :=
  match x with
  | Received r => ends_loop r
  | DecodeRaised => True
  end.

End CommandLoopNotions.

(** ** Worlds and instances of the examples *)

(** [int(s)] on the plain decimal numerals: the instance of the examples. *)
Fixpoint decimal_digits (acc : Z) (s : string) : option Z :=
  match s with
  | EmptyString => Some acc
  | String c rest =>
      let n := Z.of_nat (Ascii.nat_of_ascii c) in
      if (48 <=? n) && (n <=? 57) then decimal_digits (10 * acc + (n - 48)) rest
      else None
  end.

Definition decimal_int (s : string) : option Z :=
  match s with
  | EmptyString => None
  | String "-" rest =>
      match rest with
      | EmptyString => None
      | _ => Z.opp <$> decimal_digits 0 rest
      end
  | _ => decimal_digits 0 s
  end.

Definition classroom_db : Db.t :=
  {| Db.users :=
       <["t1" := {| Db.u_name := "Tia"; Db.password_hash := "h0";
                    Db.u_role := "tutor"; Db.profile_pic := None |}]>
       (<["s1" := {| Db.u_name := "Sam"; Db.password_hash := "h1";
                     Db.u_role := "student"; Db.profile_pic := None |}]>
       (<["s2" := {| Db.u_name := "Sue"; Db.password_hash := "h2";
                     Db.u_role := "student"; Db.profile_pic := None |}]> ∅));
     Db.tutorials := <["T1" := "Logic"]> ∅;
     Db.assignments := [("t1", "T1"); ("s1", "T1"); ("s2", "T1")];
     Db.active_chats := ∅;
     Db.attendance_rows := [] |}.

(** The tutor t1 is logged in with the token tok-t. *)
Definition tutor_logged_in : SessionManager.t :=
  snd (SessionManager.create_session "t1" "tutor" "Tia" (Some 1) "tok-t" 0
         SessionManager.empty).

(** The room of T1: the tutor, s1 with a primary socket only and s2 with
    both sockets. *)
Definition classroom : Server.World :=
  {| Server.session_manager := tutor_logged_in;
     Server.rooms :=
       <["T1" := {| ChatRoomManager.users :=
                      [("t1", {| ChatRoomManager.primary := Some 1;
                                 ChatRoomManager.chat := Some 2 |});
                       ("s1", {| ChatRoomManager.primary := Some 11;
                                 ChatRoomManager.chat := None |});
                       ("s2", {| ChatRoomManager.primary := Some 21;
                                 ChatRoomManager.chat := Some 22 |})];
                    ChatRoomManager.messages := [] |}]> ∅;
     Server.db := classroom_db;
     Server.trace := [] |}.

(** The room of T1 with the tutor and s1, each on a primary socket only. *)
Definition primary_only_room : Server.World :=
  {| Server.session_manager := tutor_logged_in;
     Server.rooms :=
       <["T1" := {| ChatRoomManager.users :=
                      [("t1", {| ChatRoomManager.primary := Some 1;
                                 ChatRoomManager.chat := None |});
                       ("s1", {| ChatRoomManager.primary := Some 11;
                                 ChatRoomManager.chat := None |})];
                    ChatRoomManager.messages := [] |}]> ∅;
     Server.db := classroom_db;
     Server.trace := [] |}.

Definition all_sends_ok : nat -> Z -> Server.sock_status :=
  fun _ _ => Server.SOCK_STATUS_OK.

Definition all_sends_closed : nat -> Z -> Server.sock_status :=
  fun _ _ => Server.SOCK_STATUS_CLOSED.

(** A bound of [time.sleep], the one the interpreter sets where the
    platform sets no lower one: CPython keeps the length in nanoseconds in a
    signed 64-bit integer, which holds 9223372036 seconds, that is 9223371736
    beyond five minutes. *)
Definition int64_nanoseconds : N := 9223371736.

(** The classroom before any chat: nobody is in a room. *)
Definition lobby : Server.World :=
  {| Server.session_manager := tutor_logged_in;
     Server.rooms := ∅;
     Server.db := classroom_db;
     Server.trace := [] |}.

(** The tutor has started a ten minute chat on T1. *)
Definition chat_started : Server.World :=
  fst (Server._handle_start_chat all_sends_ok decimal_int 1
         ["tok-t"; "START_CHAT"; "T1"; "10"] "t1" "cs-1" 1000 lobby).

Definition is_space (c : Ascii.ascii) : bool :=
  let n := Z.of_nat (Ascii.nat_of_ascii c) in
  (n =? 32) || ((9 <=? n) && (n <=? 13)).

Fixpoint lstrip (s : string) : string :=
  match s with
  | EmptyString => EmptyString
  | String c rest => if is_space c then lstrip rest else s
  end.

Fixpoint rstrip (s : string) : string :=
  match s with
  | EmptyString => EmptyString
  | String c rest =>
      match rstrip rest with
      | EmptyString => if is_space c then EmptyString else String c EmptyString
      | kept => String c kept
      end
  end.

(** [s.strip()] on ASCII text. *)
Definition strip_ascii (s : string) : string := rstrip (lstrip s).

(** A password check in which the hash of a password is the password. *)
Definition toy_checkpw (password hash : string) : option bool :=
  Some (String.eqb password hash).

(** A connection that sends no command. *)
Definition silent_client (role : string) (client_socket : Z)
    (user_id session_id : string) (w : Server.World) : Server.World := w.

(** Handlers that raise on START_CHAT and do nothing otherwise. *)
Definition raising_handler (command : string) (client_socket : Z)
    (tutor_id session_id : string) (parts : list string) (w : Server.World)
    : Server.handled :=
  if String.eqb command "START_CHAT" then (w, Some "IntegrityError") else (w, None).

(** The chat of [chat_started] after s2 has joined and opened its chat
    connection. *)
Definition chat_with_s2 : Server.World :=
  Server.set_rooms chat_started
    (ChatRoomManager.add_socket "T1" "s2" 22 true
       (ChatRoomManager.add_socket "T1" "s2" 21 false (Server.rooms chat_started))).

(** A [json.dumps] that keeps the student ids of the rows. *)
Definition ids_json (rows : list Db.report) : string :=
  join "," (map Db.r_student_id rows).

(** The chat of [chat_started] with the student s1 logged in on socket 11
    with the token tok-s1. *)
Definition s1_logged_in : Server.World :=
  Server.set_sessions chat_started
    (snd (SessionManager.create_session "s1" "student" "Sam" (Some 11) "tok-s1" 1001
            (Server.session_manager chat_started))).

(** The same after the JOIN_CHAT of s1 at 1010. *)
Definition s1_in_chat : Server.World :=
  fst (Server._handle_join_chat all_sends_ok ids_json 11
         ["tok-s1"; "JOIN_CHAT"; "T1"] "s1" "tok-s1" 1010 1010 s1_logged_in).

(** ** Notions of the further properties *)

Section RegistryCallsNotions.

Import SessionManager.

(** A call that changes the registry. *)
Inductive registry_call :=
| CreateSession (uid r n : string) (sock : option Z) (token : string) (now : Q)
| UpdateSocket (sid : string) (sock : option Z)
| EndSession (sid : string).

Definition registry_step (c : registry_call) (m : SessionManager.t) : SessionManager.t :=
  match c with
  | CreateSession uid r n sock token now =>
      snd (create_session uid r n sock token now m)
  | UpdateSocket sid sock => snd (update_socket sid sock m)
  | EndSession sid => snd (end_session sid m)
  end.

(** The registry after a sequence of calls on the empty one. *)
Definition registry_run (calls : list registry_call) : SessionManager.t :=
  fold_left (fun m c => registry_step c m) calls SessionManager.empty.

End RegistryCallsNotions.

Section AssignmentNotions.

Import Db.

(** The tutors assigned to a tutorial, in the order of [assignments]. *)
Definition tutors_assigned (tid : string) (d : Db.t) : list string :=
  omap (fun a : string * string =>
          if String.eqb (snd a) tid && is_tutor (fst a) d then Some (fst a) else None)
       (assignments d).

Definition one_tutor_per_tutorial (d : Db.t) : Prop :=
  forall tid, (length (tutors_assigned tid d) <= 1)%nat.

End AssignmentNotions.

Section CheckChatNotions.

Import Db.

(** The chat session a user may enter on a tutorial: the active chat of the
    tutorial, for the tutor who started it and for the students assigned to
    the tutorial. *)
Definition chat_open_for (uid tid : string) (d : Db.t) : option string :=
  match get_active_chat tid d, get_user_role uid d with
  | Some chat, Some role =>
      if (String.eqb role "tutor" && String.eqb (tutor_id chat) uid)
         || (String.eqb role "student" && enrolled uid tid d)
      then Some (chat_session_id chat)
      else None
  | _, _ => None
  end.

End CheckChatNotions.

(** * Properties *)

Example split_on_command :
  split_on pipe "tok|START_CHAT|T1|10" = ["tok"; "START_CHAT"; "T1"; "10"].
Proof. reflexivity. Qed.

Example int_of_float_truncates :
  int_of_float (7 # 2) = 3 /\ int_of_float (-7 # 2) = -3.
Proof. split; reflexivity. Qed.

(** ** Session registry *)

Section SessionRegistry.

Import SessionManager.

Lemma well_keyed_empty : well_keyed SessionManager.empty.
Proof. intros k s H. cbn in H. by rewrite lookup_empty in H. Qed.

Lemma well_keyed_create_session uid r n sock token now m :
  well_keyed m -> well_keyed (snd (create_session uid r n sock token now m)).
Proof.
  intros Hm k s. cbn. rewrite lookup_insert.
  case_decide as Hk.
  - intros [= <-]. by subst.
  - apply Hm.
Qed.

Lemma well_keyed_end_session sid m :
  well_keyed m -> well_keyed (snd (end_session sid m)).
Proof.
  intros Hm. unfold end_session.
  destruct (session_lookup m !! sid) as [uid|]; [|exact Hm].
  destruct (str_truthy uid); [|exact Hm].
  destruct (active_sessions m !! uid) as [s0|] eqn:E; cbn; [|exact Hm].
  intros k s. cbn. rewrite lookup_delete.
  case_decide; [discriminate|apply Hm].
Qed.

Lemma well_keyed_update_socket sid sock m :
  well_keyed m -> well_keyed (snd (update_socket sid sock m)).
Proof.
  intros Hm. unfold update_socket.
  destruct (session_lookup m !! sid) as [uid|]; [|exact Hm].
  destruct (str_truthy uid); [|exact Hm].
  destruct (active_sessions m !! uid) as [s0|] eqn:E; cbn; [|exact Hm].
  intros k s. cbn. rewrite lookup_insert.
  case_decide as Hk.
  - intros [= <-]. cbn. subst k. by apply Hm.
  - apply Hm.
Qed.

(** In a well-keyed registry no two entries are sessions of one user. *)
Lemma one_session_per_user m k1 k2 s1 s2 :
  well_keyed m ->
  active_sessions m !! k1 = Some s1 ->
  active_sessions m !! k2 = Some s2 ->
  user_id s1 = user_id s2 -> k1 = k2 /\ s1 = s2.
Proof.
  intros Hm H1 H2 Hu.
  assert (k1 = k2) as -> by (rewrite <- (Hm _ _ H1), <- (Hm _ _ H2); exact Hu).
  split; [done|congruence].
Qed.

(** The scan of [user_has_active_session] finds a session of the user iff
    one is stored. *)
Lemma user_has_active_session_spec uid m :
  user_has_active_session uid m = true <->
  exists k s, active_sessions m !! k = Some s /\ user_id s = uid.
Proof.
  unfold user_has_active_session. rewrite existsb_exists. split.
  - intros [[k s] [Hin Heq]]. exists k, s. split.
    + apply elem_of_map_to_list. by apply list_elem_of_In.
    + by apply String.eqb_eq.
  - intros (k & s & Hk & Hu). exists (k, s). split.
    + apply list_elem_of_In. by apply elem_of_map_to_list.
    + by apply String.eqb_eq.
Qed.

(** A token that is in the index of a non-empty [user_id] resolves, after a
    later [create_session] for that user, to the session just created. *)
Lemma create_session_rebinds_token m uid r n sock token now old_token :
  session_lookup m !! old_token = Some uid ->
  uid <> "" ->
  let sm := create_session uid r n sock token now m in
  session_lookup (snd sm) !! old_token = Some uid /\
  get_session_by_id old_token (snd sm) = Some (fst sm).
Proof.
  intros Hold Hne. cbn.
  assert (Hl : <[token := uid]> (session_lookup m) !! old_token = Some uid).
  { rewrite lookup_insert. by case_decide. }
  split; [exact Hl|].
  unfold get_session_by_id. cbn. rewrite Hl.
  assert (str_truthy uid = true) as ->.
  { unfold str_truthy. apply negb_true_iff. by apply String.eqb_neq. }
  by rewrite lookup_insert_eq.
Qed.

(** C1, as stated, fails: [create_session] has no failing path.  Called for
    a user whose session is live it returns a session all the same, and the
    registry it leaves behind resolves a token that was not there before. *)
Lemma create_session_overwrites_live_session :
  user_has_active_session "alice" alice_registry = true /\
  session_id (fst (create_session "alice" "student" "Alice" (Some 8) "tok-2" 1
                     alice_registry)) = "tok-2" /\
  snd (create_session "alice" "student" "Alice" (Some 8) "tok-2" 1 alice_registry)
    <> alice_registry.
Proof.
  split; [by vm_compute|]. split; [reflexivity|].
  intros H. apply (f_equal (fun m => session_lookup m !! "tok-2")) in H.
  vm_compute in H. discriminate.
Qed.

(** C10, as stated, fails for the empty [user_id]: [get_session_by_id]
    tests the looked-up [user_id] for truth, so no token of that user
    resolves, neither the old one nor the new one. *)
Lemma empty_user_id_tokens_do_not_resolve :
  let m1 := snd (create_session "" "student" "Ann" (Some 7) "tok-1" 0
                   SessionManager.empty) in
  let m2 := snd (create_session "" "student" "Ann" (Some 8) "tok-2" 1 m1) in
  active_sessions m1 !! "" <> None /\
  session_lookup m2 !! "tok-1" = Some "" /\
  get_session_by_id "tok-1" m2 = None /\
  get_session_by_id "tok-2" m2 = None.
Proof. cbv zeta. split; [by vm_compute|]. by vm_compute. Qed.

(** C10 (amended): when [create_session] is called a second time for a
    non-empty [user_id] that already has a session, the token of the earlier
    session is still in the token index and [get_session_by_id] on it returns
    the session created by the second call. *)
Theorem stale_token_resolves_to_latest_session
    m0 uid r1 n1 sock1 tok1 t1 r2 n2 sock2 tok2 t2 :
  uid <> "" ->
  let sm1 := create_session uid r1 n1 sock1 tok1 t1 m0 in
  let sm2 := create_session uid r2 n2 sock2 tok2 t2 (snd sm1) in
  active_sessions (snd sm1) !! uid = Some (fst sm1) /\
  session_lookup (snd sm2) !! tok1 = Some uid /\
  get_session_by_id tok1 (snd sm2) = Some (fst sm2).
Proof.
  intros Hne sm1 sm2. split.
  - subst sm1. cbn. by rewrite lookup_insert_eq.
  - apply create_session_rebinds_token; [|exact Hne].
    subst sm1. cbn. by rewrite lookup_insert_eq.
Qed.

Lemma stale_token_resolves_to_latest_session_witness :
  "alice" <> "" /\
  get_session_by_id "tok-1"
    (snd (create_session "alice" "student" "Alice" (Some 8) "tok-2" 1 alice_registry))
  = Some (fst (create_session "alice" "student" "Alice" (Some 8) "tok-2" 1
                 alice_registry)).
Proof.
  assert (H : "alice" <> "") by discriminate.
  split; [exact H|].
  exact (proj2 (proj2 (stale_token_resolves_to_latest_session
                         SessionManager.empty "alice" "student" "Alice" (Some 7)
                         "tok-1" 0 "student" "Alice" (Some 8) "tok-2" 1 H))).
Defined.

End SessionRegistry.

(** ** Attendance *)

Section Attendance.

Import Db.

Lemma row_of_key cs st r : row_of cs st r = true <-> key_of r = (cs, st).
Proof.
  unfold row_of, key_of. rewrite andb_true_iff, !String.eqb_eq.
  split; [intros [-> ->]; reflexivity | intros [= -> ->]; done].
Qed.

Lemma keeps_key_set_present now : keeps_key (set_present now).
Proof. by intros r. Qed.
Lemma keeps_key_set_first_join now : keeps_key (set_first_join now).
Proof. by intros r. Qed.
Lemma keeps_key_set_absent total now : keeps_key (set_absent total now).
Proof. by intros r. Qed.

Lemma row_of_keeps_key cs st f r :
  keeps_key f -> row_of cs st (f r) = row_of cs st r.
Proof.
  intros Hf. apply eq_true_iff_eq. rewrite !row_of_key. by rewrite Hf.
Qed.

Lemma update_rows_keys cs st f rows :
  keeps_key f -> map key_of (update_rows cs st f rows) = map key_of rows.
Proof.
  intros Hf. unfold update_rows. rewrite map_map. apply map_ext.
  intros r. by destruct (row_of cs st r); [rewrite Hf|].
Qed.

(** [UPDATE ... WHERE] on the pair rewrites its record. *)
Lemma record_of_update_rows cs st f rows :
  keeps_key f ->
  record_of cs st (update_rows cs st f rows) = f <$> record_of cs st rows.
Proof.
  intros Hf. unfold record_of, update_rows.
  induction rows as [|r rows IH]; [reflexivity|]. cbn.
  destruct (row_of cs st r) eqn:E.
  - by rewrite row_of_keeps_key, E.
  - by rewrite E.
Qed.

(** ... and no record of another pair. *)
Lemma record_of_update_rows_other cs st cs' st' f rows :
  keeps_key f -> (cs', st') <> (cs, st) ->
  record_of cs st (update_rows cs' st' f rows) = record_of cs st rows.
Proof.
  intros Hf Hne. unfold record_of, update_rows.
  induction rows as [|r rows IH]; [reflexivity|]. cbn.
  destruct (row_of cs' st' r) eqn:E'.
  - rewrite row_of_keeps_key by done.
    destruct (row_of cs st r) eqn:E; [|exact IH].
    apply row_of_key in E, E'. congruence.
  - by rewrite IH.
Qed.

Lemma record_of_app cs st rows more :
  record_of cs st (rows ++ more) =
  match record_of cs st rows with
  | Some r => Some r
  | None => record_of cs st more
  end.
Proof.
  unfold record_of. induction rows as [|r rows IH]; [reflexivity|]. cbn.
  by destruct (row_of cs st r).
Qed.

Lemma record_of_None_key cs st rows :
  record_of cs st rows = None -> (cs, st) ∉ map key_of rows.
Proof.
  unfold record_of. induction rows as [|r rows IH]; cbn.
  - intros _. apply not_elem_of_nil.
  - destruct (row_of cs st r) eqn:E; [discriminate|]. intros H.
    apply not_elem_of_cons. split; [|by apply IH].
    intros Hk. symmetry in Hk. apply row_of_key in Hk. congruence.
Qed.

(** In a keyed table the present row that [disconnect_attendance] selects is
    the record of the pair. *)
Lemma present_row_is_record cs st rows r :
  keyed rows ->
  find (fun r => row_of cs st r && is_present r) rows = Some r ->
  record_of cs st rows = Some r /\ is_present r = true.
Proof.
  unfold keyed, record_of. fold key_of.
  induction rows as [|h rows IH]; cbn; [discriminate|].
  intros Hnd. apply NoDup_cons in Hnd as [Hh Hnd].
  destruct (row_of cs st h) eqn:E; cbn.
  - destruct (is_present h) eqn:P.
    + intros [= <-]. done.
    + intros Hf. apply find_some in Hf as [Hin Hr].
      apply andb_true_iff in Hr as [Hr _].
      apply row_of_key in Hr, E. exfalso. apply Hh.
      rewrite E, <- Hr. apply list_elem_of_In. by apply in_map.
  - by apply IH.
Qed.

Lemma record_absent_no_present_row cs st rows r :
  keyed rows -> record_of cs st rows = Some r -> is_present r = false ->
  find (fun r => row_of cs st r && is_present r) rows = None.
Proof.
  intros Hk Hr Hp.
  destruct (find _ rows) as [r'|] eqn:E; [|reflexivity].
  destruct (present_row_is_record _ _ _ _ Hk E) as [Hr' Hp']. congruence.
Qed.

Lemma record_none_no_present_row cs st rows :
  record_of cs st rows = None ->
  find (fun r => row_of cs st r && is_present r) rows = None.
Proof.
  unfold record_of. induction rows as [|h rows IH]; cbn; [done|].
  destruct (row_of cs st h); [discriminate|]. cbn. exact IH.
Qed.

Lemma record_of_mark_student_present now cs tid st rows :
  record_of cs st (mark_student_present now cs tid st rows)
  = Some (joined now cs tid st (record_of cs st rows)).
Proof.
  unfold mark_student_present, joined.
  change (find (row_of cs st) rows) with (record_of cs st rows).
  destruct (record_of cs st rows) as [r|] eqn:E.
  - destruct (is_present r); cbn [negb]; [exact E|].
    destruct (Qeq_bool (first_join_time r) 0).
    + rewrite !record_of_update_rows, E;
        auto using keeps_key_set_present, keeps_key_set_first_join.
    + rewrite record_of_update_rows, E; auto using keeps_key_set_present.
  - rewrite record_of_app, E. unfold record_of, row_of. cbn.
    by rewrite !String.eqb_refl.
Qed.

Lemma record_of_mark_student_present_other now cs st cs' tid' st' rows :
  (cs', st') <> (cs, st) ->
  record_of cs st (mark_student_present now cs' tid' st' rows) = record_of cs st rows.
Proof.
  intros Hne. unfold mark_student_present.
  destruct (find (row_of cs' st') rows) as [r|].
  - destruct (is_present r); cbn [negb]; [reflexivity|].
    destruct (Qeq_bool (first_join_time r) 0);
      rewrite !record_of_update_rows_other;
      auto using keeps_key_set_present, keeps_key_set_first_join.
  - rewrite record_of_app. destruct (record_of cs st rows); [reflexivity|].
    unfold record_of. cbn.
    destruct (row_of cs st _) eqn:E; [|reflexivity].
    apply row_of_key in E. unfold key_of in E. cbn in E. congruence.
Qed.

Lemma record_of_disconnect_attendance now cs st rows :
  keyed rows ->
  record_of cs st (disconnect_attendance now cs st rows)
  = left now <$> record_of cs st rows.
Proof.
  intros Hk. unfold disconnect_attendance, left.
  destruct (find _ rows) as [r|] eqn:E.
  - destruct (present_row_is_record _ _ _ _ Hk E) as [Hr Hp].
    rewrite record_of_update_rows, Hr by apply keeps_key_set_absent.
    cbn. by rewrite Hp.
  - destruct (record_of cs st rows) as [r|] eqn:Hr; [|reflexivity]. cbn.
    destruct (is_present r) eqn:Hp; [|reflexivity].
    exfalso. revert E Hr Hp. unfold record_of. clear Hk.
    induction rows as [|h rows IH]; cbn; [discriminate|].
    destruct (row_of cs st h); cbn.
    + intros E [= ->] Hp. rewrite Hp in E. discriminate.
    + exact IH.
Qed.

Lemma record_of_disconnect_attendance_other now cs st cs' st' rows :
  (cs', st') <> (cs, st) ->
  record_of cs st (disconnect_attendance now cs' st' rows) = record_of cs st rows.
Proof.
  intros Hne. unfold disconnect_attendance.
  destruct (find _ rows); [|reflexivity].
  by rewrite record_of_update_rows_other by auto using keeps_key_set_absent.
Qed.

(** The table stays keyed. *)
Lemma keyed_mark_student_present now cs tid st rows :
  keyed rows -> keyed (mark_student_present now cs tid st rows).
Proof.
  unfold keyed. fold key_of. intros Hk. unfold mark_student_present.
  destruct (find (row_of cs st) rows) as [r|] eqn:E.
  - destruct (is_present r); cbn [negb]; [exact Hk|].
    destruct (Qeq_bool (first_join_time r) 0);
      rewrite !update_rows_keys;
      auto using keeps_key_set_present, keeps_key_set_first_join.
  - rewrite map_app. cbn. apply NoDup_app. split; [exact Hk|]. split.
    + intros k Hin Hk'. apply list_elem_of_singleton in Hk'. subst k.
      by apply (record_of_None_key cs st rows).
    + apply NoDup_singleton.
Qed.

Lemma keyed_disconnect_attendance now cs st rows :
  keyed rows -> keyed (disconnect_attendance now cs st rows).
Proof.
  unfold keyed. fold key_of. intros Hk. unfold disconnect_attendance.
  destruct (find _ rows); [|exact Hk].
  by rewrite update_rows_keys by apply keeps_key_set_absent.
Qed.

(** [initialize_attendance_for_session] for a chat session that has no row
    yet keeps the table keyed, the students of the tutorial being listed
    once each. *)
Lemma keyed_initialize_attendance cs tid d :
  keyed (attendance_rows d) ->
  (forall r, r ∈ attendance_rows d -> a_chat_session_id r <> cs) ->
  NoDup (students_of tid d) ->
  keyed (attendance_rows (initialize_attendance_for_session cs tid d)).
Proof.
  unfold keyed. fold key_of. intros Hk Hfresh Hst. cbn.
  rewrite map_app, map_map. cbn. apply NoDup_app. split; [exact Hk|]. split.
  - intros k Hin Hnew. apply list_elem_of_In, in_map_iff in Hin as (r & <- & Hr).
    apply list_elem_of_In, in_map_iff in Hnew as (st & Heq & _).
    apply (Hfresh r); [by apply list_elem_of_In|].
    unfold key_of in Heq. cbn in Heq. congruence.
  - induction Hst as [|st sts Hnew Hst IH]; cbn; [apply NoDup_nil_2|].
    apply NoDup_cons_2; [|exact IH].
    intros Hin. apply list_elem_of_In, in_map_iff in Hin as (y & Heq & Hy).
    unfold key_of in Heq. cbn in Heq. injection Heq as ->.
    apply Hnew. by apply list_elem_of_In.
Qed.

(** [int(now - last_seen_time)] is not negative when the clock has not gone
    back. *)
Lemma int_of_float_elapsed (last now : Q) :
  (last <= now)%Q -> 0 <= int_of_float (now - last)%Q.
Proof.
  intros H. unfold int_of_float. apply Z.quot_pos; [|lia].
  apply Qle_minus_iff in H. unfold Qle in H. cbn in H.
  unfold Qminus. cbn. lia.
Qed.

(** [int()] of a float that is not negative is the number of its whole
    units. *)
Lemma int_of_float_whole (x : Q) :
  (0 <= x)%Q ->
  (inject_Z (int_of_float x) <= x)%Q /\ (x < inject_Z (int_of_float x) + 1)%Q.
Proof.
  destruct x as [n d]. unfold Qle, Qlt, int_of_float. cbn. intros Hn.
  assert (H0 : 0 <= n) by lia.
  rewrite Z.quot_div_nonneg by lia.
  pose proof (Z.mul_div_le n (Zpos d) ltac:(lia)) as Hle.
  pose proof (Z.mul_succ_div_gt n (Zpos d) ltac:(lia)) as Hgt.
  split; nia.
Qed.

(** A float of one unit or more has an [int()] of one or more. *)
Lemma int_of_float_one (x : Q) : (1 <= x)%Q -> 1 <= int_of_float x.
Proof.
  destruct x as [n d]. unfold Qle, int_of_float. cbn. intros Hn.
  rewrite Z.quot_div_nonneg by lia.
  apply Z.div_le_lower_bound; lia.
Qed.

(** *** Sequences of join and leave transitions *)

Lemma keyed_step e rows : keyed rows -> keyed (step e rows).
Proof.
  destruct e; cbn;
    auto using keyed_mark_student_present, keyed_disconnect_attendance.
Qed.

Lemma keyed_run evs rows : keyed rows -> keyed (run evs rows).
Proof.
  revert rows. induction evs as [|e evs IH]; intros rows Hk; [exact Hk|].
  cbn. apply IH. by apply keyed_step.
Qed.

Lemma accumulated_step cs st e rows :
  keyed rows -> on_time cs st e rows = true ->
  accumulated cs st rows <= accumulated cs st (step e rows).
Proof.
  intros Hk Ht. unfold accumulated, on_time in *.
  destruct e as [now cs' tid' st'|now cs' st'];
    cbn [step transition_pair transition_time] in *.
  - case_bool_decide as Hp.
    + injection Hp as -> ->. rewrite record_of_mark_student_present.
      unfold joined. destruct (record_of cs st rows) as [r|]; cbn; [|lia].
      destruct (is_present r); cbn; [lia|].
      destruct (Qeq_bool (first_join_time r) 0); cbn; lia.
    + rewrite record_of_mark_student_present_other by done. lia.
  - case_bool_decide as Hp.
    + injection Hp as -> ->. rewrite record_of_disconnect_attendance by done.
      destruct (record_of cs st rows) as [r|]; cbn; [|lia].
      unfold left. destruct (is_present r); cbn; [|lia].
      apply Qle_bool_iff in Ht. apply int_of_float_elapsed in Ht. lia.
    + rewrite record_of_disconnect_attendance_other by done. lia.
Qed.

Lemma accumulated_run cs st evs rows :
  keyed rows -> clock_ok cs st evs rows = true ->
  accumulated cs st rows <= accumulated cs st (run evs rows).
Proof.
  revert rows. induction evs as [|e evs IH]; intros rows Hk Hc; cbn; [lia|].
  cbn in Hc. apply andb_true_iff in Hc as [He Hc].
  etransitivity; [by apply accumulated_step|].
  apply IH; [by apply keyed_step|exact Hc].
Qed.

Lemma clock_ok_app cs st evs1 evs2 rows :
  clock_ok cs st (evs1 ++ evs2) rows = true ->
  clock_ok cs st evs2 (run evs1 rows) = true.
Proof.
  revert rows. induction evs1 as [|e evs1 IH]; intros rows; cbn; [done|].
  intros H. apply andb_true_iff in H as [_ H]. by apply IH.
Qed.

(** Along every sequence of [mark_student_present] and
    [disconnect_attendance] calls a keyed attendance table stays keyed: no
    call gives a (chat session, student) pair a second row. *)
Theorem attendance_table_stays_keyed evs rows :
  keyed rows -> keyed (run evs rows).
Proof. apply keyed_run. Qed.

(** C3: along every sequence of [mark_student_present] and
    [disconnect_attendance] calls on a keyed attendance table, the
    accumulated duration ([total_duration_seconds]) of a (chat session,
    student) pair never decreases from one point of the sequence to a later
    one, provided the clock at each transition of the pair is at least the
    stored [last_seen_time]. *)
Theorem accumulated_duration_monotone cs st evs1 evs2 rows :
  keyed rows ->
  clock_ok cs st (evs1 ++ evs2) rows = true ->
  accumulated cs st (run evs1 rows) <= accumulated cs st (run (evs1 ++ evs2) rows).
Proof.
  intros Hk Hc. unfold run at 2. rewrite fold_left_app.
  apply (accumulated_run cs st evs2 (run evs1 rows)).
  - by apply keyed_run.
  - by apply clock_ok_app.
Qed.

Lemma accumulated_duration_monotone_witness :
  keyed [] /\
  clock_ok "cs-1" "s1"
    ([Join 100 "cs-1" "T1" "s1"; Leave (261 # 2) "cs-1" "s1"]
     ++ [Join 200 "cs-1" "T1" "s1"; Leave 260 "cs-1" "s1"]) [] = true /\
  accumulated "cs-1" "s1"
    (run [Join 100 "cs-1" "T1" "s1"; Leave (261 # 2) "cs-1" "s1"] []) <=
  accumulated "cs-1" "s1"
    (run ([Join 100 "cs-1" "T1" "s1"; Leave (261 # 2) "cs-1" "s1"]
          ++ [Join 200 "cs-1" "T1" "s1"; Leave 260 "cs-1" "s1"]) []).
Proof.
  assert (Hk : keyed []) by apply NoDup_nil_2.
  split; [exact Hk|]. split; [vm_compute; reflexivity|].
  apply (accumulated_duration_monotone "cs-1" "s1"
           [Join 100 "cs-1" "T1" "s1"; Leave (261 # 2) "cs-1" "s1"]
           [Join 200 "cs-1" "T1" "s1"; Leave 260 "cs-1" "s1"] [] Hk).
  vm_compute; reflexivity.
Defined.

Example accumulated_after_two_visits :
  accumulated "cs-1" "s1"
    (run [Join 100 "cs-1" "T1" "s1"; Leave (261 # 2) "cs-1" "s1";
          Join 200 "cs-1" "T1" "s1"; Leave 260 "cs-1" "s1"] []) = 90.
Proof. reflexivity. Qed.

(** *** Join, leave, rejoin *)

Lemma Qeq_bool_after_epoch (t : Q) : (0 < t)%Q -> Qeq_bool t 0 = false.
Proof.
  intros H. destruct (Qeq_bool t 0) eqn:E; [|reflexivity].
  apply Qeq_bool_iff in E. rewrite E in H. by apply Qlt_irrefl in H.
Qed.

(** A visit of an absent pair from [t1] to [t2] followed by a rejoin at
    [t3]: the record is present again, holds what it had accumulated plus the
    visit, and keeps the [first_join_time] it had after the join at [t1]. *)
Lemma visit_then_rejoin cs tid st t1 t2 t3 rows :
  keyed rows ->
  match record_of cs st rows with
  | Some r => is_present r = false
  | None => True
  end ->
  (0 < t1)%Q ->
  let rows1 := mark_student_present t1 cs tid st rows in
  let rows2 := disconnect_attendance t2 cs st rows1 in
  let rows3 := mark_student_present t3 cs tid st rows2 in
  exists r1 r3,
    record_of cs st rows1 = Some r1 /\
    record_of cs st rows3 = Some r3 /\
    is_present r3 = true /\
    last_seen_time r3 = t3 /\
    total_duration_seconds r3 = accumulated cs st rows + int_of_float (t2 - t1)%Q /\
    first_join_time r3 = first_join_time r1 /\
    first_join_time r1 =
      match record_of cs st rows with
      | Some r => if Qeq_bool (first_join_time r) 0 then t1 else first_join_time r
      | None => t1
      end.
Proof.
  intros Hk Habs Ht1 rows1 rows2 rows3.
  pose proof (Qeq_bool_after_epoch t1 Ht1) as Hz.
  assert (Hk1 : keyed rows1) by by apply keyed_mark_student_present.
  exists (joined t1 cs tid st (record_of cs st rows)).
  exists (joined t3 cs tid st (record_of cs st rows2)).
  split; [apply record_of_mark_student_present|].
  split; [apply record_of_mark_student_present|].
  subst rows3 rows2. rewrite record_of_disconnect_attendance by done.
  subst rows1. rewrite record_of_mark_student_present.
  unfold accumulated, joined, left.
  destruct (record_of cs st rows) as [r|]; cbn.
  - rewrite Habs. cbn.
    destruct (Qeq_bool (first_join_time r) 0) eqn:E; cbn; rewrite ?Hz, ?E; cbn;
      repeat split; reflexivity.
  - rewrite Hz. cbn. repeat split; reflexivity.
Qed.

(** C4: a student who has not joined yet joins the chat session at [t1]
    (after the epoch), leaves at [t2] and rejoins at [t3].  After the rejoin
    the attendance record of the pair is present, its accumulated duration is
    that of the first visit, [int(t2 - t1)]: when the leave is not before the
    join these are the whole seconds of [t2 - t1], at most [t2 - t1] and less
    than a second short of it, so not zero again once the visit lasted a
    second; and its [first_join_time] is still the time of the first join. *)
Theorem rejoin_keeps_first_visit cs tid st t1 t2 t3 rows :
  keyed rows ->
  not_joined_yet cs st rows = true ->
  (0 < t1)%Q ->
  let rows1 := mark_student_present t1 cs tid st rows in
  let rows2 := disconnect_attendance t2 cs st rows1 in
  let rows3 := mark_student_present t3 cs tid st rows2 in
  exists r1 r3,
    record_of cs st rows1 = Some r1 /\
    record_of cs st rows3 = Some r3 /\
    is_present r3 = true /\
    total_duration_seconds r3 = int_of_float (t2 - t1)%Q /\
    ((t1 <= t2)%Q ->
       (inject_Z (total_duration_seconds r3) <= t2 - t1)%Q /\
       (t2 - t1 < inject_Z (total_duration_seconds r3) + 1)%Q) /\
    ((1 <= t2 - t1)%Q -> 1 <= total_duration_seconds r3) /\
    first_join_time r1 = t1 /\
    first_join_time r3 = first_join_time r1.
Proof.
  intros Hk Hn Ht1.
  destruct (visit_then_rejoin cs tid st t1 t2 t3 rows Hk) as
    (r1 & r3 & H1 & H3 & Hp & _ & Htot & Hf3 & Hf1); [|exact Ht1|].
  - unfold not_joined_yet in Hn. destruct (record_of cs st rows) as [r|]; [|done].
    apply andb_true_iff in Hn as [Hn _]. apply andb_true_iff in Hn as [Hn _].
    by apply negb_true_iff.
  - assert (Htotal : total_duration_seconds r3 = int_of_float (t2 - t1)%Q).
    { rewrite Htot. unfold accumulated, not_joined_yet in *.
      destruct (record_of cs st rows) as [r|]; [|lia].
      apply andb_true_iff in Hn as [_ Hn]. apply Z.eqb_eq in Hn. lia. }
    assert (Hwhole : (t1 <= t2)%Q ->
              (inject_Z (total_duration_seconds r3) <= t2 - t1)%Q /\
              (t2 - t1 < inject_Z (total_duration_seconds r3) + 1)%Q).
    { intros Hle. rewrite Htotal. apply int_of_float_whole.
      apply Qle_minus_iff in Hle. exact Hle. }
    exists r1, r3.
    split; [exact H1|]. split; [exact H3|]. split; [exact Hp|].
    split; [exact Htotal|]. split; [exact Hwhole|]. split; [|split].
    + intros Hsec. rewrite Htotal. by apply int_of_float_one.
    + rewrite Hf1. unfold not_joined_yet in Hn.
      destruct (record_of cs st rows) as [r|]; [|reflexivity].
      apply andb_true_iff in Hn as [Hn _]. apply andb_true_iff in Hn as [_ Hn].
      by rewrite Hn.
    + exact Hf3.
Qed.

Lemma rejoin_keeps_first_visit_witness :
  keyed two_absent_students /\
  not_joined_yet "cs-1" "s1" two_absent_students = true /\
  (0 < 100)%Q /\
  exists r1 r3,
    record_of "cs-1" "s1"
      (mark_student_present 100 "cs-1" "T1" "s1" two_absent_students) = Some r1 /\
    record_of "cs-1" "s1"
      (mark_student_present 200 "cs-1" "T1" "s1"
         (disconnect_attendance (261 # 2) "cs-1" "s1"
            (mark_student_present 100 "cs-1" "T1" "s1" two_absent_students)))
      = Some r3 /\
    is_present r3 = true /\
    total_duration_seconds r3 = 30 /\
    first_join_time r1 = 100%Q /\
    first_join_time r3 = 100%Q.
Proof.
  assert (Hk : keyed two_absent_students).
  { unfold keyed, two_absent_students. cbn.
    apply NoDup_cons. split.
    - intros H. apply list_elem_of_singleton in H. discriminate.
    - apply NoDup_singleton. }
  assert (Ht : (0 < 100)%Q) by reflexivity.
  split; [exact Hk|]. split; [reflexivity|]. split; [exact Ht|].
  destruct (rejoin_keeps_first_visit "cs-1" "T1" "s1" 100 (261 # 2) 200
              two_absent_students Hk eq_refl Ht)
    as (r1 & r3 & H1 & H3 & Hp & Htot & _ & _ & Hf1 & Hf3).
  exists r1, r3.
  split; [exact H1|]. split; [exact H3|]. split; [exact Hp|].
  split; [exact Htot|]. split; [exact Hf1|]. by rewrite Hf3.
Defined.

Example rejoin_after_thirty_seconds :
  record_of "cs-1" "s1"
    (mark_student_present 200 "cs-1" "T1" "s1"
       (disconnect_attendance (261 # 2) "cs-1" "s1"
          (mark_student_present 100 "cs-1" "T1" "s1" two_absent_students)))
  = Some {| a_chat_session_id := "cs-1"; a_tutorial_id := "T1"; student_id := "s1";
            first_join_time := 100; last_seen_time := 200;
            total_duration_seconds := 30; is_present := true |}.
Proof. reflexivity. Qed.

End Attendance.

(** ** Room directory *)

Section RoomDirectory.

Import ChatRoomManager.

Lemma users_of_insert tid r (rooms : gmap string room) :
  users_of tid (<[tid := r]> rooms) = users r.
Proof. unfold users_of. by rewrite lookup_insert_eq. Qed.

Lemma users_mem_false_get uid us :
  users_mem uid us = false -> users_get uid us = None.
Proof. unfold users_mem. by destruct (users_get uid us). Qed.

(** A new key goes to the end of the dict. *)
Lemma users_set_new uid v us :
  users_mem uid us = false -> users_set uid v us = (us ++ [(uid, v)])%list.
Proof.
  unfold users_mem. induction us as [|[k w] us IH]; cbn; [done|].
  destruct (String.eqb k uid); [discriminate|]. intros H. by rewrite IH.
Qed.

Lemma users_set_last uid v w us :
  users_mem uid us = false ->
  users_set uid v (us ++ [(uid, w)])%list = (us ++ [(uid, v)])%list.
Proof.
  unfold users_mem. induction us as [|[k x] us IH]; cbn.
  - by rewrite String.eqb_refl.
  - destruct (String.eqb k uid); [discriminate|]. intros H. by rewrite IH.
Qed.

Lemma users_get_last uid v us :
  users_mem uid us = false -> users_get uid (us ++ [(uid, v)])%list = Some v.
Proof.
  unfold users_mem. induction us as [|[k x] us IH]; cbn.
  - by rewrite String.eqb_refl.
  - destruct (String.eqb k uid); [discriminate|]. exact IH.
Qed.

Lemma users_del_last uid v us :
  users_mem uid us = false -> users_del uid (us ++ [(uid, v)])%list = us.
Proof.
  unfold users_mem. induction us as [|[k x] us IH]; cbn.
  - by rewrite String.eqb_refl.
  - destruct (String.eqb k uid); [discriminate|]. intros H. by rewrite IH.
Qed.

(** [add_socket] for a user without an entry appends the entry. *)
Lemma add_socket_new_user tid uid sock is_chat rooms :
  users_mem uid (users_of tid rooms) = false ->
  users_of tid (add_socket tid uid sock is_chat rooms)
  = (users_of tid rooms ++ [(uid, attached sock is_chat)])%list.
Proof.
  intros Hm. unfold add_socket. rewrite users_of_insert. cbn.
  unfold users_of in *.
  destruct (rooms !! tid) as [r|]; cbn in *.
  - rewrite Hm. rewrite (users_set_new uid no_sockets) by done.
    rewrite users_get_last by done. rewrite users_set_last by done.
    by destruct is_chat.
  - rewrite String.eqb_refl. by destruct is_chat.
Qed.

(** [remove_dead_socket] keeps every user entry. *)
Lemma remove_dead_socket_users tid dead rooms :
  users_of tid (remove_dead_socket tid dead rooms)
  = map (fun kv => (fst kv, drop_socket dead (snd kv))) (users_of tid rooms).
Proof.
  unfold remove_dead_socket, users_of.
  destruct (rooms !! tid) as [r|] eqn:E; [|by rewrite E].
  by rewrite lookup_insert_eq.
Qed.

Lemma is_active_users tid rooms :
  is_active tid rooms = (0 <? Z.of_nat (length (users_of tid rooms))).
Proof. unfold is_active, users_of. by destruct (rooms !! tid). Qed.

Lemma remove_dead_socket_is_active tid dead rooms :
  is_active tid (remove_dead_socket tid dead rooms) = is_active tid rooms.
Proof. by rewrite !is_active_users, remove_dead_socket_users, length_map. Qed.

Lemma users_get_map uid (f : sockets -> sockets) us :
  users_get uid (map (fun kv => (fst kv, f (snd kv))) us) = f <$> users_get uid us.
Proof.
  induction us as [|[k v] us IH]; cbn; [done|].
  by destruct (String.eqb k uid).
Qed.

Lemma users_del_absent uid us :
  users_mem uid us = false -> users_del uid us = us.
Proof.
  unfold users_mem. induction us as [|[k v] us IH]; cbn; [done|].
  destruct (String.eqb k uid); [discriminate|]. intros H. by rewrite IH.
Qed.

(** [remove_user] deletes the entry of the user, if there is one. *)
Lemma remove_user_users tid uid rooms :
  users_of tid (snd (remove_user tid uid rooms)) = users_del uid (users_of tid rooms).
Proof.
  unfold remove_user, users_of.
  destruct (rooms !! tid) as [r|] eqn:E; cbn; [|by rewrite E].
  destruct (users_mem uid (users r)) eqn:M; cbn.
  - by rewrite lookup_insert_eq.
  - by rewrite E, users_del_absent.
Qed.

Lemma drop_socket_attached sock is_chat :
  drop_socket sock (attached sock is_chat) = no_sockets.
Proof. unfold drop_socket, attached. destruct is_chat; cbn; by rewrite Z.eqb_refl. Qed.

(** C7, as stated, fails: after a socket is attached for the only user of a
    room and detached again by [remove_dead_socket], the entry of the user is
    still in the room, with both slots empty, and [is_active] reports true,
    where it reported false before the socket was attached. *)
Lemma detached_user_keeps_room_active :
  let attached_rooms := add_socket "T1" "s1" 11 false ∅ in
  let detached := remove_dead_socket "T1" 11 attached_rooms in
  is_active "T1" ∅ = false /\
  users_of "T1" detached = [("s1", {| primary := None; chat := None |})] /\
  is_active "T1" detached = true.
Proof. cbv zeta. by vm_compute. Qed.

(** C7 (amended): [remove_dead_socket] empties the slots that hold the dead
    socket and keeps the user entries, so after a socket is attached for a
    user who had no entry and detached again the entry is still there, both
    slots empty, and [is_active] reports true.  The entry goes with
    [remove_user]: attaching and then removing the user gives back the user
    entries the room had before, and [is_active] reports what it reported
    then (false for a room whose only user that was). *)
Theorem detach_keeps_entry_remove_user_drops_it tid uid sock is_chat rooms :
  users_mem uid (users_of tid rooms) = false ->
  let attached_rooms := add_socket tid uid sock is_chat rooms in
  let detached := remove_dead_socket tid sock attached_rooms in
  let removed := snd (remove_user tid uid attached_rooms) in
  users_get uid (users_of tid detached) = Some no_sockets /\
  is_active tid detached = true /\
  users_of tid removed = users_of tid rooms /\
  is_active tid removed = is_active tid rooms.
Proof.
  intros Hm attached_rooms detached removed.
  pose proof (add_socket_new_user tid uid sock is_chat rooms Hm) as Ha.
  fold attached_rooms in Ha.
  assert (Hr : users_of tid removed = users_of tid rooms).
  { subst removed. rewrite remove_user_users, Ha. by apply users_del_last. }
  repeat split.
  - subst detached. rewrite remove_dead_socket_users, users_get_map, Ha.
    rewrite users_get_last by done. cbn. by rewrite drop_socket_attached.
  - subst detached. rewrite remove_dead_socket_is_active, is_active_users, Ha.
    rewrite length_app. cbn. apply Z.ltb_lt. lia.
  - exact Hr.
  - by rewrite !is_active_users, Hr.
Qed.

Lemma detach_keeps_entry_remove_user_drops_it_witness :
  users_mem "s1" (users_of "T1" ∅) = false /\
  users_get "s1"
    (users_of "T1" (remove_dead_socket "T1" 11 (add_socket "T1" "s1" 11 false ∅)))
  = Some no_sockets /\
  is_active "T1" (remove_dead_socket "T1" 11 (add_socket "T1" "s1" 11 false ∅)) = true /\
  users_of "T1" (snd (remove_user "T1" "s1" (add_socket "T1" "s1" 11 false ∅)))
  = users_of "T1" ∅ /\
  is_active "T1" (snd (remove_user "T1" "s1" (add_socket "T1" "s1" 11 false ∅)))
  = is_active "T1" ∅.
Proof.
  split; [reflexivity|].
  exact (detach_keeps_entry_remove_user_drops_it "T1" "s1" 11 false ∅ eq_refl).
Defined.

End RoomDirectory.

(** ** Broadcast *)

Section Broadcast.

Import ChatRoomManager Server.

Lemma collect_recipients pick sender tid rooms :
  collect pick tid (Some sender) rooms
  = flat_map (fun kv => pick (snd kv)) (recipients sender tid rooms).
Proof.
  unfold collect, recipients, users_of.
  destruct (rooms !! tid) as [r|]; [|reflexivity].
  generalize (users r). intros us.
  induction us as [|kv us IH]; [reflexivity|].
  cbn [flat_map List.filter]. rewrite IH.
  by destruct (excluded (Some sender) (fst kv)).
Qed.

Lemma sends_app tr1 tr2 : sends (tr1 ++ tr2) = (sends tr1 ++ sends tr2)%list.
Proof. unfold sends. apply omap_app. Qed.

Lemma copies_app v payload tr1 tr2 :
  copies v payload (tr1 ++ tr2) = (copies v payload tr1 + copies v payload tr2)%nat.
Proof. unfold copies. by rewrite sends_app, List.filter_app, length_app. Qed.

Variable net : nat -> Z -> sock_status.

(** The fallback loop sends to every socket it is given and leaves the
    rooms as they are, whatever the sends return. *)
Lemma send_primary_loop_effect socks data n w :
  let res := send_primary_loop net socks data n w in
  rooms (snd res) = rooms w /\
  trace (snd res) = (trace w ++ map (fun s => Send s data) socks)%list.
Proof.
  revert n w. induction socks as [|s socks IH]; intros n w; cbn.
  - by rewrite app_nil_r.
  - destruct (status_ok _);
      [destruct (IH (n + 1) (emit (Send s data) w)) as [Hr Ht]
      |destruct (IH n (emit (Send s data) w)) as [Hr Ht]];
      cbn in *; rewrite Hr, Ht; by rewrite <- app_assoc.
Qed.

(** When every send succeeds the chat loop counts them all and touches no
    room. *)
Lemma send_chat_loop_all_ok tid socks data n w :
  (forall k s, net k s = SOCK_STATUS_OK) ->
  send_chat_loop net tid socks data n w
  = (n + Z.of_nat (length socks),
     {| session_manager := session_manager w; rooms := rooms w; db := db w;
        trace := (trace w ++ map (fun s => Send s data) socks)%list |}).
Proof.
  intros Hok. revert n w. induction socks as [|s socks IH]; intros n w; cbn.
  - rewrite app_nil_r, Z.add_0_r. by destruct w.
  - rewrite Hok. cbn. rewrite IH. cbn. f_equal; [lia|].
    by rewrite <- app_assoc.
Qed.

Lemma held_drop_socket_same sock us :
  held sock (map (fun kv => (fst kv, drop_socket sock (snd kv))) us) = false.
Proof.
  unfold held. induction us as [|[k v] us IH]; cbn; [done|].
  rewrite IH, orb_false_r. unfold drop_socket. cbn.
  destruct (slot_is (primary v) sock) eqn:Hp, (slot_is (chat v) sock) eqn:Hc; cbn;
    by rewrite ?Hp, ?Hc.
Qed.

Lemma held_drop_socket_other sock dead us :
  held sock us = false ->
  held sock (map (fun kv => (fst kv, drop_socket dead (snd kv))) us) = false.
Proof.
  unfold held. induction us as [|[k v] us IH]; cbn; [done|].
  intros H. apply orb_false_iff in H as [Hv Hus]. rewrite (IH Hus), orb_false_r.
  apply orb_false_iff in Hv as [Hp Hc]. unfold drop_socket. cbn.
  destruct (slot_is (primary v) dead), (slot_is (chat v) dead); cbn;
    by rewrite ?Hp, ?Hc.
Qed.

(** The chat loop sends to every socket it is given, in order, and a socket
    whose send failed is in no slot of the room afterwards. *)
Lemma send_chat_loop_effect tid socks data n w :
  let res := send_chat_loop net tid socks data n w in
  trace (snd res) = (trace w ++ map (fun s => Send s data) socks)%list /\
  (forall s, held s (users_of tid (rooms w)) = false ->
             held s (users_of tid (rooms (snd res))) = false) /\
  (forall i s,
     socks !! i = Some s ->
     status_ok (net (length (sends (trace w)) + i)%nat s) = false ->
     held s (users_of tid (rooms (snd res))) = false).
Proof.
  cbv zeta. revert n w. induction socks as [|s0 socks IH]; intros n w.
  - cbn. rewrite app_nil_r. split; [done|]. split; [done|]. intros i s H. done.
  - cbn [send_chat_loop send_data].
    assert (Hlen : forall r, length (sends (trace (set_rooms (emit (Send s0 data) w) r)))
                             = S (length (sends (trace w)))).
    { intros r. cbn. rewrite sends_app, length_app. cbn. lia. }
    assert (Hidx : forall i, (S (length (sends (trace w))) + i
                              = length (sends (trace w)) + S i)%nat) by (intros; lia).
    destruct (status_ok (net (length (sends (trace w))) s0)) eqn:Hst.
    + destruct (IH (n + 1) (emit (Send s0 data) w)) as (Ht & Hkeep & Hfail).
      split; [rewrite Ht; cbn; by rewrite <- app_assoc|]. split; [exact Hkeep|].
      intros [|i] s Hi Hbad; cbn in Hi.
      * injection Hi as <-. rewrite Nat.add_0_r in Hbad. congruence.
      * apply (Hfail i s Hi).
        specialize (Hlen (rooms w)). cbn in Hlen. cbn. rewrite Hlen, Hidx. exact Hbad.
    + destruct (IH n (set_rooms (emit (Send s0 data) w)
                        (remove_dead_socket tid s0 (rooms (emit (Send s0 data) w)))))
        as (Ht & Hkeep & Hfail).
      split; [rewrite Ht; cbn; by rewrite <- app_assoc|]. split.
      * intros s Hs. apply Hkeep. cbn. rewrite remove_dead_socket_users.
        by apply held_drop_socket_other.
      * intros [|i] s Hi Hbad; cbn in Hi.
        -- injection Hi as <-. apply Hkeep. cbn. rewrite remove_dead_socket_users.
           apply held_drop_socket_same.
        -- apply (Hfail i s Hi). rewrite Hlen, Hidx. exact Hbad.
Qed.

(** C5 (amended): a CHAT_MESSAGE is broadcast, every send succeeding, in
    a room whose recipients besides the sender are one participant with a
    primary socket only and one with a primary and a chat socket.  The
    message goes out once, to the chat socket: the participant with a chat
    socket receives it exactly once, the participant with a primary socket
    only receives no copy (the primary sockets are tried only when no send to
    a chat socket succeeded), and nobody receives it twice. *)
Theorem broadcast_reaches_chat_socket_only
    w client_socket sid tid message timestamp session r1 r2 p1 p2 c2 :
  (forall k s, net k s = SOCK_STATUS_OK) ->
  SessionManager.get_session_by_id sid (session_manager w) = Some session ->
  let v1 := {| primary := Some p1; chat := None |} in
  let v2 := {| primary := Some p2; chat := Some c2 |} in
  recipients (SessionManager.user_id session) tid (rooms w) = [(r1, v1); (r2, v2)]
  \/ recipients (SessionManager.user_id session) tid (rooms w) = [(r2, v2); (r1, v1)] ->
  c2 <> 0 -> p1 <> c2 ->
  let res := _broadcast_chat_message net client_socket sid tid message timestamp w in
  exists payload,
    fst res = true /\
    trace (snd res) = (trace w ++ [Send c2 payload])%list /\
    rooms (snd res) = rooms w /\
    copies v2 payload (trace (snd res)) = S (copies v2 payload (trace w)) /\
    copies v1 payload (trace (snd res)) = copies v1 payload (trace w).
Proof.
  intros Hok Hs v1 v2 Hrec Hc2 Hp1 res.
  set (sender := SessionManager.user_id session) in *.
  set (payload := format_message (SessionManager.name session) sender timestamp message
                    match Db.get_user sender (db w) with
                    | Some u => Db.profile_pic u
                    | None => None
                    end).
  assert (Hchat : get_chat_sockets tid (Some sender) (rooms w) = [c2]).
  { unfold get_chat_sockets. rewrite collect_recipients.
    assert (Hl : live (Some c2) = [c2]).
    { cbn. by destruct (Z.eqb_spec c2 0). }
    destruct Hrec as [-> | ->]; cbn -[live]; by rewrite Hl. }
  assert (Hres : res = (true, emit (Send c2 payload) w)).
  { subst res. unfold _broadcast_chat_message. rewrite Hs.
    fold sender. fold payload. rewrite Hchat.
    rewrite send_chat_loop_all_ok by exact Hok. cbn.
    by destruct w. }
  exists payload. rewrite Hres. cbn [fst snd emit trace rooms].
  repeat split.
  - rewrite copies_app. unfold copies at 2. cbn.
    rewrite Z.eqb_refl, orb_true_r, String.eqb_refl. cbn. lia.
  - rewrite copies_app. unfold copies at 2. cbn.
    destruct (Z.eqb_spec p1 c2); [done|]. cbn. lia.
Qed.

(** A failed send in the fallback loop does not remove the socket. *)
Lemma fallback_keeps_failed_socket socks data n w :
  rooms (snd (send_primary_loop net socks data n w)) = rooms w.
Proof. apply send_primary_loop_effect. Qed.

End Broadcast.

(** ** START_CHAT *)

Section StartChat.

Import Server.

Variable net : nat -> Z -> sock_status.
Variable py_int : string -> option Z.

(** C2: a START_CHAT command that names a tutorial and a duration, issued
    while a chat is active for that tutorial, is answered with FAIL:Chat
    session already active and changes nothing: the active-chat table and the
    attendance table are those of before, no timer is started and the rooms
    are untouched; the reply is the only event. *)
Theorem start_chat_rejected_while_active
    client_socket parts tutor_id uuid now w tid duration running :
  (4 <= length parts)%nat ->
  nth 2 parts "" = tid ->
  py_int (nth 3 parts "") = Some duration ->
  Db.get_active_chat tid (db w) = Some running ->
  let res := _handle_start_chat net py_int client_socket parts tutor_id uuid now w in
  snd res = None /\
  db (fst res) = db w /\
  rooms (fst res) = rooms w /\
  session_manager (fst res) = session_manager w /\
  trace (fst res)
  = (trace w ++ [Send client_socket "FAIL:Chat session already active"])%list.
Proof.
  intros Hlen Htid Hint Hrun res. subst res. unfold _handle_start_chat.
  assert ((Z.of_nat (length parts) <? 4) = false) as -> by (apply Z.ltb_ge; lia).
  rewrite Hint, Htid. unfold Db.start_chat. rewrite Hrun. cbn.
  by destruct w, db0.
Qed.

(** Whatever the rest of the message, START_CHAT on a tutorial with an
    active chat changes no state and sends one reply, a failure. *)
Lemma start_chat_while_active_changes_nothing
    client_socket parts tutor_id uuid now w running :
  Db.get_active_chat (nth 2 parts "") (db w) = Some running ->
  let res := _handle_start_chat net py_int client_socket parts tutor_id uuid now w in
  snd res = None /\
  db (fst res) = db w /\ rooms (fst res) = rooms w /\
  session_manager (fst res) = session_manager w /\
  exists failure,
    trace (fst res) = (trace w ++ [Send client_socket failure])%list /\
    In failure ["FAIL:Invalid command format"; "FAIL:Invalid duration format";
                "FAIL:Chat session already active"].
Proof.
  intros Hrun res. subst res. unfold _handle_start_chat.
  destruct (Z.of_nat (length parts) <? 4).
  - cbn. repeat split. eexists. split; [reflexivity|]. cbn. tauto.
  - destruct (py_int (nth 3 parts "")) as [duration|].
    + unfold Db.start_chat. rewrite Hrun. cbn.
      split; [done|]. split; [by destruct w, db0|]. split; [done|]. split; [done|].
      eexists. split; [reflexivity|]. cbn. tauto.
    + cbn. repeat split. eexists. split; [reflexivity|]. cbn. tauto.
Qed.

End StartChat.

(** ** Session timer *)

Section SessionTimer.

Import Server.

Variable net : nat -> Z -> sock_status.
Variable sleep_beyond : N.

(** A notification loop sends to every socket it is given, in order, and
    changes nothing else. *)
Lemma send_all_effect socks data w :
  send_all net socks data w
  = {| session_manager := session_manager w; rooms := rooms w; db := db w;
       trace := (trace w ++ map (fun s => Send s data) socks)%list |}.
Proof.
  revert w. induction socks as [|s socks IH]; intros w; cbn.
  - rewrite app_nil_r. by destruct w.
  - rewrite IH. cbn. by rewrite <- app_assoc.
Qed.

(** The timer wakes on a tutorial without an active chat: nothing happens. *)
Lemma timer_expiry_ended tid w :
  Db.get_active_chat tid (db w) = None ->
  timer_expiry net tid w = (w, [LoggedAlreadyEnded]).
Proof. intros H. unfold timer_expiry. by rewrite H. Qed.

(** The timer wakes on a tutorial with an active chat: the chat is deleted,
    CHAT_ENDED goes to the chat sockets and the room is removed. *)
Lemma timer_expiry_active tid w :
  Db.get_active_chat tid (db w) <> None ->
  let socks := ChatRoomManager.get_chat_sockets tid None (rooms w) in
  let res := timer_expiry net tid w in
  snd res = [EndedChat; NotifiedEnd socks; ClosedRoom; LoggedEndedByTimer] /\
  Db.get_active_chat tid (db (fst res)) = None /\
  rooms (fst res) !! tid = None /\
  trace (fst res) = (trace w ++ map (fun s => Send s "CHAT_ENDED") socks)%list.
Proof.
  intros H socks res. subst res socks. unfold timer_expiry.
  destruct (Db.get_active_chat tid (db w)) as [c|]; [|done].
  rewrite send_all_effect. cbn.
  split; [reflexivity|]. split.
  - unfold Db.get_active_chat. cbn. apply lookup_delete_eq.
  - split; [|reflexivity].
    unfold ChatRoomManager.close_room.
    destruct (rooms w !! tid) eqn:E; cbn; [apply lookup_delete_eq|exact E].
Qed.

(** The lengths [time.sleep] takes are those from 0 to [sleep_max]. *)
Lemma sleep_raises_false secs :
  sleep_raises sleep_beyond secs = false <-> 0 <= secs <= sleep_max sleep_beyond.
Proof.
  unfold sleep_raises. rewrite orb_false_iff, !Z.ltb_ge. lia.
Qed.

Lemma sleep_max_five_minutes : 5 * 60 <= sleep_max sleep_beyond.
Proof. unfold sleep_max. lia. Qed.

Lemma five_minutes_sleep : sleep_raises sleep_beyond (5 * 60) = false.
Proof.
  apply sleep_raises_false. pose proof sleep_max_five_minutes. lia.
Qed.

(** C8 (amended): a timer started for [d] minutes, [d > 5].  When
    [time.sleep] does not take the [(d - 5) * 60] seconds of the first sleep,
    the call raises and the thread ends at once: no warning, no CHAT_ENDED, no
    end of chat, whatever becomes of the chat.  Otherwise, at its first wake,
    after [(d - 5) * 60] seconds of sleep, the timer reads the active chat of
    the tutorial: without one it logs and returns, the world left as found;
    with one it sends the warning to the chat sockets of the room and sleeps
    300 seconds more.  At its second wake, [d * 60] seconds after the start,
    it reads the active chat of the tutorial again: without one it logs and
    returns, the world left as found (no CHAT_ENDED, no end of chat); with one
    it deletes the active chat, sends CHAT_ENDED to the chat sockets and
    removes the room. *)
Theorem timer_rechecks_at_each_wake tid d during1 during2 w :
  5 < d ->
  let res := _chat_session_timer net sleep_beyond tid d during1 during2 w in
  let w1 := during1 w in
  let socks1 := ChatRoomManager.get_chat_sockets tid None (rooms w1) in
  let w2 := send_all net socks1 warning w1 in
  let w3 := during2 w2 in
  let socks2 := ChatRoomManager.get_chat_sockets tid None (rooms w3) in
  (sleep_max sleep_beyond < (d - 5) * 60 -> res = (w, [SleepRaised])) /\
  ((d - 5) * 60 <= sleep_max sleep_beyond ->
   (Db.get_active_chat tid (db w1) = None ->
      fst res = w1 /\
      stamped 0 (snd res)
      = [(0, Slept ((d - 5) * 60)); ((d - 5) * 60, LoggedEndedBeforeWarning)]) /\
   (Db.get_active_chat tid (db w1) <> None ->
      trace w2 = (trace w1 ++ map (fun s => Send s warning) socks1)%list /\
      db w2 = db w1 /\ rooms w2 = rooms w1 /\
      exists rest,
        stamped 0 (snd res)
        = (0, Slept ((d - 5) * 60)) :: ((d - 5) * 60, Warned socks1)
          :: ((d - 5) * 60, Slept 300) :: rest /\
        (Db.get_active_chat tid (db w3) = None ->
           fst res = w3 /\ rest = [(d * 60, LoggedAlreadyEnded)]) /\
        (Db.get_active_chat tid (db w3) <> None ->
           rest = [(d * 60, EndedChat); (d * 60, NotifiedEnd socks2);
                   (d * 60, ClosedRoom); (d * 60, LoggedEndedByTimer)] /\
           Db.get_active_chat tid (db (fst res)) = None /\
           rooms (fst res) !! tid = None /\
           trace (fst res)
           = (trace w3 ++ map (fun s => Send s "CHAT_ENDED") socks2)%list))).
Proof.
  intros Hd res w1 socks1 w2 w3 socks2.
  assert (Hclock : 0 + (d - 5) * 60 + 5 * 60 = d * 60) by lia.
  assert (Hwarn : (0 <? d - 5) = true) by (apply Z.ltb_lt; lia).
  split.
  - intros Hlong. subst res. unfold _chat_session_timer. rewrite Hwarn.
    assert (sleep_raises sleep_beyond ((d - 5) * 60) = true) as ->; [|reflexivity].
    unfold sleep_raises. apply orb_true_iff. right. by apply Z.ltb_lt.
  - intros Hshort.
    assert (Hres : res =
      match Db.get_active_chat tid (db w1) with
      | Some _ =>
          let (w4, steps) := timer_expiry net tid w3 in
          (w4, Slept ((d - 5) * 60) :: Warned socks1 :: Slept (5 * 60) :: steps)
      | None => (w1, [Slept ((d - 5) * 60); LoggedEndedBeforeWarning])
      end).
    { subst res. unfold _chat_session_timer. rewrite Hwarn.
      assert (sleep_raises sleep_beyond ((d - 5) * 60) = false) as ->
        by (apply sleep_raises_false; lia).
      rewrite five_minutes_sleep. reflexivity. }
    split.
    + intros Hnone. rewrite Hres, Hnone. split; reflexivity.
    + intros Hact. subst w2. rewrite send_all_effect. cbn [trace db rooms].
      repeat split.
      destruct (Db.get_active_chat tid (db w1)) as [c|]; [clear Hact|done].
      destruct (timer_expiry net tid w3) as [w4 steps] eqn:Hexp.
      exists (stamped (d * 60) steps). rewrite Hres. cbn [snd fst stamped].
      rewrite Hclock. split; [reflexivity|]. split.
      * intros Hnone. rewrite (timer_expiry_ended tid w3 Hnone) in Hexp.
        injection Hexp as <- <-. split; reflexivity.
      * intros Hact.
        destruct (timer_expiry_active tid w3 Hact) as (Hs & Hc & Hr & Ht).
        rewrite Hexp in Hs, Hc, Hr, Ht. cbn [fst snd] in *.
        rewrite Hs. repeat split; assumption.
Qed.

End SessionTimer.

(** ** Command loop *)

Section CommandLoop.

Import Server.

Variable net : nat -> Z -> sock_status.
Variable strip : string -> string.
Variable tutor_handler : string -> Z -> string -> string -> list string ->
                         World -> handled.

Lemma str_truthy_false s : str_truthy s = false <-> s = "".
Proof.
  unfold str_truthy. rewrite negb_false_iff. apply String.eqb_eq.
Qed.

Lemma status_ok_false st : status_ok st = false <-> st <> SOCK_STATUS_OK.
Proof. destruct st; cbn; split; congruence. Qed.

(** A turn breaks the loop exactly on such a result. *)
Lemma tutor_turn_breaks client_socket tutor_id session_id r w :
  fst (tutor_turn net strip tutor_handler client_socket tutor_id session_id r w) = Break
  <-> ends_loop r.
Proof.
  unfold tutor_turn, ends_loop.
  destruct (status_ok (status r)) eqn:Hs; cbn [negb].
  - destruct (str_truthy (data r)) eqn:Hd; cbn [negb].
    + assert (Hno : ~ (status r <> SOCK_STATUS_OK \/ data r = "")).
      { intros [H|H].
        - apply status_ok_false in H. congruence.
        - apply str_truthy_false in H. congruence. }
      split; [|tauto]. intros Hb. exfalso. revert Hb.
      destruct (Z.of_nat _ <? 2); [done|].
      destruct (verify_session _ _ _ _ _) as [[] w1]; [|done].
      destruct (existsb _ _); [|done].
      by destruct (tutor_handler _ _ _ _ _ _) as [w2 []].
    + apply str_truthy_false in Hd. cbn. tauto.
  - apply status_ok_false in Hs. cbn. tauto.
Qed.

Lemma handle_tutor_over client_socket tutor_id session_id inputs w :
  fst (handle_tutor net strip tutor_handler client_socket tutor_id session_id inputs w)
  <> Waiting
  <-> Exists ends_call inputs.
Proof.
  revert w. induction inputs as [|x inputs IH]; intros w; cbn.
  - split; [done|]. intros H. by apply Exists_nil in H.
  - rewrite Exists_cons. destruct x as [r|]; cbn.
    + pose proof (tutor_turn_breaks client_socket tutor_id session_id r w) as Ht.
      destruct (tutor_turn _ _ _ _ _ _ _ _) as [[] w1]; cbn in *.
      * rewrite IH. split; [tauto|]. intros [H|H]; [|done].
        apply Ht in H. discriminate.
      * split; [intros _; left; by apply Ht|done].
    + split; [by left|done].
Qed.

(** Calls that do not end the loop leave it waiting for the next. *)
Lemma handle_tutor_app client_socket tutor_id session_id front tail w :
  Forall (fun x => ~ ends_call x) front ->
  handle_tutor net strip tutor_handler client_socket tutor_id session_id
    (front ++ tail) w
  = handle_tutor net strip tutor_handler client_socket tutor_id session_id tail
      (snd (handle_tutor net strip tutor_handler client_socket tutor_id session_id
              front w)).
Proof.
  revert w. induction front as [|x front IH]; intros w Hf; [reflexivity|].
  apply Forall_cons in Hf as [Hx Hf]. destruct x as [r|]; cbn in *; [|done].
  pose proof (tutor_turn_breaks client_socket tutor_id session_id r w) as Ht.
  destruct (tutor_turn _ _ _ _ _ _ _ _) as [[] w1]; cbn in *.
  - by apply IH.
  - exfalso. apply Hx. by apply Ht.
Qed.

(** How the loop stands after the calls, by the first call that ends it. *)
Lemma handle_tutor_first_end client_socket tutor_id session_id inputs w :
  match fst (handle_tutor net strip tutor_handler client_socket tutor_id session_id
               inputs w) with
  | Waiting => Forall (fun x => ~ ends_call x) inputs
  | Broke =>
      exists front r rest,
        inputs = (front ++ Received r :: rest)%list /\
        Forall (fun x => ~ ends_call x) front /\ ends_loop r
  | Escaped =>
      exists front rest,
        inputs = (front ++ DecodeRaised :: rest)%list /\
        Forall (fun x => ~ ends_call x) front
  end.
Proof.
  revert w. induction inputs as [|x inputs IH]; intros w; cbn; [constructor|].
  destruct x as [r|]; cbn.
  - pose proof (tutor_turn_breaks client_socket tutor_id session_id r w) as Ht.
    destruct (tutor_turn _ _ _ _ _ _ _ _) as [[] w1]; cbn in *.
    + assert (Hr : ~ ends_call (Received r)).
      { intros H. apply Ht in H. discriminate. }
      specialize (IH w1).
      destruct (fst (handle_tutor _ _ _ _ _ _ inputs w1)).
      * by constructor.
      * destruct IH as (front & r' & rest & -> & Hf & Hr').
        exists (Received r :: front), r', rest.
        split; [reflexivity|]. split; [by constructor|exact Hr'].
      * destruct IH as (front & rest & -> & Hf).
        exists (Received r :: front), rest. split; [reflexivity|by constructor].
    + exists [], r, inputs. split; [reflexivity|]. split; [constructor|by apply Ht].
  - exists [], inputs. split; [reflexivity|constructor].
Qed.

(** C9 (amended): the command loop of a connection ends exactly at the
    first call of [receive_data] that returns a status other than OK
    (timeout, closed or error), that returns no data, or that raises on bytes
    it cannot decode: in the first two cases the loop is left by [break], in
    the third by the exception, which nothing in [handle_tutor] catches.  A
    command-level failure keeps the loop running: on a message of at least two
    fields, a leading token that is not the session of the connection is
    answered with FAIL:Invalid session, an unknown command with FAIL:Unknown
    command, and an exception of a handler with FAIL:Internal error: and its
    detail, each as the last event of a turn that continues. *)
Theorem only_transport_ends_tutor_loop
    client_socket tutor_id session_id inputs w0 r w :
  let parts := split_on pipe (strip (data r)) in
  let turn := tutor_turn net strip tutor_handler client_socket tutor_id session_id r w in
  let loop :=
    fst (handle_tutor net strip tutor_handler client_socket tutor_id session_id
           inputs w0) in
  (loop <> Waiting <-> Exists ends_call inputs) /\
  (loop = Broke <->
   exists front r' rest,
     inputs = (front ++ Received r' :: rest)%list /\
     Forall (fun x => ~ ends_call x) front /\ ends_loop r') /\
  (loop = Escaped <->
   exists front rest,
     inputs = (front ++ DecodeRaised :: rest)%list /\
     Forall (fun x => ~ ends_call x) front) /\
  (status r = SOCK_STATUS_OK -> data r <> "" -> (2 <= length parts)%nat ->
   (nth 0 parts "" <> session_id ->
      turn = (Continue, reply net client_socket "FAIL:Invalid session" w)) /\
   (nth 0 parts "" = session_id ->
    SessionManager.get_session_by_id session_id (session_manager w) <> None ->
      (existsb (String.eqb (nth 1 parts "")) tutor_commands = false ->
         turn = (Continue, reply net client_socket "FAIL:Unknown command" w)) /\
      (existsb (String.eqb (nth 1 parts "")) tutor_commands = true ->
       forall w2 detail,
         tutor_handler (nth 1 parts "") client_socket tutor_id session_id parts w
         = (w2, Some detail) ->
         turn = (Continue,
                 reply net client_socket ("FAIL:Internal error: " ++ detail) w2)))).
Proof.
  intros parts turn loop. split; [apply handle_tutor_over|].
  pose proof (handle_tutor_first_end client_socket tutor_id session_id inputs w0)
    as Hfirst.
  split; [|split].
  - split.
    + intros Hl. unfold loop in Hl. by rewrite Hl in Hfirst.
    + intros (front & r' & rest & -> & Hf & Hr'). subst loop.
      rewrite (handle_tutor_app _ _ _ front _ w0 Hf). cbn.
      pose proof (tutor_turn_breaks client_socket tutor_id session_id r'
                    (snd (handle_tutor net strip tutor_handler client_socket
                            tutor_id session_id front w0))) as Ht.
      apply Ht in Hr'. clear Ht Hfirst.
      destruct (tutor_turn net strip tutor_handler client_socket tutor_id session_id
                  r' _) as [[] w1]; cbn in *; [discriminate Hr'|reflexivity].
  - split.
    + intros Hl. unfold loop in Hl. by rewrite Hl in Hfirst.
    + intros (front & rest & -> & Hf). subst loop.
      by rewrite (handle_tutor_app _ _ _ front _ w0 Hf).
  - intros Hs Hd Hlen. subst turn. unfold tutor_turn. rewrite Hs.
    cbn [status_ok negb].
    assert (str_truthy (data r) = true) as ->.
    { destruct (str_truthy (data r)) eqn:E; [done|]. by apply str_truthy_false in E. }
    cbn [negb]. fold parts.
    assert ((Z.of_nat (length parts) <? 2) = false) as -> by (apply Z.ltb_ge; lia).
    unfold verify_session. split.
    + intros Hne.
      destruct (SessionManager.get_session_by_id _ _); [|reflexivity].
      apply String.eqb_neq in Hne. by rewrite Hne.
    + intros -> Hsess.
      destruct (SessionManager.get_session_by_id _ _); [|done].
      rewrite String.eqb_refl. split.
      * by intros ->.
      * intros -> w2 detail ->. reflexivity.
Qed.

End CommandLoop.

(** ** Credential login *)

Section Login.

Import Server.

Variable net : nat -> Z -> sock_status.
Variable strip : string -> string.
Variable checkpw : string -> string -> option bool.
Variable serve : string -> Z -> string -> string -> World -> World.

(** C1 (amended): for a [user_id] that has a live session, a further
    credential login with a known user and the right password fails: it is
    answered with FAIL:Already logged in, the socket is closed and the
    registry is the one of before.  [create_session] itself would not fail:
    it stores the session it returns under the [user_id] and indexes its
    token.  In a well-keyed registry no two stored sessions are sessions of
    one [user_id]. *)
Theorem login_rejected_while_session_live
    client_socket login_data token now w user_id password user :
  split_on pipe (strip login_data) = [user_id; password] ->
  Db.get_user user_id (db w) = Some user ->
  checkpw password (Db.password_hash user) = Some true ->
  SessionManager.user_has_active_session user_id (session_manager w) = true ->
  well_keyed (session_manager w) ->
  let w' := _handle_credential_auth net strip checkpw serve client_socket login_data
              token now w in
  session_manager w' = session_manager w /\
  rooms w' = rooms w /\ db w' = db w /\
  trace w' = (trace w ++ [Send client_socket "FAIL:Already logged in";
                          Close client_socket])%list /\
  (forall r n sock tok t,
     let sm := SessionManager.create_session user_id r n sock tok t
                 (session_manager w) in
     SessionManager.active_sessions (snd sm) !! user_id = Some (fst sm) /\
     SessionManager.session_lookup (snd sm) !! tok = Some user_id) /\
  (forall k1 k2 s1 s2,
     SessionManager.active_sessions (session_manager w') !! k1 = Some s1 ->
     SessionManager.active_sessions (session_manager w') !! k2 = Some s2 ->
     SessionManager.user_id s1 = SessionManager.user_id s2 -> k1 = k2 /\ s1 = s2).
Proof.
  intros Hsplit Huser Hpw Hlive Hkeyed w'. subst w'.
  unfold _handle_credential_auth. rewrite Hsplit, Huser, Hpw, Hlive.
  unfold reject, close_socket, reply, send_data, emit. cbn.
  rewrite <- app_assoc.
  split; [reflexivity|]. split; [reflexivity|]. split; [reflexivity|].
  split; [reflexivity|]. split.
  - intros r n sock tok t. cbn. by rewrite !lookup_insert_eq.
  - intros k1 k2 s1 s2. by apply one_session_per_user.
Qed.

End Login.

(** ** The claims on the classroom of the examples *)

(** C5, as stated, fails: with every send succeeding, the recipient who
    holds a primary socket only (s1, socket 11) receives no copy; the one
    send goes to the chat socket of s2. *)
Lemma primary_only_recipient_gets_no_copy :
  let res := Server._broadcast_chat_message all_sends_ok 1 "tok-t" "T1" "hello"
               "10:15" classroom in
  let payload := "MESSAGE|Tia|t1|10:15|hello|None" in
  fst res = true /\
  Server.trace (snd res) = [Server.Send 22 payload] /\
  copies {| ChatRoomManager.primary := Some 11; ChatRoomManager.chat := None |}
    payload (Server.trace (snd res)) = 0%nat.
Proof. cbv zeta. by vm_compute. Qed.

Lemma broadcast_reaches_chat_socket_only_witness :
  (forall k s, all_sends_ok k s = Server.SOCK_STATUS_OK) /\
  exists payload,
    fst (Server._broadcast_chat_message all_sends_ok 1 "tok-t" "T1" "hello" "10:15"
           classroom) = true /\
    Server.trace (snd (Server._broadcast_chat_message all_sends_ok 1 "tok-t" "T1"
                         "hello" "10:15" classroom))
    = (Server.trace classroom ++ [Server.Send 22 payload])%list.
Proof.
  assert (Hok : forall k s, all_sends_ok k s = Server.SOCK_STATUS_OK) by reflexivity.
  split; [exact Hok|].
  destruct (broadcast_reaches_chat_socket_only all_sends_ok classroom 1 "tok-t" "T1"
              "hello" "10:15"
              {| SessionManager.session_id := "tok-t"; SessionManager.user_id := "t1";
                 SessionManager.role := "tutor"; SessionManager.name := "Tia";
                 SessionManager.login_time := 0; SessionManager.is_active := true;
                 SessionManager.socket := Some 1 |}
              "s1" "s2" 11 21 22 Hok eq_refl (or_introl eq_refl))
    as (payload & H1 & H2 & _); [lia|lia|].
  exists payload. split; [exact H1|exact H2].
Defined.

(** C6 at the failing input: the room holds the tutor and s1 on primary
    sockets only and every send fails.  The broadcast falls back to the
    primary socket 11 of s1, the send fails, the broadcast reports failure,
    and socket 11 is still in its slot, where [remove_dead_socket] would have
    emptied the slot. *)
Theorem failed_fallback_send_detaches_nothing :
  let res := Server._broadcast_chat_message all_sends_closed 1 "tok-t" "T1" "hello"
               "10:15" primary_only_room in
  fst res = false /\
  Server.trace (snd res) = [Server.Send 11 "MESSAGE|Tia|t1|10:15|hello|None"] /\
  ChatRoomManager.users_get "s1"
    (ChatRoomManager.users_of "T1" (Server.rooms (snd res)))
  = Some {| ChatRoomManager.primary := Some 11; ChatRoomManager.chat := None |} /\
  ChatRoomManager.users_get "s1"
    (ChatRoomManager.users_of "T1"
       (ChatRoomManager.remove_dead_socket "T1" 11 (Server.rooms primary_only_room)))
  = Some ChatRoomManager.no_sockets.
Proof. cbv zeta. by vm_compute. Qed.

Example start_chat_takes_effect :
  Server.trace chat_started
  = [Server.StartTimer "T1" 10; Server.Send 1 "CHAT_STARTED:cs-1"] /\
  Db.chat_session_id <$> Db.get_active_chat "T1" (Server.db chat_started) = Some "cs-1" /\
  map Db.student_id (Db.attendance_rows (Server.db chat_started)) = ["s1"; "s2"] /\
  ChatRoomManager.get_primary_sockets "T1" None (Server.rooms chat_started) = [1].
Proof. by vm_compute. Qed.

Lemma start_chat_rejected_while_active_witness :
  (4 <= length ["tok-t"; "START_CHAT"; "T1"; "10"])%nat /\
  decimal_int "10" = Some 10 /\
  Server.trace
    (fst (Server._handle_start_chat all_sends_ok decimal_int 1
            ["tok-t"; "START_CHAT"; "T1"; "10"] "t1" "cs-2" 1060 chat_started))
  = (Server.trace chat_started
       ++ [Server.Send 1 "FAIL:Chat session already active"])%list.
Proof.
  assert (Hlen : (4 <= length ["tok-t"; "START_CHAT"; "T1"; "10"])%nat) by (cbn; lia).
  split; [exact Hlen|]. split; [reflexivity|].
  exact (proj2 (proj2 (proj2 (proj2
    (start_chat_rejected_while_active all_sends_ok decimal_int 1
       ["tok-t"; "START_CHAT"; "T1"; "10"] "t1" "cs-2" 1060 chat_started "T1" 10
       {| Db.tutor_id := "t1"; Db.start_time := 1000;
          Db.end_time := 1000 + inject_Z (10 * 60); Db.chat_session_id := "cs-1" |}
       Hlen eq_refl eq_refl eq_refl))))).
Defined.

Example strip_ascii_line : strip_ascii "  t1|h0 " = "t1|h0".
Proof. reflexivity. Qed.

Lemma well_keyed_tutor_logged_in : well_keyed tutor_logged_in.
Proof. apply well_keyed_create_session, well_keyed_empty. Qed.

Lemma login_rejected_while_session_live_witness :
  split_on pipe (strip_ascii "t1|h0") = ["t1"; "h0"] /\
  SessionManager.user_has_active_session "t1" (Server.session_manager lobby) = true /\
  Server.session_manager
    (Server._handle_credential_auth all_sends_ok strip_ascii toy_checkpw silent_client
       9 "t1|h0" "tok-9" 5 lobby)
  = Server.session_manager lobby /\
  Server.trace
    (Server._handle_credential_auth all_sends_ok strip_ascii toy_checkpw silent_client
       9 "t1|h0" "tok-9" 5 lobby)
  = (Server.trace lobby
       ++ [Server.Send 9 "FAIL:Already logged in"; Server.Close 9])%list.
Proof.
  split; [reflexivity|]. split; [by vm_compute|].
  destruct (login_rejected_while_session_live all_sends_ok strip_ascii toy_checkpw
              silent_client 9 "t1|h0" "tok-9" 5 lobby "t1" "h0"
              {| Db.u_name := "Tia"; Db.password_hash := "h0";
                 Db.u_role := "tutor"; Db.profile_pic := None |}
              eq_refl eq_refl eq_refl eq_refl well_keyed_tutor_logged_in)
    as (Hm & _ & _ & Ht & _).
  split; [exact Hm|exact Ht].
Defined.

Example login_accepted_without_session :
  Server.trace
    (Server._handle_credential_auth all_sends_ok strip_ascii toy_checkpw silent_client
       9 "s1|h1" "tok-9" 5 lobby)
  = [Server.Send 9 "SUCCESS|student|Sam|tok-9|None"; Server.Close 9].
Proof. by vm_compute. Qed.

Lemma timer_rechecks_at_each_wake_witness :
  5 < 10 /\
  (10 - 5) * 60 <= Server.sleep_max int64_nanoseconds /\
  Db.get_active_chat "T1"
    (Server.db (fst (Server._chat_session_timer all_sends_ok int64_nanoseconds "T1" 10
                       (fun w => w) (fun w => w) chat_with_s2))) = None /\
  Server.rooms (fst (Server._chat_session_timer all_sends_ok int64_nanoseconds "T1" 10
                       (fun w => w) (fun w => w) chat_with_s2)) !! "T1" = None.
Proof.
  assert (Hd : 5 < 10) by lia.
  assert (Hs : (10 - 5) * 60 <= Server.sleep_max int64_nanoseconds)
    by (vm_compute; discriminate).
  split; [exact Hd|]. split; [exact Hs|].
  destruct (timer_rechecks_at_each_wake all_sends_ok int64_nanoseconds "T1" 10
              (fun w => w) (fun w => w) chat_with_s2 Hd) as [_ H].
  destruct (H Hs) as [_ Hwarned].
  destruct Hwarned as (_ & _ & _ & rest & _ & _ & Hended); [by vm_compute|].
  destruct Hended as (_ & Hc & Hr & _); [by vm_compute|].
  split; [exact Hc|exact Hr].
Defined.

Example timer_runs_to_expiry :
  let res := Server._chat_session_timer all_sends_ok int64_nanoseconds "T1" 10
               (fun w => w) (fun w => w) chat_with_s2 in
  Server.stamped 0 (snd res)
  = [(0, Server.Slept 300); (300, Server.Warned [22]); (300, Server.Slept 300);
     (600, Server.EndedChat); (600, Server.NotifiedEnd [22]);
     (600, Server.ClosedRoom); (600, Server.LoggedEndedByTimer)] /\
  Server.sends (Server.trace (fst res))
  = [(1, "CHAT_STARTED:cs-1"); (22, "WARNING:5 minutes remaining"); (22, "CHAT_ENDED")].
Proof. by vm_compute. Qed.

(** The tutor ends the chat while the timer sleeps: the timer finds no
    active chat at its first wake and does nothing. *)
Example timer_after_manual_end :
  let end_chat := Server._handle_end_chat all_sends_ok 1 ["tok-t"; "END_CHAT"; "T1"] in
  let res := Server._chat_session_timer all_sends_ok int64_nanoseconds "T1" 10
               end_chat (fun w => w) chat_with_s2 in
  fst res = end_chat chat_with_s2 /\
  snd res = [Server.Slept 300; Server.LoggedEndedBeforeWarning] /\
  Server.sends (Server.trace (fst res))
  = [(1, "CHAT_STARTED:cs-1"); (22, "CHAT_ENDED")].
Proof. by vm_compute. Qed.

(** A chat of 10^18 minutes: the first sleep of its timer raises, and the
    chat is never warned nor ended by it. *)
Example timer_of_overlong_chat_dies :
  Server._chat_session_timer all_sends_ok int64_nanoseconds "T1" (10 ^ 18)
    (fun w => w) (fun w => w) chat_with_s2
  = (chat_with_s2, [Server.SleepRaised]).
Proof. by vm_compute. Qed.

(** C9, as stated, fails: a receive that times out ends the loop, although
    its status is neither closed nor error; the command that follows is never
    read. *)
Lemma timeout_ends_tutor_loop :
  let inputs :=
    [ Server.Received
        {| Server.status := Server.SOCK_STATUS_TIMEOUT; Server.data := "" |};
      Server.Received
        {| Server.status := Server.SOCK_STATUS_OK;
           Server.data := "tok-t|CHECK_CHAT|T1" |} ] in
  Server.handle_tutor all_sends_ok strip_ascii raising_handler 1 "t1" "tok-t" inputs
    lobby
  = (Server.Broke, lobby).
Proof. cbv zeta. by vm_compute. Qed.

Lemma only_transport_ends_tutor_loop_witness :
  Server.tutor_turn all_sends_ok strip_ascii raising_handler 1 "t1" "tok-t"
    {| Server.status := Server.SOCK_STATUS_OK;
       Server.data := "tok-t|START_CHAT|T9|10" |} lobby
  = (Server.Continue,
     Server.reply all_sends_ok 1 "FAIL:Internal error: IntegrityError" lobby).
Proof.
  destruct (only_transport_ends_tutor_loop all_sends_ok strip_ascii raising_handler
              1 "t1" "tok-t" [] lobby
              {| Server.status := Server.SOCK_STATUS_OK;
                 Server.data := "tok-t|START_CHAT|T9|10" |} lobby) as (_ & _ & _ & H).
  destruct H as [_ H]; [reflexivity|discriminate|vm_compute; lia|].
  destruct H as [_ H]; [reflexivity|by vm_compute|].
  exact (H eq_refl lobby "IntegrityError" eq_refl).
Defined.

(** Bytes that [receive_data] cannot decode: the call raises before the
    [try] of the loop, the loop is left by the exception and the command that
    follows is never read. *)
Example undecodable_bytes_end_tutor_loop :
  let inputs :=
    [ Server.Received
        {| Server.status := Server.SOCK_STATUS_OK; Server.data := "tok-t|DANCE" |};
      Server.DecodeRaised;
      Server.Received
        {| Server.status := Server.SOCK_STATUS_OK;
           Server.data := "tok-t|CHECK_CHAT|T1" |} ] in
  let res := Server.handle_tutor all_sends_ok strip_ascii raising_handler 1 "t1"
               "tok-t" inputs lobby in
  fst res = Server.Escaped /\
  Server.sends (Server.trace (snd res)) = [(1, "FAIL:Unknown command")].
Proof. by vm_compute. Qed.

Example tutor_loop_survives_failures :
  let inputs :=
    [ Server.Received
        {| Server.status := Server.SOCK_STATUS_OK;
           Server.data := "bad|CHECK_CHAT|T1" |};
      Server.Received
        {| Server.status := Server.SOCK_STATUS_OK; Server.data := "tok-t|DANCE" |};
      Server.Received
        {| Server.status := Server.SOCK_STATUS_OK;
           Server.data := "tok-t|START_CHAT|T9|10" |} ] in
  let res := Server.handle_tutor all_sends_ok strip_ascii raising_handler 1 "t1"
               "tok-t" inputs lobby in
  fst res = Server.Waiting /\
  Server.sends (Server.trace (snd res))
  = [(1, "FAIL:Invalid session"); (1, "FAIL:Unknown command");
     (1, "FAIL:Internal error: IntegrityError")].
Proof. by vm_compute. Qed.

(** C8, as stated, fails: the tutor ends the chat cs-1 at minute 3 and
    starts the chat cs-2 on the same tutorial at minute 4, s2 joining again,
    all while the timer of cs-1 sleeps.  The timer reads the active chat by
    tutorial, so at minute 5 it sends the warning and at minute 10 it sends
    CHAT_ENDED and ends a chat, cs-2, although the chat it was started for had
    been ended before both wakes. *)
Lemma stale_timer_ends_restarted_chat :
  let restart := fun w =>
    let w1 := Server._handle_end_chat all_sends_ok 1 ["tok-t"; "END_CHAT"; "T1"] w in
    let w2 := fst (Server._handle_start_chat all_sends_ok decimal_int 1
                     ["tok-t"; "START_CHAT"; "T1"; "10"] "t1" "cs-2" 1240 w1) in
    Server.set_rooms w2
      (ChatRoomManager.add_socket "T1" "s2" 24 true
         (ChatRoomManager.add_socket "T1" "s2" 23 false (Server.rooms w2))) in
  let res := Server._chat_session_timer all_sends_ok int64_nanoseconds "T1" 10
               restart (fun w => w)
               chat_with_s2 in
  Db.chat_session_id <$> Db.get_active_chat "T1" (Server.db chat_with_s2) = Some "cs-1" /\
  Db.chat_session_id <$> Db.get_active_chat "T1" (Server.db (restart chat_with_s2))
  = Some "cs-2" /\
  Server.stamped 0 (snd res)
  = [(0, Server.Slept 300); (300, Server.Warned [24]); (300, Server.Slept 300);
     (600, Server.EndedChat); (600, Server.NotifiedEnd [24]);
     (600, Server.ClosedRoom); (600, Server.LoggedEndedByTimer)] /\
  Server.sent_to 24 (Server.trace (fst res))
  = ["WARNING:5 minutes remaining"; "CHAT_ENDED"] /\
  Db.get_active_chat "T1" (Server.db (fst res)) = None.
Proof. cbv zeta. by vm_compute. Qed.

Lemma start_chat_while_active_changes_nothing_witness :
  Db.get_active_chat (nth 2 ["tok-t"; "START_CHAT"; "T1"; "soon"] "")
    (Server.db chat_started) <> None /\
  Server.trace
    (fst (Server._handle_start_chat all_sends_ok decimal_int 1
            ["tok-t"; "START_CHAT"; "T1"; "soon"] "t1" "cs-2" 1060 chat_started))
  = (Server.trace chat_started ++ [Server.Send 1 "FAIL:Invalid duration format"])%list /\
  Server.db
    (fst (Server._handle_start_chat all_sends_ok decimal_int 1
            ["tok-t"; "START_CHAT"; "T1"; "soon"] "t1" "cs-2" 1060 chat_started))
  = Server.db chat_started.
Proof.
  split; [by vm_compute|]. split; [by vm_compute|].
  exact (proj1 (proj2
    (start_chat_while_active_changes_nothing all_sends_ok decimal_int 1
       ["tok-t"; "START_CHAT"; "T1"; "soon"] "t1" "cs-2" 1060 chat_started
       {| Db.tutor_id := "t1"; Db.start_time := 1000;
          Db.end_time := 1000 + inject_Z (10 * 60); Db.chat_session_id := "cs-1" |}
       eq_refl))).
Defined.

Lemma attendance_table_stays_keyed_witness :
  Db.keyed two_absent_students /\
  Db.keyed (run [Join 100 "cs-1" "T1" "s1"; Join 101 "cs-1" "T1" "s3";
                 Leave 130 "cs-1" "s1"] two_absent_students).
Proof.
  assert (Hk : Db.keyed two_absent_students).
  { unfold Db.keyed, two_absent_students. cbn.
    apply NoDup_cons. split.
    - intros H. apply list_elem_of_singleton in H. discriminate.
    - apply NoDup_singleton. }
  split; [exact Hk|].
  exact (attendance_table_stays_keyed
           [Join 100 "cs-1" "T1" "s1"; Join 101 "cs-1" "T1" "s3";
            Leave 130 "cs-1" "s1"] two_absent_students Hk).
Defined.

Example failed_chat_send_detaches_socket :
  let res := Server._broadcast_chat_message all_sends_closed 1 "tok-t" "T1" "hello"
               "10:15" classroom in
  fst res = false /\
  Server.sends (Server.trace (snd res))
  = [(22, "MESSAGE|Tia|t1|10:15|hello|None"); (11, "MESSAGE|Tia|t1|10:15|hello|None");
     (21, "MESSAGE|Tia|t1|10:15|hello|None")] /\
  ChatRoomManager.users_get "s2"
    (ChatRoomManager.users_of "T1" (Server.rooms (snd res)))
  = Some {| ChatRoomManager.primary := Some 21; ChatRoomManager.chat := None |}.
Proof. cbv zeta. by vm_compute. Qed.

(** * Further properties *)

(** ** Session registry: ending and rebinding *)

Section SessionRegistryMore.

Import SessionManager.

(** Once [end_session] has run on a token, the token resolves to no
    session, and a second [end_session] on it returns [False] and changes
    nothing. *)
Theorem end_session_forgets_token sid m :
  let m1 := snd (end_session sid m) in
  get_session_by_id sid m1 = None /\ end_session sid m1 = (false, m1).
Proof.
  cbv zeta. unfold end_session, get_session_by_id.
  destruct (session_lookup m !! sid) as [uid|] eqn:Hl; cbn [snd].
  - destruct (str_truthy uid) eqn:Hu; cbn [snd].
    + destruct (active_sessions m !! uid); cbn; by rewrite lookup_delete_eq.
    + by rewrite Hl, Hu.
  - by rewrite Hl.
Qed.

(** Creating a session for a non-empty [user_id] that has none, with a
    token and a socket the registry does not know, and ending it by its token
    gives the registry back as it was. *)
Theorem create_then_end_session_restores_registry uid r n sock token now m :
  uid <> "" ->
  active_sessions m !! uid = None ->
  session_lookup m !! token = None ->
  (forall h, sock = Some h -> socket_to_session m !! h = None) ->
  end_session token (snd (create_session uid r n sock token now m)) = (true, m).
Proof.
  intros Hne Ha Hl Hs. unfold end_session, create_session. cbn.
  rewrite !lookup_insert_eq.
  assert (str_truthy uid = true) as ->.
  { unfold str_truthy. apply negb_true_iff. by apply String.eqb_neq. }
  cbn. f_equal. destruct m as [a l s2s]. cbn in *. f_equal.
  - by apply delete_insert_id.
  - by apply delete_insert_id.
  - destruct sock as [h|]; [|reflexivity]. cbn.
    destruct (h =? 0); cbn; [reflexivity|].
    apply delete_insert_id. by apply Hs.
Qed.

(** [update_socket] on the token of a stored session binds the new socket:
    the socket resolves to the session, whose [socket] field it now is, the
    token still does, and the socket the session had before resolves to
    nothing. *)
Theorem update_socket_rebinds sid h m s :
  get_session_by_id sid m = Some s ->
  sid <> "" ->
  h <> 0 ->
  let res := update_socket sid (Some h) m in
  fst res = true /\
  get_session_by_id sid (snd res) = Some (set_socket s (Some h)) /\
  get_session_by_socket (Some h) (snd res) = Some (set_socket s (Some h)) /\
  (forall old, socket s = Some old -> old <> 0 -> old <> h ->
               get_session_by_socket (Some old) (snd res) = None).
Proof.
  intros Hs Hsid Hh. cbv zeta.
  unfold get_session_by_id in Hs.
  destruct (session_lookup m !! sid) as [uid|] eqn:Hl; [|discriminate].
  destruct (str_truthy uid) eqn:Hu; [|discriminate].
  assert (Hsid' : str_truthy sid = true).
  { unfold str_truthy. apply negb_true_iff. by apply String.eqb_neq. }
  assert (Hh' : (h =? 0) = false) by by apply Z.eqb_neq.
  unfold update_socket. rewrite Hl, Hu, Hs. cbn [fst snd sock_truthy]. rewrite Hh'.
  cbn [negb].
  assert (Hid : forall s2s,
            get_session_by_id sid
              {| active_sessions := <[uid := set_socket s (Some h)]> (active_sessions m);
                 session_lookup := session_lookup m;
                 socket_to_session := s2s |} = Some (set_socket s (Some h))).
  { intros. unfold get_session_by_id. cbn. by rewrite Hl, Hu, lookup_insert_eq. }
  split; [reflexivity|]. split; [apply Hid|]. split.
  - unfold get_session_by_socket. cbn [socket_to_session].
    by rewrite lookup_insert_eq, Hsid', Hid.
  - intros old Hold Hold0 Holdh. unfold get_session_by_socket. cbn [socket_to_session].
    rewrite lookup_insert_ne by done. rewrite Hold. cbn [sock_truthy].
    assert ((old =? 0) = false) as -> by by apply Z.eqb_neq. cbn [negb andb].
    case_bool_decide as Hin.
    + by rewrite lookup_delete_eq.
    + apply eq_None_not_Some in Hin. by rewrite Hin.
Qed.

Lemma well_keyed_registry_step c m : well_keyed m -> well_keyed (registry_step c m).
Proof.
  intros Hm. destruct c; cbn.
  - by apply well_keyed_create_session.
  - by apply well_keyed_update_socket.
  - by apply well_keyed_end_session.
Qed.

Lemma well_keyed_fold calls m :
  well_keyed m -> well_keyed (fold_left (fun m c => registry_step c m) calls m).
Proof.
  revert m. induction calls as [|c calls IH]; intros m Hm; [exact Hm|].
  cbn. apply IH. by apply well_keyed_registry_step.
Qed.

(** In every registry built from the empty one by [create_session],
    [update_socket] and [end_session], each session is stored under its own
    [user_id]: [user_has_active_session] answers whether the user has an
    entry, and a token resolves only to a session of the user the token index
    names. *)
Theorem reachable_registry_well_keyed calls :
  let m := registry_run calls in
  (forall uid, user_has_active_session uid m = true
               <-> active_sessions m !! uid <> None) /\
  (forall sid s, get_session_by_id sid m = Some s ->
                 session_lookup m !! sid = Some (user_id s)).
Proof.
  cbv zeta.
  assert (Hk : well_keyed (registry_run calls)).
  { apply well_keyed_fold, well_keyed_empty. }
  split.
  - intros uid. unfold user_has_active_session. rewrite existsb_exists. split.
    + intros [[k s] [Hin Heq]]. cbn in Heq. apply String.eqb_eq in Heq.
      apply list_elem_of_In, elem_of_map_to_list in Hin.
      rewrite <- Heq, (Hk k s Hin). congruence.
    + intros H. destruct (active_sessions (registry_run calls) !! uid) as [s|] eqn:E;
        [|done]. exists (uid, s). split.
      * apply list_elem_of_In. by apply elem_of_map_to_list.
      * cbn. apply String.eqb_eq. by apply Hk.
  - intros sid s. unfold get_session_by_id.
    destruct (session_lookup (registry_run calls) !! sid) as [uid|]; [|discriminate].
    destruct (str_truthy uid); [|discriminate].
    intros Hs. by rewrite (Hk uid s Hs).
Qed.

End SessionRegistryMore.

(** ** Room directory: what the getters list *)

Section RoomGetters.

Import ChatRoomManager.

Lemma live_drop_socket slot dead :
  live (if slot_is slot dead then None else slot)
  = List.filter (fun s => negb (s =? dead)) (live slot).
Proof.
  destruct slot as [h|]; cbn; [|reflexivity].
  destruct (Z.eqb_spec h dead) as [->|Hne]; cbn.
  - destruct (dead =? 0); cbn; [reflexivity|]. by rewrite Z.eqb_refl.
  - destruct (h =? 0); cbn; [reflexivity|].
    by destruct (Z.eqb_spec h dead).
Qed.

Lemma collect_remove_dead_socket pick tid ex dead rooms :
  (forall v, pick (drop_socket dead v)
             = List.filter (fun s => negb (s =? dead)) (pick v)) ->
  collect pick tid ex (remove_dead_socket tid dead rooms)
  = List.filter (fun s => negb (s =? dead)) (collect pick tid ex rooms).
Proof.
  intros Hpick. unfold collect, remove_dead_socket.
  destruct (rooms !! tid) as [r|] eqn:E; [|by rewrite E].
  rewrite lookup_insert_eq. cbn.
  induction (users r) as [|[k v] us IH]; cbn; [reflexivity|].
  rewrite List.filter_app, IH. f_equal.
  destruct (excluded ex k); [reflexivity|apply Hpick].
Qed.

(** After [remove_dead_socket] each getter lists what it listed before
    without the dead socket: the socket is gone from every slot, and no other
    socket is lost or moved. *)
Theorem remove_dead_socket_filters_getters tid ex dead rooms :
  let rooms' := remove_dead_socket tid dead rooms in
  let alive := List.filter (fun s => negb (s =? dead)) in
  get_primary_sockets tid ex rooms' = alive (get_primary_sockets tid ex rooms) /\
  get_chat_sockets tid ex rooms' = alive (get_chat_sockets tid ex rooms) /\
  get_all_sockets tid ex rooms' = alive (get_all_sockets tid ex rooms).
Proof.
  cbv zeta. unfold get_primary_sockets, get_chat_sockets, get_all_sockets.
  repeat split; apply collect_remove_dead_socket; intros v; unfold drop_socket; cbn.
  - apply live_drop_socket.
  - apply live_drop_socket.
  - by rewrite List.filter_app, !live_drop_socket.
Qed.

Lemma users_set_In uid v us : In (uid, v) (users_set uid v us).
Proof.
  induction us as [|[k w] us IH]; cbn; [by left|].
  destruct (String.eqb_spec k uid) as [->|Hne]; [by left|by right].
Qed.

Lemma users_get_set uid v us : users_get uid (users_set uid v us) = Some v.
Proof.
  induction us as [|[k w] us IH]; cbn.
  - by rewrite String.eqb_refl.
  - destruct (String.eqb k uid) eqn:E; cbn; by rewrite E.
Qed.

(** The entry [add_socket] leaves for the user. *)
Lemma add_socket_entry tid uid sock is_chat rooms :
  exists v,
    In (uid, v) (users_of tid (add_socket tid uid sock is_chat rooms)) /\
    (if is_chat then chat v else primary v) = Some sock.
Proof.
  unfold add_socket. rewrite users_of_insert. cbn [users set_users].
  eexists. split; [apply users_set_In|]. by destruct is_chat.
Qed.

Lemma collect_In pick tid ex rooms uid v sock :
  In (uid, v) (users_of tid rooms) -> excluded ex uid = false ->
  In sock (pick v) -> In sock (collect pick tid ex rooms).
Proof.
  unfold collect, users_of. destruct (rooms !! tid) as [r|]; [|done].
  intros Hin Hex Hs. apply in_flat_map. exists (uid, v). cbn. by rewrite Hex.
Qed.

Lemma flat_map_users_set_excluded (pick : sockets -> list Z) uid v us :
  str_truthy uid = true ->
  flat_map (fun kv => if excluded (Some uid) (fst kv) then [] else pick (snd kv))
           (users_set uid v us)
  = flat_map (fun kv => if excluded (Some uid) (fst kv) then [] else pick (snd kv)) us.
Proof.
  intros Hu.
  assert (Hex : excluded (Some uid) uid = true).
  { unfold excluded. by rewrite Hu, String.eqb_refl. }
  induction us as [|[k w] us IH]; cbn -[excluded].
  - by rewrite Hex.
  - destruct (String.eqb_spec k uid) as [->|Hne]; cbn -[excluded].
    + by rewrite Hex.
    + by rewrite IH.
Qed.

(** A live socket that [add_socket] puts in a slot is listed by the getter
    of that slot and by [get_all_sockets], unless the getter is asked to
    leave the user out; and for a non-empty [user_id], what the getters list
    with the user left out is what they listed before the call. *)
Theorem add_socket_listed tid uid sock is_chat ex rooms :
  sock <> 0 ->
  let rooms' := add_socket tid uid sock is_chat rooms in
  (excluded ex uid = false ->
     In sock (if is_chat then get_chat_sockets tid ex rooms'
              else get_primary_sockets tid ex rooms') /\
     In sock (get_all_sockets tid ex rooms')) /\
  (uid <> "" ->
     get_primary_sockets tid (Some uid) rooms' = get_primary_sockets tid (Some uid) rooms /\
     get_chat_sockets tid (Some uid) rooms' = get_chat_sockets tid (Some uid) rooms /\
     get_all_sockets tid (Some uid) rooms' = get_all_sockets tid (Some uid) rooms).
Proof.
  intros Hs. cbv zeta.
  assert (Hlive : live (Some sock) = [sock]).
  { cbn. by destruct (Z.eqb_spec sock 0). }
  split.
  - intros Hex.
    destruct (add_socket_entry tid uid sock is_chat rooms) as (v & Hin & Hv).
    split.
    + destruct is_chat; eapply collect_In; eauto; cbn beta; rewrite Hv, Hlive; by left.
    + eapply collect_In; eauto. cbn beta. apply in_or_app.
      destruct is_chat; rewrite Hv, Hlive; [right|left]; by left.
  - intros Hne.
    assert (Hu : str_truthy uid = true).
    { unfold str_truthy. apply negb_true_iff. by apply String.eqb_neq. }
    assert (H : forall pick, collect pick tid (Some uid)
                               (add_socket tid uid sock is_chat rooms)
                             = collect pick tid (Some uid) rooms).
    { intros pick. unfold collect, add_socket. rewrite lookup_insert_eq.
      cbn [users set_users].
      rewrite flat_map_users_set_excluded by done.
      destruct (rooms !! tid) as [r|]; cbn [users new_room].
      - destruct (users_mem uid (users r)); [reflexivity|].
        by rewrite flat_map_users_set_excluded.
      - cbn. unfold excluded. by rewrite Hu, String.eqb_refl. }
    repeat split; apply H.
Qed.

End RoomGetters.

(** ** Attendance report *)

Section AttendanceReport.

Import Db.

Lemma keyed_row_is_record cs st rows a :
  keyed rows -> In a rows -> row_of cs st a = true -> record_of cs st rows = Some a.
Proof.
  unfold keyed, record_of. fold key_of.
  induction rows as [|h rows IH]; cbn; [done|].
  intros Hnd [->|Hin] Ha.
  - by rewrite Ha.
  - apply NoDup_cons in Hnd as [Hh Hnd].
    destruct (row_of cs st h) eqn:E; [|by apply IH].
    exfalso. apply Hh. apply row_of_key in E, Ha. rewrite E, <- Ha.
    apply list_elem_of_In. by apply in_map.
Qed.

(** The [current_duration] that [get_attendance_for_session] reports for a
    student at a clock [now] is the duration the table holds for the student
    after [disconnect_attendance] at that clock: what the report shows of a
    present student is what leaving now would store, and for an absent
    student it is the stored total. *)
Theorem report_matches_leave now cs d r :
  keyed (attendance_rows d) ->
  In r (get_attendance_for_session now cs d) ->
  current_duration r
  = accumulated cs (r_student_id r)
      (disconnect_attendance now cs (r_student_id r) (attendance_rows d)) /\
  (r_is_present r = false -> current_duration r = r_total_duration_seconds r) /\
  ((r_last_seen_time r <= now)%Q -> r_total_duration_seconds r <= current_duration r).
Proof.
  intros Hk Hin. unfold get_attendance_for_session in Hin.
  apply list_elem_of_In, list_elem_of_omap in Hin as (a & Ha & Hr).
  apply list_elem_of_In in Ha.
  destruct (String.eqb_spec (a_chat_session_id a) cs) as [Hcs|]; [|discriminate].
  destruct (users d !! student_id a) as [u|]; [|discriminate].
  injection Hr as <-. cbn.
  assert (Hrow : row_of cs (student_id a) a = true).
  { unfold row_of. rewrite Hcs. by rewrite !String.eqb_refl. }
  pose proof (keyed_row_is_record _ _ _ _ Hk Ha Hrow) as Hrec.
  unfold accumulated. rewrite record_of_disconnect_attendance, Hrec by done. cbn.
  unfold left. split; [by destruct (is_present a)|]. split.
  - by intros ->.
  - intros Hle. destruct (is_present a); [|lia].
    pose proof (int_of_float_elapsed _ _ Hle). lia.
Qed.

End AttendanceReport.

(** ** ASSIGN *)

Section Assign.

Import Db Server.

Variable net : nat -> Z -> sock_status.

Lemma tutors_assigned_app tid d uid tid' :
  tutors_assigned tid (set_assignments d (assignments d ++ [(uid, tid')]))
  = (tutors_assigned tid d
     ++ if String.eqb tid' tid && is_tutor uid d then [uid] else [])%list.
Proof.
  unfold tutors_assigned. cbn. rewrite omap_app. f_equal. cbn.
  change (is_tutor uid (set_assignments d (assignments d ++ [(uid, tid')])))
    with (is_tutor uid d).
  by destruct (String.eqb tid' tid && is_tutor uid d).
Qed.

Lemma not_assigned_no_tutor tid d :
  is_tutor_already_assigned tid d = false -> tutors_assigned tid d = [].
Proof.
  unfold is_tutor_already_assigned, tutors_assigned.
  induction (assignments d) as [|a l IH]; cbn; [done|].
  intros H. apply orb_false_iff in H as [Ha Hl]. by rewrite Ha, IH.
Qed.

(** ASSIGN never gives a tutorial a second tutor: when no tutorial has more
    than one tutor assigned before the command, none has after it, whatever
    the message; and the command touches neither the users nor the
    tutorials. *)
Theorem assign_keeps_one_tutor client_socket parts w :
  one_tutor_per_tutorial (db w) ->
  let w' := _handle_assign net client_socket parts w in
  one_tutor_per_tutorial (db w') /\
  users (db w') = users (db w) /\ tutorials (db w') = tutorials (db w).
Proof.
  intros Hone. cbv zeta. unfold _handle_assign.
  destruct (negb (length parts =? 4)%nat); [done|].
  unfold get_user_role.
  destruct (users (db w) !! nth 2 parts "") as [u|] eqn:Hu; cbn; [|done].
  destruct (str_truthy (u_role u)); cbn; [|done].
  destruct (String.eqb (u_role u) "tutor" && _) eqn:Hguard; [done|].
  unfold assign_user_to_tutorial.
  destruct (_ && _ && negb _); cbn; [|done].
  split; [|done]. intros tid. rewrite tutors_assigned_app.
  destruct (String.eqb_spec (nth 3 parts "") tid) as [<-|]; cbn;
    [|rewrite app_nil_r; apply Hone].
  unfold is_tutor at 1. rewrite Hu.
  destruct (String.eqb (u_role u) "tutor"); cbn in *;
    [|rewrite app_nil_r; apply Hone].
  by rewrite (not_assigned_no_tutor _ _ Hguard).
Qed.

End Assign.

(** ** The life of a chat *)

Section ChatLifecycle.

Import Db Server.

Variable net : nat -> Z -> sock_status.
Variable py_int : string -> option Z.

Lemma NoDup_students_of tid d : NoDup (assignments d) -> NoDup (students_of tid d).
Proof.
  unfold students_of. induction (assignments d) as [|[u t] l IH]; cbn.
  - intros _. apply NoDup_nil_2.
  - intros Hnd. apply NoDup_cons in Hnd as [Hnew Hnd].
    destruct (String.eqb_spec t tid) as [->|]; [|by apply IH].
    destruct (users d !! u) as [usr|]; [|by apply IH].
    destruct (String.eqb (u_role usr) "student"); [|by apply IH].
    cbn. apply NoDup_cons_2; [|by apply IH].
    intros Hin. apply list_elem_of_omap in Hin as ([u' t'] & Hin & Hf). cbn in Hf.
    destruct (String.eqb_spec t' tid) as [->|]; [|discriminate].
    destruct (users d !! u') as [usr'|]; [|discriminate].
    destruct (String.eqb (u_role usr') "student"); [|discriminate].
    injection Hf as ->. by apply Hnew.
Qed.

Lemma record_of_fresh_session cs st rows :
  (forall r, In r rows -> a_chat_session_id r <> cs) -> record_of cs st rows = None.
Proof.
  intros Hfresh. unfold record_of.
  destruct (find (row_of cs st) rows) as [r|] eqn:E; [|reflexivity].
  apply find_some in E as [Hin Hr]. apply row_of_key in Hr.
  exfalso. apply (Hfresh r Hin). unfold key_of in Hr. congruence.
Qed.

(** START_CHAT on a tutorial without an active chat, the tutorial and the
    tutor being in the database.  When the seconds [duration * 60] have no
    float, the sum with the start time raises: nothing is stored and nothing
    is sent.  Otherwise the reply is CHAT_STARTED with the new chat session
    id, sent after the timer is started; the chat ends [duration * 60]
    seconds after it starts; the tutor's socket is attached; and, the
    attendance table being keyed and holding no row of the new session, it is
    keyed afterwards, every student assigned to the tutorial has a record,
    and nobody has joined yet. *)
Theorem start_chat_opens_session
    client_socket parts tutor uuid now w tid duration :
  (4 <= length parts)%nat ->
  nth 2 parts "" = tid ->
  py_int (nth 3 parts "") = Some duration ->
  uuid <> "" ->
  get_active_chat tid (db w) = None ->
  tutorials (db w) !! tid <> None ->
  users (db w) !! tutor <> None ->
  keyed (attendance_rows (db w)) ->
  (forall r, In r (attendance_rows (db w)) -> a_chat_session_id r <> uuid) ->
  NoDup (assignments (db w)) ->
  let res := _handle_start_chat net py_int client_socket parts tutor uuid now w in
  (float_overflow <= Z.abs (duration * 60) ->
     exists detail, res = (w, Some detail)) /\
  (Z.abs (duration * 60) < float_overflow ->
   snd res = None /\
   trace (fst res)
   = (trace w ++ [StartTimer tid duration;
                  Send client_socket ("CHAT_STARTED:" ++ uuid)])%list /\
   get_active_chat tid (db (fst res))
   = Some {| tutor_id := tutor; start_time := now;
             end_time := (now + inject_Z (duration * 60))%Q;
             chat_session_id := uuid |} /\
   rooms (fst res) = ChatRoomManager.add_socket tid tutor client_socket false (rooms w) /\
   keyed (attendance_rows (db (fst res))) /\
   (forall st, In st (students_of tid (db w)) ->
               record_of uuid st (attendance_rows (db (fst res))) <> None) /\
   (forall st, not_joined_yet uuid st (attendance_rows (db (fst res))) = true)).
Proof.
  intros Hlen Htid Hint Huuid Hnone Htut Husr Hk Hfresh Hnd res. subst res.
  unfold _handle_start_chat.
  assert ((Z.of_nat (length parts) <? 4) = false) as -> by (apply Z.ltb_ge; lia).
  rewrite Hint, Htid. unfold start_chat. rewrite Hnone.
  split.
  { intros Hbig.
    assert (float_of_int_ok (duration * 60) = false) as ->
      by (by apply Z.ltb_ge).
    cbn [negb]. eexists. by destruct w. }
  intros Hfits.
  assert (float_of_int_ok (duration * 60) = true) as -> by (by apply Z.ltb_lt).
  cbn [negb].
  assert (bool_decide (is_Some (tutorials (db w) !! tid)) = true) as ->.
  { apply bool_decide_eq_true. by apply not_eq_None_Some. }
  assert (bool_decide (is_Some (users (db w) !! tutor)) = true) as ->.
  { apply bool_decide_eq_true. by apply not_eq_None_Some. }
  cbn [andb].
  assert (str_truthy uuid = true) as ->.
  { unfold str_truthy. apply negb_true_iff. by apply String.eqb_neq. }
  set (d1 := set_active_chats (db w) _).
  assert (Hrows : attendance_rows (initialize_attendance_for_session uuid tid d1)
                  = (attendance_rows (db w)
                     ++ map (fun st =>
                               {| a_chat_session_id := uuid; a_tutorial_id := tid;
                                  student_id := st; first_join_time := 0;
                                  last_seen_time := 0; total_duration_seconds := 0;
                                  is_present := false |})
                            (students_of tid (db w)))%list) by reflexivity.
  unfold reply, send_data, emit, set_db, set_rooms.
  cbn [fst snd trace db rooms session_manager].
  rewrite <- app_assoc. cbn [app].
  split; [reflexivity|]. split; [reflexivity|].
  split; [unfold get_active_chat; cbn; apply lookup_insert_eq|].
  split; [reflexivity|].
  assert (Hnew : forall st rows', record_of uuid st (attendance_rows (db w) ++ rows')
                                  = record_of uuid st rows').
  { intros st rows'. by rewrite record_of_app, record_of_fresh_session. }
  split; [|split].
  - apply (keyed_initialize_attendance uuid tid d1);
      [exact Hk|intros r Hr; apply Hfresh; by apply list_elem_of_In|].
    by apply (NoDup_students_of tid d1).
  - intros st Hst. rewrite Hrows, Hnew. unfold record_of.
    destruct (find _ _) eqn:E; [done|]. exfalso.
    assert (Hf := find_none _ _ E
             {| a_chat_session_id := uuid; a_tutorial_id := tid; student_id := st;
                first_join_time := 0; last_seen_time := 0;
                total_duration_seconds := 0; is_present := false |}).
    unfold row_of in Hf. cbn in Hf. rewrite !String.eqb_refl in Hf.
    assert (true && true = false) as Habs; [|discriminate].
    apply Hf. apply in_map_iff. exists st. split; [reflexivity|exact Hst].
  - intros st. unfold not_joined_yet. rewrite Hrows, Hnew. unfold record_of.
    destruct (find _ _) as [r|] eqn:E; [|reflexivity].
    apply find_some in E as [Hin _].
    apply in_map_iff in Hin as (st' & <- & _). reflexivity.
Qed.

(** START_CHAT on a tutorial or by a tutor that is not in the database: the
    insert of the chat raises, nothing is sent and nothing changes. *)
Theorem start_chat_unknown_tutorial_raises
    client_socket parts tutor uuid now w duration :
  (4 <= length parts)%nat ->
  py_int (nth 3 parts "") = Some duration ->
  get_active_chat (nth 2 parts "") (db w) = None ->
  tutorials (db w) !! nth 2 parts "" = None \/ users (db w) !! tutor = None ->
  exists detail,
    _handle_start_chat net py_int client_socket parts tutor uuid now w
    = (w, Some detail).
Proof.
  intros Hlen Hint Hnone Hmiss. unfold _handle_start_chat.
  assert ((Z.of_nat (length parts) <? 4) = false) as -> by (apply Z.ltb_ge; lia).
  rewrite Hint. unfold start_chat. rewrite Hnone.
  assert (bool_decide (is_Some (tutorials (db w) !! nth 2 parts ""))
          && bool_decide (is_Some (users (db w) !! tutor)) = false) as ->.
  { apply andb_false_iff. destruct Hmiss as [H|H]; [left|right];
      apply bool_decide_eq_false; rewrite H; by intros []. }
  destruct (float_of_int_ok (duration * 60)); cbn [negb]; eexists; by destruct w.
Qed.

(** END_CHAT, whoever sends it: afterwards the tutorial has no active chat
    and no room; CHAT_ENDED went to the chat sockets the room had, and to
    nobody else (the caller gets no reply); the chats and rooms of the other
    tutorials, the attendance table and the registry are as before. *)
Theorem end_chat_closes_tutorial client_socket parts w tid :
  (3 <= length parts)%nat ->
  nth 2 parts "" = tid ->
  let w' := _handle_end_chat net client_socket parts w in
  get_active_chat tid (db w') = None /\
  rooms w' !! tid = None /\
  trace w'
  = (trace w ++ map (fun s => Send s "CHAT_ENDED")
                    (ChatRoomManager.get_chat_sockets tid None (rooms w)))%list /\
  (forall t, t <> tid ->
     get_active_chat t (db w') = get_active_chat t (db w) /\
     rooms w' !! t = rooms w !! t) /\
  attendance_rows (db w') = attendance_rows (db w) /\
  session_manager w' = session_manager w.
Proof.
  intros Hlen Htid. cbv zeta. unfold _handle_end_chat.
  assert ((Z.of_nat (length parts) <? 3) = false) as -> by (apply Z.ltb_ge; lia).
  rewrite Htid, send_all_effect. cbn.
  split; [unfold get_active_chat; cbn; apply lookup_delete_eq|].
  assert (Hroom : forall t,
            (ChatRoomManager.close_room tid (rooms w)).2 !! t
            = if decide (t = tid) then None else rooms w !! t).
  { intros t. unfold ChatRoomManager.close_room.
    destruct (rooms w !! tid) eqn:E; cbn.
    - rewrite lookup_delete. by repeat case_decide; subst.
    - case_decide; by subst. }
  split; [rewrite Hroom; by case_decide|].
  split; [reflexivity|]. split; [|done].
  intros t Ht. split.
  - unfold get_active_chat. cbn. by rewrite lookup_delete_ne.
  - rewrite Hroom. by case_decide.
Qed.

End ChatLifecycle.

(** ** The short timer and CHECK_CHAT *)

Section ShortTimerAndCheck.

Import Db Server.

Variable net : nat -> Z -> sock_status.
Variable sleep_beyond : N.


(** CHECK_CHAT reads and never writes: one reply is sent and nothing else
    changes.  The reply is CHAT_ACTIVE with the chat session id exactly for
    the tutor who started the active chat of the tutorial and for the
    students assigned to the tutorial; everybody else gets a refusal. *)
Theorem check_chat_reads_only client_socket parts user_id w :
  let w' := _handle_check_chat net client_socket parts user_id w in
  db w' = db w /\ rooms w' = rooms w /\ session_manager w' = session_manager w /\
  exists answer,
    trace w' = (trace w ++ [Send client_socket answer])%list /\
    ((3 <= length parts)%nat ->
     match chat_open_for user_id (nth 2 parts "") (db w) with
     | Some cs => answer = "CHAT_ACTIVE:" ++ cs
     | None =>
         In answer ["NO_ACTIVE_CHAT";
                    "FAIL:Chat exists but was started by another tutor";
                    "FAIL:Not enrolled in this tutorial";
                    "FAIL:Invalid role for chat participation"]
     end).
Proof.
  cbv zeta. unfold _handle_check_chat, chat_open_for.
  destruct (Z.ltb_spec (Z.of_nat (length parts)) 3) as [Hshort|Hlong].
  - repeat split. eexists. split; [reflexivity|]. lia.
  - destruct (get_active_chat (nth 2 parts "") (db w)) as [chat|].
    + destruct (get_user_role user_id (db w)) as [role|].
      * destruct (String.eqb_spec role "tutor") as [->|Hnt].
        -- cbn. destruct (String.eqb (tutor_id chat) user_id); cbn;
             (repeat split; eexists; split; [reflexivity|]; intros _; cbn; tauto).
        -- destruct (String.eqb_spec role "student") as [->|Hns].
           ++ cbn. destruct (enrolled user_id (nth 2 parts "") (db w)); cbn;
                (repeat split; eexists; split; [reflexivity|]; intros _; cbn; tauto).
           ++ cbn.
              assert (Hother : forall A (a b c : A),
                        match role with
                        | "tutor" => a | "student" => b | _ => c
                        end = c).
              { intros A a b c.
                repeat (match goal with
                        | |- context [match ?x with EmptyString => _ | String _ _ => _ end] =>
                            destruct x; try reflexivity
                        | |- context [match ?x with Ascii.Ascii _ _ _ _ _ _ _ _ => _ end] =>
                            destruct x
                        | |- context [if ?b then _ else _] => destruct b; try reflexivity
                        end); congruence. }
              rewrite Hother.
              repeat split; eexists; (split; [reflexivity|]); intros _; cbn; tauto.
      * repeat split; eexists; (split; [reflexivity|]); intros _; cbn; tauto.
    + repeat split; eexists; (split; [reflexivity|]); intros _; cbn; tauto.
Qed.

End ShortTimerAndCheck.

(** ** JOIN_CHAT and LEAVE_CHAT *)

Section JoinLeave.

Import Db Server.

Variable net : nat -> Z -> sock_status.
Variable json_dumps : list report -> string.

Lemma users_of_touch_room tid t rooms :
  ChatRoomManager.users_of t (touch_room tid rooms) = ChatRoomManager.users_of t rooms.
Proof.
  unfold touch_room, ChatRoomManager.users_of.
  destruct (rooms !! tid) eqn:E; [reflexivity|].
  destruct (decide (t = tid)) as [->|Hne].
  - by rewrite lookup_insert_eq, E.
  - by rewrite lookup_insert_ne.
Qed.

Lemma users_mem_not_in uid us :
  uid ∉ map fst us -> ChatRoomManager.users_mem uid us = false.
Proof.
  unfold ChatRoomManager.users_mem. induction us as [|[k v] us IH]; cbn; [done|].
  intros H. apply not_elem_of_cons in H as [Hne Hin].
  destruct (String.eqb_spec k uid); [congruence|]. by apply IH.
Qed.

(** What the attendance update does, whatever the room. *)
Lemma broadcast_attendance_update_effect tid now w :
  let res := _broadcast_attendance_update net json_dumps tid now w in
  db (fst res) = db w /\
  session_manager (fst res) = session_manager w /\
  (forall t, ChatRoomManager.users_of t (rooms (fst res))
             = ChatRoomManager.users_of t (rooms w)) /\
  (exists update, trace (fst res) = (trace w ++ update)%list
                  /\ (length update <= 1)%nat) /\
  (ChatRoomManager.users_of tid (rooms w) <> [] -> snd res = None).
Proof.
  cbv zeta. unfold _broadcast_attendance_update.
  assert (Hsame : db w = db w /\ session_manager w = session_manager w /\
                  (forall t, ChatRoomManager.users_of t (rooms w)
                             = ChatRoomManager.users_of t (rooms w)) /\
                  (exists update, trace w = (trace w ++ update)%list
                                  /\ (length update <= 1)%nat)).
  { repeat split. exists []. rewrite app_nil_r. split; [done|cbn; lia]. }
  destruct (get_active_chat tid (db w)) as [c|]; [|cbn; tauto].
  destruct (str_truthy (chat_session_id c)); cbn [negb]; [|cbn; tauto].
  cbn [rooms set_rooms]. rewrite users_of_touch_room.
  assert (Htouched : db (set_rooms w (touch_room tid (rooms w))) = db w /\
            session_manager (set_rooms w (touch_room tid (rooms w))) = session_manager w /\
            (forall t, ChatRoomManager.users_of t
                         (rooms (set_rooms w (touch_room tid (rooms w))))
                       = ChatRoomManager.users_of t (rooms w)) /\
            (exists update, trace (set_rooms w (touch_room tid (rooms w)))
                            = (trace w ++ update)%list /\ (length update <= 1)%nat)).
  { split; [done|]. split; [done|]. split; [intros t; apply users_of_touch_room|].
    exists []. cbn. rewrite app_nil_r. split; [done|lia]. }
  destruct (last (ChatRoomManager.users_of tid (rooms w))) as [[u v]|] eqn:Hlast.
  - assert (Hsent : forall (h : Z) (msg : string),
              db (reply net h msg (set_rooms w (touch_room tid (rooms w)))) = db w /\
              session_manager (reply net h msg (set_rooms w (touch_room tid (rooms w))))
              = session_manager w /\
              (forall t, ChatRoomManager.users_of t
                           (rooms (reply net h msg
                                     (set_rooms w (touch_room tid (rooms w)))))
                         = ChatRoomManager.users_of t (rooms w)) /\
              (exists update,
                 trace (reply net h msg (set_rooms w (touch_room tid (rooms w))))
                 = (trace w ++ update)%list /\ (length update <= 1)%nat)).
    { intros h msg. split; [done|]. split; [done|].
      split; [intros t; apply users_of_touch_room|].
      exists [Send h msg]. split; [reflexivity|cbn; lia]. }
    destruct (ChatRoomManager.users_get u _) as [v'|]; [|cbn; tauto].
    destruct (ChatRoomManager.chat v') as [h|]; [|cbn; tauto].
    destruct (sock_truthy (Some h)); cbn [fst snd]; [|tauto].
    destruct (Hsent h ("ATTENDANCE_UPDATE|"
                ++ json_dumps (get_attendance_for_session now (chat_session_id c) (db w))))
      as (H1 & H2 & H3 & H4).
    tauto.
  - cbn [fst snd]. destruct Htouched as (H1 & H2 & H3 & H4).
    split; [done|]. split; [done|]. split; [done|]. split; [done|].
    intros Hne. apply last_None in Hlast. congruence.
Qed.

(** ATTENDANCE_UPDATE goes to one socket at most, the chat socket of the
    user whose entry is the last of the room, whatever the role of that
    user; no other participant receives it.  In a room without user entries
    the function raises. *)
Theorem attendance_update_recipient tid now w chat :
  get_active_chat tid (db w) = Some chat ->
  chat_session_id chat <> "" ->
  NoDup (map fst (ChatRoomManager.users_of tid (rooms w))) ->
  let res := _broadcast_attendance_update net json_dumps tid now w in
  let payload :=
    "ATTENDANCE_UPDATE|"
      ++ json_dumps (get_attendance_for_session now (chat_session_id chat) (db w)) in
  (forall front u v,
     ChatRoomManager.users_of tid (rooms w) = (front ++ [(u, v)])%list ->
     snd res = None /\
     trace (fst res)
     = (trace w ++ match ChatRoomManager.chat v with
                   | Some h => if h =? 0 then [] else [Send h payload]
                   | None => []
                   end)%list) /\
  (ChatRoomManager.users_of tid (rooms w) = [] ->
     snd res <> None /\ trace (fst res) = trace w).
Proof.
  intros Hchat Hcs Hnd. cbv zeta. unfold _broadcast_attendance_update.
  rewrite Hchat.
  assert (str_truthy (chat_session_id chat) = true) as ->.
  { unfold str_truthy. apply negb_true_iff. by apply String.eqb_neq. }
  cbn [negb rooms set_rooms]. rewrite users_of_touch_room. split.
  - intros front u v Hus. rewrite Hus in *. rewrite last_snoc.
    rewrite users_get_last.
    + destruct (ChatRoomManager.chat v) as [h|]; cbn;
        [|by rewrite app_nil_r].
      destruct (h =? 0); cbn; [by rewrite app_nil_r|done].
    + apply users_mem_not_in. rewrite map_app in Hnd. cbn in Hnd.
      apply NoDup_app in Hnd as (_ & Hdisj & _).
      intros Hin. apply (Hdisj u Hin). by apply list_elem_of_singleton.
  - intros ->. cbn. done.
Qed.

Lemma update_socket_keeps_session sid sock m s :
  SessionManager.get_session_by_id sid m = Some s ->
  fst (SessionManager.update_socket sid sock m) = true /\
  SessionManager.get_session_by_id sid (snd (SessionManager.update_socket sid sock m))
  = Some (SessionManager.set_socket s sock).
Proof.
  unfold SessionManager.get_session_by_id, SessionManager.update_socket.
  destruct (SessionManager.session_lookup m !! sid) as [uid|] eqn:Hl; [|discriminate].
  destruct (str_truthy uid) eqn:Hu; [|discriminate].
  intros ->. cbn. by rewrite Hl, Hu, lookup_insert_eq.
Qed.

Lemma users_get_del uid us :
  NoDup (map fst us) ->
  ChatRoomManager.users_get uid (ChatRoomManager.users_del uid us) = None.
Proof.
  induction us as [|[k v] us IH]; cbn; [done|].
  intros Hnd. apply NoDup_cons in Hnd as [Hk Hnd].
  destruct (String.eqb_spec k uid) as [->|Hne]; cbn.
  - apply users_mem_false_get, users_mem_not_in. exact Hk.
  - destruct (String.eqb_spec k uid); [done|]. by apply IH.
Qed.

(** What a JOIN_CHAT that passes its checks does. *)
Lemma join_chat_effect client_socket parts st sid now1 now2 w tid chat s u :
  (3 <= length parts)%nat ->
  nth 2 parts "" = tid ->
  enrolled st tid (db w) = true ->
  get_active_chat tid (db w) = Some chat ->
  SessionManager.get_session_by_id sid (session_manager w) = Some s ->
  get_user st (db w) = Some u ->
  let res := _handle_join_chat net json_dumps client_socket parts st sid now1 now2 w in
  snd res = None /\
  db (fst res)
  = set_attendance (db w)
      (mark_student_present now1 (chat_session_id chat) tid st
         (attendance_rows (db w))) /\
  session_manager (fst res)
  = snd (SessionManager.update_socket sid (Some client_socket) (session_manager w)) /\
  (forall t, ChatRoomManager.users_of t (rooms (fst res))
             = ChatRoomManager.users_of t
                 (ChatRoomManager.add_socket tid st client_socket false (rooms w))).
Proof.
  intros Hlen Htid Henr Hchat Hs Hu. cbv zeta. unfold _handle_join_chat.
  assert ((Z.of_nat (length parts) <? 3) = false) as -> by (apply Z.ltb_ge; lia).
  rewrite Htid, Henr, Hchat. cbn [negb].
  destruct (update_socket_keeps_session sid (Some client_socket) _ _ Hs) as [Hup _].
  destruct (SessionManager.update_socket sid (Some client_socket) (session_manager w))
    as [[] m'] eqn:Eup; [|discriminate]. clear Hup.
  cbn [db set_rooms set_sessions]. rewrite Hu.
  match goal with
  | |- context [_broadcast_attendance_update net json_dumps tid now2 ?w4] =>
      pose proof (broadcast_attendance_update_effect tid now2 w4) as Hb;
      destruct (_broadcast_attendance_update net json_dumps tid now2 w4) as [w5 exc]
  end.
  cbv zeta in Hb. cbn [fst snd] in Hb. destruct Hb as (Hdb & Hsm & Hus & _ & Hexc).
  assert (exc = None) as ->.
  { apply Hexc.
    change (ChatRoomManager.users_of tid
              (ChatRoomManager.add_socket tid st client_socket false (rooms w)) <> []).
    destruct (add_socket_entry tid st client_socket false (rooms w)) as (v & Hin & _).
    intros Hnil. rewrite Hnil in Hin. destruct Hin. }
  rewrite send_all_effect. cbn [fst snd db rooms session_manager].
  split; [reflexivity|]. split; [rewrite Hdb; reflexivity|].
  split; [rewrite Hsm; reflexivity|]. intros t. rewrite Hus. reflexivity.
Qed.

(** What a LEAVE_CHAT does on an active chat whose room has a user. *)
Lemma leave_chat_effect client_socket parts sid now1 now2 w tid chat s :
  (3 <= length parts)%nat ->
  nth 2 parts "" = tid ->
  SessionManager.get_session_by_id sid (session_manager w) = Some s ->
  get_active_chat tid (db w) = Some chat ->
  ChatRoomManager.users_of tid (rooms w) <> [] ->
  let res := _handle_disconnect_message net json_dumps client_socket sid parts
               now1 now2 w in
  let uid := SessionManager.user_id s in
  snd res = None /\
  db (fst res)
  = set_attendance (db w)
      (disconnect_attendance now1 (chat_session_id chat) uid (attendance_rows (db w))) /\
  session_manager (fst res) = session_manager w /\
  ChatRoomManager.users_of tid (rooms (fst res))
  = ChatRoomManager.users_del uid (ChatRoomManager.users_of tid (rooms w)) /\
  exists update,
    trace (fst res)
    = (trace w
       ++ map (fun h => Send h ("USER_LEFT:" ++ uid ++ ":" ++ SessionManager.name s))
              (ChatRoomManager.get_chat_sockets tid (Some uid) (rooms w))
       ++ update)%list
    /\ (length update <= 1)%nat.
Proof.
  intros Hlen Htid Hs Hchat Hne. cbv zeta. unfold _handle_disconnect_message.
  assert ((Z.of_nat (length parts) <? 3) = false) as -> by (apply Z.ltb_ge; lia).
  rewrite Htid, Hs, send_all_effect. cbn [db rooms]. rewrite Hchat.
  match goal with
  | |- context [_broadcast_attendance_update net json_dumps tid now2 ?w2] =>
      pose proof (broadcast_attendance_update_effect tid now2 w2) as Hb;
      destruct (_broadcast_attendance_update net json_dumps tid now2 w2) as [w3 exc]
  end.
  cbv zeta in Hb. cbn [fst snd db rooms session_manager set_db trace] in Hb.
  destruct Hb as (Hdb & Hsm & Hus & (update & Htr & Hlen1) & Hexc).
  assert (exc = None) as -> by by apply Hexc.
  cbn [fst snd db rooms session_manager set_rooms trace].
  split; [reflexivity|]. split; [by rewrite Hdb|]. split; [by rewrite Hsm|]. split.
  - by rewrite remove_user_users, Hus.
  - exists update. split; [by rewrite Htr, <- app_assoc|exact Hlen1].
Qed.

(** JOIN_CHAT.  A student who is not assigned to the tutorial, or a
    tutorial without an active chat: one refusal is sent and nothing changes.
    Otherwise, the session token resolving and the student being in the
    database, the handler returns normally; the database differs only in the
    attendance table, on which [mark_student_present] ran for the pair of the
    active chat and the student, whose record is present afterwards; and a
    live socket is listed among the primary sockets of the room. *)
Theorem join_chat_marks_present client_socket parts st sid now1 now2 w tid :
  (3 <= length parts)%nat ->
  nth 2 parts "" = tid ->
  let res := _handle_join_chat net json_dumps client_socket parts st sid now1 now2 w in
  (enrolled st tid (db w) = false \/ get_active_chat tid (db w) = None ->
     exists refusal,
       res = (reply net client_socket refusal w, None) /\
       In refusal ["FAIL:Not authorized for this tutorial";
                   "FAIL:No active chat for this tutorial"]) /\
  (forall chat s u,
     enrolled st tid (db w) = true ->
     get_active_chat tid (db w) = Some chat ->
     SessionManager.get_session_by_id sid (session_manager w) = Some s ->
     get_user st (db w) = Some u ->
     snd res = None /\
     db (fst res)
     = set_attendance (db w)
         (mark_student_present now1 (chat_session_id chat) tid st
            (attendance_rows (db w))) /\
     (exists r, record_of (chat_session_id chat) st (attendance_rows (db (fst res)))
                = Some r /\ is_present r = true) /\
     (client_socket <> 0 ->
      In client_socket
         (ChatRoomManager.get_primary_sockets tid None (rooms (fst res))))).
Proof.
  intros Hlen Htid. cbv zeta. split.
  - intros Hrefused. unfold _handle_join_chat.
    assert ((Z.of_nat (length parts) <? 3) = false) as -> by (apply Z.ltb_ge; lia).
    rewrite Htid.
    destruct (enrolled st tid (db w)) eqn:Henr; cbn [negb].
    + destruct Hrefused as [|Hnone]; [discriminate|]. rewrite Hnone.
      eexists. split; [reflexivity|]. cbn. tauto.
    + eexists. split; [reflexivity|]. cbn. tauto.
  - intros chat s u Henr Hchat Hs Hu.
    destruct (join_chat_effect client_socket parts st sid now1 now2 w tid chat s u
                Hlen Htid Henr Hchat Hs Hu) as (Hexc & Hdb & _ & Hus).
    split; [exact Hexc|]. split; [exact Hdb|]. split.
    + rewrite Hdb. cbn [attendance_rows set_attendance].
      rewrite record_of_mark_student_present.
      eexists. split; [reflexivity|].
      unfold joined. destruct (record_of _ _ _) as [r|]; [|reflexivity].
      destruct (is_present r) eqn:Hp; cbn; [exact Hp|].
      by destruct (Qeq_bool (first_join_time r) 0).
    + intros Hsock.
      destruct (add_socket_entry tid st client_socket false (rooms w))
        as (v & Hin & Hv). cbn in Hv.
      rewrite <- Hus in Hin.
      apply (collect_In _ tid None (rooms (fst _)) st v client_socket Hin eq_refl).
      cbn beta. rewrite Hv. cbn. destruct (Z.eqb_spec client_socket 0); [done|by left].
Qed.

(** LEAVE_CHAT by a user with a session, on an active chat whose room has a
    user entry: the handler returns normally; the other participants with a
    chat socket are sent USER_LEFT; [disconnect_attendance] ran for the pair
    of the active chat and the sender, so that in a keyed table the record of
    the sender, if there is one, is the one a leave gives; and the entry of
    the sender is deleted from the room. *)
Theorem leave_chat_marks_absent client_socket parts sid now1 now2 w tid chat s :
  (3 <= length parts)%nat ->
  nth 2 parts "" = tid ->
  SessionManager.get_session_by_id sid (session_manager w) = Some s ->
  get_active_chat tid (db w) = Some chat ->
  ChatRoomManager.users_of tid (rooms w) <> [] ->
  keyed (attendance_rows (db w)) ->
  NoDup (map fst (ChatRoomManager.users_of tid (rooms w))) ->
  let res := _handle_disconnect_message net json_dumps client_socket sid parts
               now1 now2 w in
  let uid := SessionManager.user_id s in
  snd res = None /\
  record_of (chat_session_id chat) uid (attendance_rows (db (fst res)))
  = left now1 <$> record_of (chat_session_id chat) uid (attendance_rows (db w)) /\
  ChatRoomManager.users_get uid (ChatRoomManager.users_of tid (rooms (fst res))) = None /\
  (forall u, u <> uid ->
     ChatRoomManager.users_get u (ChatRoomManager.users_of tid (rooms (fst res)))
     = ChatRoomManager.users_get u (ChatRoomManager.users_of tid (rooms w))) /\
  exists update,
    trace (fst res)
    = (trace w
       ++ map (fun h => Send h ("USER_LEFT:" ++ uid ++ ":" ++ SessionManager.name s))
              (ChatRoomManager.get_chat_sockets tid (Some uid) (rooms w))
       ++ update)%list
    /\ (length update <= 1)%nat.
Proof.
  intros Hlen Htid Hs Hchat Hne Hk Hnd. cbv zeta.
  destruct (leave_chat_effect client_socket parts sid now1 now2 w tid chat s
              Hlen Htid Hs Hchat Hne) as (Hexc & Hdb & _ & Hus & Htr).
  split; [exact Hexc|]. split.
  - rewrite Hdb. cbn [attendance_rows set_attendance].
    by apply record_of_disconnect_attendance.
  - split; [rewrite Hus; by apply users_get_del|]. split; [|exact Htr].
    intros u Hu. rewrite Hus. clear -Hu.
    induction (ChatRoomManager.users_of tid (rooms w)) as [|[k v] us IH]; cbn; [done|].
    destruct (String.eqb_spec k (SessionManager.user_id s)) as [->|Hk]; cbn.
    + by destruct (String.eqb_spec (SessionManager.user_id s) u).
    + by rewrite IH.
Qed.

(** A visit through the handlers.  A student with a session, assigned to a
    tutorial with an active chat and not present in it, sends JOIN_CHAT at
    [t1], LEAVE_CHAT at [t2] and JOIN_CHAT again at [t3]: the three handlers
    return normally, and the record of the student is present, was last seen
    at [t3], has gained the whole seconds of [t2 - t1] and keeps the first
    join time it had, or [t1] when there was none. *)
Theorem visit_through_handlers sock1 sock2 sock3 join_parts leave_parts st sid tid
    t1 u1 t2 u2 t3 u3 w chat s u :
  (3 <= length join_parts)%nat -> nth 2 join_parts "" = tid ->
  (3 <= length leave_parts)%nat -> nth 2 leave_parts "" = tid ->
  enrolled st tid (db w) = true ->
  get_active_chat tid (db w) = Some chat ->
  SessionManager.get_session_by_id sid (session_manager w) = Some s ->
  SessionManager.user_id s = st ->
  get_user st (db w) = Some u ->
  keyed (attendance_rows (db w)) ->
  match record_of (chat_session_id chat) st (attendance_rows (db w)) with
  | Some r => is_present r = false
  | None => True
  end ->
  (0 < t1)%Q ->
  let joined1 := _handle_join_chat net json_dumps sock1 join_parts st sid t1 u1 w in
  let left2 := _handle_disconnect_message net json_dumps sock2 sid leave_parts
                 t2 u2 (fst joined1) in
  let joined3 := _handle_join_chat net json_dumps sock3 join_parts st sid t3 u3
                   (fst left2) in
  snd joined1 = None /\ snd left2 = None /\ snd joined3 = None /\
  exists r3,
    record_of (chat_session_id chat) st (attendance_rows (db (fst joined3))) = Some r3 /\
    is_present r3 = true /\
    last_seen_time r3 = t3 /\
    total_duration_seconds r3
    = accumulated (chat_session_id chat) st (attendance_rows (db w))
      + int_of_float (t2 - t1)%Q /\
    first_join_time r3 =
      match record_of (chat_session_id chat) st (attendance_rows (db w)) with
      | Some r => if Qeq_bool (first_join_time r) 0 then t1 else first_join_time r
      | None => t1
      end.
Proof.
  intros Hjl Hjt Hll Hlt Henr Hchat Hs Hst Hu Hk Habs Ht1. cbv zeta.
  destruct (join_chat_effect sock1 join_parts st sid t1 u1 w tid chat s u
              Hjl Hjt Henr Hchat Hs Hu) as (E1 & D1 & S1 & U1).
  set (w1 := fst (_handle_join_chat net json_dumps sock1 join_parts st sid t1 u1 w))
    in *.
  destruct (update_socket_keeps_session sid (Some sock1) _ _ Hs) as [_ Hs1].
  rewrite <- S1 in Hs1.
  assert (Hc1 : get_active_chat tid (db w1) = Some chat) by (rewrite D1; exact Hchat).
  assert (Hne1 : ChatRoomManager.users_of tid (rooms w1) <> []).
  { rewrite U1.
    destruct (add_socket_entry tid st sock1 false (rooms w)) as (v & Hin & _).
    intros Hnil. rewrite Hnil in Hin. destruct Hin. }
  destruct (leave_chat_effect sock2 leave_parts sid t2 u2 w1 tid chat _
              Hll Hlt Hs1 Hc1 Hne1) as (E2 & D2 & S2 & _).
  set (w2 := fst (_handle_disconnect_message net json_dumps sock2 sid leave_parts
                    t2 u2 w1)) in *.
  rewrite <- S2 in Hs1.
  assert (Henr2 : enrolled st tid (db w2) = true) by (rewrite D2, D1; exact Henr).
  assert (Hc2 : get_active_chat tid (db w2) = Some chat) by (rewrite D2; exact Hc1).
  assert (Hu2 : get_user st (db w2) = Some u) by (rewrite D2, D1; exact Hu).
  destruct (join_chat_effect sock3 join_parts st sid t3 u3 w2 tid chat _ u
              Hjl Hjt Henr2 Hc2 Hs1 Hu2) as (E3 & D3 & _).
  split; [exact E1|]. split; [exact E2|]. split; [exact E3|].
  rewrite D3, D2, D1. cbn [attendance_rows set_attendance].
  change (SessionManager.user_id (SessionManager.set_socket s (Some sock1)))
    with (SessionManager.user_id s). rewrite Hst.
  destruct (visit_then_rejoin (chat_session_id chat) tid st t1 t2 t3
              (attendance_rows (db w)) Hk Habs Ht1)
    as (r1 & r3 & H1 & H3 & Hp & Hl & Hd & Hf & Hf1).
  exists r3. split; [exact H3|]. split; [exact Hp|]. split; [exact Hl|].
  split; [exact Hd|]. by rewrite Hf, Hf1.
Qed.

(** The JOIN_CHAT of a tutor on a tutorial with an active chat.  A tutor
    who did not start the chat is refused and nothing but the refusal
    happens.  The tutor who started it is answered CHAT_JOINED first, a live
    socket is listed among the primary sockets of the room, and neither the
    database nor the session registry changes: no attendance is kept and the
    session is not rebound to the socket.  A tutor who is not in the database
    makes the handler raise after that answer. *)
Theorem tutor_join_chat_owner_only client_socket parts tutor w tid chat :
  (3 <= length parts)%nat ->
  nth 2 parts "" = tid ->
  get_active_chat tid (db w) = Some chat ->
  let res := _handle_tutor_join_chat net client_socket parts tutor w in
  (tutor_id chat <> tutor ->
     res = (reply net client_socket "FAIL:Not authorized for this chat" w, None)) /\
  (tutor_id chat = tutor ->
     db (fst res) = db w /\
     session_manager (fst res) = session_manager w /\
     (client_socket <> 0 ->
      In client_socket
         (ChatRoomManager.get_primary_sockets tid None (rooms (fst res)))) /\
     (exists rest,
        trace (fst res)
        = (trace w
           ++ Send client_socket
                ("CHAT_JOINED:" ++ tutor ++ ":" ++ chat_session_id chat) :: rest)%list) /\
     (snd res = None <-> get_user tutor (db w) <> None)).
Proof.
  intros Hlen Htid Hchat. cbv zeta. unfold _handle_tutor_join_chat.
  assert ((Z.of_nat (length parts) <? 3) = false) as -> by (apply Z.ltb_ge; lia).
  rewrite Htid, Hchat. split.
  - intros Hne. apply String.eqb_neq in Hne. by rewrite Hne.
  - intros Howner. subst tutor. rewrite String.eqb_refl. cbn [negb].
    assert (Hlisted : client_socket <> 0 ->
              In client_socket
                 (ChatRoomManager.get_primary_sockets tid None
                    (ChatRoomManager.add_socket tid (tutor_id chat) client_socket
                       false (rooms w)))).
    { intros Hsock.
      destruct (add_socket_entry tid (tutor_id chat) client_socket false (rooms w))
        as (v & Hin & Hv). cbn in Hv.
      apply (collect_In _ tid None _ (tutor_id chat) v client_socket Hin eq_refl).
      cbn beta. rewrite Hv. cbn.
      destruct (Z.eqb_spec client_socket 0); [done|by left]. }
    cbn [db reply send_data snd emit set_rooms].
    destruct (get_user (tutor_id chat) (db w)) as [t|].
    + rewrite send_all_effect. cbn [fst snd db session_manager rooms trace].
      split; [done|]. split; [done|]. split; [exact Hlisted|]. split.
      * eexists. cbn. rewrite <- app_assoc. reflexivity.
      * split; [discriminate|done].
    + cbn [fst snd db session_manager rooms trace].
      split; [done|]. split; [done|]. split; [exact Hlisted|]. split.
      * by exists [].
      * split; [discriminate|done].
Qed.

End JoinLeave.

(** ** Session resumption *)

Section Resume.

Import Server.

Variable net : nat -> Z -> sock_status.
Variable strip : string -> string.
Variable checkpw : string -> string -> option bool.
Variable serve : string -> Z -> string -> string -> World -> World.

Lemma split_on_no_sep sep s :
  forallb (fun c => negb (Ascii.eqb c sep)) (String.list_ascii_of_string s) = true ->
  split_on sep s = [s].
Proof.
  induction s as [|c s IH]; cbn; [done|].
  intros H. apply andb_true_iff in H as [Hc Hs].
  apply negb_true_iff in Hc. by rewrite Hc, IH.
Qed.

(** A token issued at login resumes the session.  On a first message
    SESSION_AUTH, a bar and a token without a bar that [create_session]
    issued to a user with a non-empty id, the server answers SUCCESS and
    hands the connection to the tutor loop when the role of the session is
    tutor and to the student loop for every other role, an admin included;
    the registry is the one [create_session] left, the session is not
    rebound to the new socket. *)
Theorem issued_token_resumes uid r n sock token now client_socket token' now' w :
  uid <> "" ->
  forallb (fun c => negb (Ascii.eqb c pipe)) (String.list_ascii_of_string token) = true ->
  let w' := set_sessions w
              (snd (SessionManager.create_session uid r n sock token now
                      (session_manager w))) in
  handle_client net strip checkpw serve client_socket
    {| status := SOCK_STATUS_OK; data := "SESSION_AUTH|" ++ token |} token' now' w'
  = serve (if String.eqb r "tutor" then "tutor" else "student") client_socket uid
      token (reply net client_socket "SUCCESS:Session authenticated" w').
Proof.
  intros Huid Htok. cbv zeta. unfold handle_client.
  cbn [status data status_ok negb].
  change (String.prefix "SESSION_AUTH|" ("SESSION_AUTH|" ++ token))
    with (String.prefix "" token).
  assert (String.prefix "" token = true) as -> by by destruct token.
  unfold _handle_session_auth.
  change (split_on pipe ("SESSION_AUTH|" ++ token))
    with ("SESSION_AUTH" :: split_on pipe token).
  rewrite (split_on_no_sep pipe token Htok). cbn [nth].
  unfold SessionManager.get_session_by_id. cbn [session_manager set_sessions
    SessionManager.create_session snd SessionManager.session_lookup
    SessionManager.active_sessions].
  rewrite lookup_insert_eq.
  assert (str_truthy uid = true) as ->.
  { unfold str_truthy. apply negb_true_iff. by apply String.eqb_neq. }
  rewrite lookup_insert_eq. cbn [SessionManager.role SessionManager.user_id].
  by destruct (String.eqb r "tutor").
Qed.

End Resume.

(** ** Instances of the further properties *)

Lemma create_then_end_session_restores_registry_witness :
  "s1" <> "" /\
  SessionManager.active_sessions tutor_logged_in !! "s1" = None /\
  SessionManager.session_lookup tutor_logged_in !! "tok-s1" = None /\
  SessionManager.socket_to_session tutor_logged_in !! 11 = None /\
  SessionManager.end_session "tok-s1"
    (snd (SessionManager.create_session "s1" "student" "Sam" (Some 11) "tok-s1" 5
            tutor_logged_in))
  = (true, tutor_logged_in).
Proof.
  assert (H1 : "s1" <> "") by discriminate.
  assert (H2 : SessionManager.active_sessions tutor_logged_in !! "s1" = None)
    by by vm_compute.
  assert (H3 : SessionManager.session_lookup tutor_logged_in !! "tok-s1" = None)
    by by vm_compute.
  assert (H4 : SessionManager.socket_to_session tutor_logged_in !! 11 = None)
    by by vm_compute.
  split; [exact H1|]. split; [exact H2|]. split; [exact H3|]. split; [exact H4|].
  apply (create_then_end_session_restores_registry "s1" "student" "Sam" (Some 11)
           "tok-s1" 5 tutor_logged_in H1 H2 H3).
  intros h Hh. injection Hh as <-. exact H4.
Defined.

Lemma update_socket_rebinds_witness :
  SessionManager.get_session_by_id "tok-t" tutor_logged_in
  = Some {| SessionManager.session_id := "tok-t"; SessionManager.user_id := "t1";
            SessionManager.role := "tutor"; SessionManager.name := "Tia";
            SessionManager.login_time := 0; SessionManager.is_active := true;
            SessionManager.socket := Some 1 |} /\
  "tok-t" <> "" /\ 5 <> 0 /\
  (SessionManager.socket <$>
     SessionManager.get_session_by_socket (Some 5)
       (snd (SessionManager.update_socket "tok-t" (Some 5) tutor_logged_in)))
  = Some (Some 5) /\
  SessionManager.get_session_by_socket (Some 1)
    (snd (SessionManager.update_socket "tok-t" (Some 5) tutor_logged_in))
  = None.
Proof.
  assert (H2 : "tok-t" <> "") by discriminate.
  assert (H3 : 5 <> 0) by lia.
  split; [reflexivity|]. split; [exact H2|]. split; [exact H3|].
  destruct (update_socket_rebinds "tok-t" 5 tutor_logged_in _ eq_refl H2 H3)
    as (_ & _ & Hnew & Hold).
  split.
  - rewrite Hnew. reflexivity.
  - apply Hold; [reflexivity|lia|lia].
Defined.

Lemma add_socket_listed_witness :
  11 <> 0 /\
  In 11 (ChatRoomManager.get_primary_sockets "T1" None
           (ChatRoomManager.add_socket "T1" "s1" 11 false (Server.rooms chat_with_s2))) /\
  ChatRoomManager.get_chat_sockets "T1" (Some "s1")
    (ChatRoomManager.add_socket "T1" "s1" 11 false (Server.rooms chat_with_s2))
  = ChatRoomManager.get_chat_sockets "T1" (Some "s1") (Server.rooms chat_with_s2).
Proof.
  assert (H : 11 <> 0) by lia.
  split; [exact H|].
  destruct (add_socket_listed "T1" "s1" 11 false None (Server.rooms chat_with_s2) H)
    as [Hin Hsame].
  split.
  - exact (proj1 (Hin eq_refl)).
  - assert (Hs : "s1" <> "") by discriminate.
    exact (proj1 (proj2 (Hsame Hs))).
Defined.

Lemma report_matches_leave_witness :
  Db.keyed (Db.attendance_rows (Server.db s1_in_chat)) /\
  In {| Db.r_student_id := "s1"; Db.r_student_name := "Sam"; Db.r_is_present := true;
        Db.r_first_join_time := 1010; Db.r_last_seen_time := 1010;
        Db.r_total_duration_seconds := 0; Db.current_duration := 30 |}
     (Db.get_attendance_for_session 1040 "cs-1" (Server.db s1_in_chat)) /\
  accumulated "cs-1" "s1"
    (Db.disconnect_attendance 1040 "cs-1" "s1"
       (Db.attendance_rows (Server.db s1_in_chat)))
  = 30.
Proof.
  assert (Hk : Db.keyed (Db.attendance_rows (Server.db s1_in_chat))).
  { unfold Db.keyed. refine (bool_decide_unpack (NoDup _) _). by vm_compute. }
  assert (Hin : In {| Db.r_student_id := "s1"; Db.r_student_name := "Sam";
                      Db.r_is_present := true;
                      Db.r_first_join_time := 1010; Db.r_last_seen_time := 1010;
                      Db.r_total_duration_seconds := 0; Db.current_duration := 30 |}
                   (Db.get_attendance_for_session 1040 "cs-1" (Server.db s1_in_chat))).
  { vm_compute. left. reflexivity. }
  split; [exact Hk|]. split; [exact Hin|].
  symmetry.
  exact (proj1 (report_matches_leave 1040 "cs-1" (Server.db s1_in_chat) _ Hk Hin)).
Defined.

Lemma assign_keeps_one_tutor_witness :
  one_tutor_per_tutorial (Server.db lobby) /\
  one_tutor_per_tutorial
    (Server.db (Server._handle_assign all_sends_ok 9 ["tok-a"; "ASSIGN"; "s2"; "T1"]
                  lobby)) /\
  Server.trace (Server._handle_assign all_sends_ok 9 ["tok-a"; "ASSIGN"; "t1"; "T1"]
                  lobby)
  = [Server.Send 9 "FAIL:Tutor already assigned to this tutorial"].
Proof.
  assert (H : one_tutor_per_tutorial (Server.db lobby)).
  { intros tid. unfold tutors_assigned.
    change (Db.assignments (Server.db lobby))
      with [("t1", "T1"); ("s1", "T1"); ("s2", "T1")].
    cbn -[String.eqb Db.is_tutor].
    destruct (String.eqb "T1" tid); vm_compute; lia. }
  split; [exact H|]. split; [|by vm_compute].
  exact (proj1 (assign_keeps_one_tutor all_sends_ok 9
                  ["tok-a"; "ASSIGN"; "s2"; "T1"] lobby H)).
Defined.

Lemma start_chat_opens_session_witness :
  (4 <= length ["tok-t"; "START_CHAT"; "T1"; "10"])%nat /\
  decimal_int "10" = Some 10 /\
  "cs-1" <> "" /\
  Db.get_active_chat "T1" (Server.db lobby) = None /\
  Db.tutorials (Server.db lobby) !! "T1" <> None /\
  Db.users (Server.db lobby) !! "t1" <> None /\
  Db.keyed (Db.attendance_rows (Server.db lobby)) /\
  NoDup (Db.assignments (Server.db lobby)) /\
  Z.abs (10 * 60) < float_overflow /\
  Server.trace chat_started
  = [Server.StartTimer "T1" 10; Server.Send 1 "CHAT_STARTED:cs-1"] /\
  Db.keyed (Db.attendance_rows (Server.db chat_started)) /\
  not_joined_yet "cs-1" "s1" (Db.attendance_rows (Server.db chat_started)) = true.
Proof.
  assert (H1 : (4 <= length ["tok-t"; "START_CHAT"; "T1"; "10"])%nat) by (cbn; lia).
  assert (H4 : "cs-1" <> "") by discriminate.
  assert (H6 : Db.tutorials (Server.db lobby) !! "T1" <> None) by by vm_compute.
  assert (H7 : Db.users (Server.db lobby) !! "t1" <> None) by by vm_compute.
  assert (H8 : Db.keyed (Db.attendance_rows (Server.db lobby))) by apply NoDup_nil_2.
  assert (H9 : forall r, In r (Db.attendance_rows (Server.db lobby)) ->
                         Db.a_chat_session_id r <> "cs-1") by (intros r []).
  assert (H10 : NoDup (Db.assignments (Server.db lobby))).
  { unfold Db.keyed. refine (bool_decide_unpack (NoDup _) _). by vm_compute. }
  split; [exact H1|]. split; [reflexivity|]. split; [exact H4|].
  split; [reflexivity|]. split; [exact H6|]. split; [exact H7|].
  assert (H11 : Z.abs (10 * 60) < float_overflow) by (by vm_compute).
  split; [exact H8|]. split; [exact H10|]. split; [exact H11|].
  destruct (start_chat_opens_session all_sends_ok decimal_int 1
              ["tok-t"; "START_CHAT"; "T1"; "10"] "t1" "cs-1" 1000 lobby "T1" 10
              H1 eq_refl eq_refl H4 eq_refl H6 H7 H8 H9 H10) as [_ Hstarted].
  destruct (Hstarted H11) as (_ & Htrace & _ & _ & Hk & _ & Hnj).
  split; [exact Htrace|]. split; [exact Hk|]. exact (Hnj "s1").
Defined.

(** A duration of 10^309 minutes, a one and 309 zeros, which [int()]
    accepts: the sum of the start time and the seconds raises, nothing is
    stored and nothing is sent. *)
Example start_chat_of_overlong_duration_raises :
  let digits := String "1" (String.string_of_list_ascii (repeat "0"%char 309)) in
  decimal_int digits = Some (10 ^ 309) /\
  Server._handle_start_chat all_sends_ok decimal_int 1
    ["tok-t"; "START_CHAT"; "T1"; digits] "t1" "cs-1" 1000 lobby
  = (lobby, Some "int too large to convert to float").
Proof. by vm_compute. Qed.

Lemma start_chat_unknown_tutorial_raises_witness :
  (4 <= length ["tok-t"; "START_CHAT"; "T9"; "10"])%nat /\
  decimal_int "10" = Some 10 /\
  Db.get_active_chat "T9" (Server.db lobby) = None /\
  Db.tutorials (Server.db lobby) !! "T9" = None /\
  exists detail,
    Server._handle_start_chat all_sends_ok decimal_int 1
      ["tok-t"; "START_CHAT"; "T9"; "10"] "t1" "cs-1" 1000 lobby
    = (lobby, Some detail).
Proof.
  assert (H1 : (4 <= length ["tok-t"; "START_CHAT"; "T9"; "10"])%nat) by (cbn; lia).
  assert (H4 : Db.tutorials (Server.db lobby) !! "T9" = None) by by vm_compute.
  split; [exact H1|]. split; [reflexivity|]. split; [reflexivity|].
  split; [exact H4|].
  exact (start_chat_unknown_tutorial_raises all_sends_ok decimal_int 1
           ["tok-t"; "START_CHAT"; "T9"; "10"] "t1" "cs-1" 1000 lobby 10
           H1 eq_refl eq_refl (or_introl H4)).
Defined.

Lemma end_chat_closes_tutorial_witness :
  (3 <= length ["tok-t"; "END_CHAT"; "T1"])%nat /\
  Db.get_active_chat "T1"
    (Server.db (Server._handle_end_chat all_sends_ok 1 ["tok-t"; "END_CHAT"; "T1"]
                  chat_with_s2)) = None /\
  Server.trace (Server._handle_end_chat all_sends_ok 1 ["tok-t"; "END_CHAT"; "T1"]
                  chat_with_s2)
  = (Server.trace chat_with_s2 ++ [Server.Send 22 "CHAT_ENDED"])%list.
Proof.
  assert (H1 : (3 <= length ["tok-t"; "END_CHAT"; "T1"])%nat) by (cbn; lia).
  split; [exact H1|].
  destruct (end_chat_closes_tutorial all_sends_ok 1 ["tok-t"; "END_CHAT"; "T1"]
              chat_with_s2 "T1" H1 eq_refl) as (Hchat & _ & Htrace & _).
  split; [exact Hchat|]. exact Htrace.
Defined.


Lemma attendance_update_recipient_witness :
  Db.get_active_chat "T1" (Server.db chat_with_s2)
  = Some {| Db.tutor_id := "t1"; Db.start_time := 1000;
            Db.end_time := 1000 + inject_Z (10 * 60); Db.chat_session_id := "cs-1" |} /\
  "cs-1" <> "" /\
  NoDup (map fst (ChatRoomManager.users_of "T1" (Server.rooms chat_with_s2))) /\
  Server.trace
    (fst (Server._broadcast_attendance_update all_sends_ok ids_json "T1" 1010
            chat_with_s2))
  = (Server.trace chat_with_s2 ++ [Server.Send 22 "ATTENDANCE_UPDATE|s1,s2"])%list.
Proof.
  assert (H2 : "cs-1" <> "") by discriminate.
  assert (H3 : NoDup (map fst (ChatRoomManager.users_of "T1"
                                 (Server.rooms chat_with_s2)))).
  { unfold Db.keyed. refine (bool_decide_unpack (NoDup _) _). by vm_compute. }
  split; [reflexivity|]. split; [exact H2|]. split; [exact H3|].
  destruct (attendance_update_recipient all_sends_ok ids_json "T1" 1010 chat_with_s2
              {| Db.tutor_id := "t1"; Db.start_time := 1000;
                 Db.end_time := 1000 + inject_Z (10 * 60);
                 Db.chat_session_id := "cs-1" |} eq_refl H2 H3) as [Hlast _].
  exact (proj2 (Hlast [("t1", {| ChatRoomManager.primary := Some 1;
                                 ChatRoomManager.chat := None |})]
                      "s2" {| ChatRoomManager.primary := Some 21;
                              ChatRoomManager.chat := Some 22 |} eq_refl)).
Defined.

Lemma join_chat_marks_present_witness :
  (3 <= length ["tok-s1"; "JOIN_CHAT"; "T1"])%nat /\
  Db.enrolled "s1" "T1" (Server.db s1_logged_in) = true /\
  (Db.is_present <$>
     Db.record_of "cs-1" "s1" (Db.attendance_rows (Server.db s1_in_chat))) = Some true /\
  In 11 (ChatRoomManager.get_primary_sockets "T1" None (Server.rooms s1_in_chat)).
Proof.
  assert (H1 : (3 <= length ["tok-s1"; "JOIN_CHAT"; "T1"])%nat) by (cbn; lia).
  split; [exact H1|]. split; [reflexivity|].
  destruct (join_chat_marks_present all_sends_ok ids_json 11
              ["tok-s1"; "JOIN_CHAT"; "T1"] "s1" "tok-s1" 1010 1010 s1_logged_in "T1"
              H1 eq_refl) as [_ Hjoined].
  destruct (Hjoined
              {| Db.tutor_id := "t1"; Db.start_time := 1000;
                 Db.end_time := 1000 + inject_Z (10 * 60);
                 Db.chat_session_id := "cs-1" |}
              {| SessionManager.session_id := "tok-s1"; SessionManager.user_id := "s1";
                 SessionManager.role := "student"; SessionManager.name := "Sam";
                 SessionManager.login_time := 1001; SessionManager.is_active := true;
                 SessionManager.socket := Some 11 |}
              {| Db.u_name := "Sam"; Db.password_hash := "h1";
                 Db.u_role := "student"; Db.profile_pic := None |}
              eq_refl eq_refl eq_refl eq_refl)
    as (_ & _ & (r & Hr & Hp) & Hlisted).
  split.
  - unfold s1_in_chat. cbn [Db.chat_session_id] in Hr. rewrite Hr. cbn. by rewrite Hp.
  - apply Hlisted. lia.
Defined.

Lemma leave_chat_marks_absent_witness :
  (3 <= length ["tok-s1"; "LEAVE_CHAT"; "T1"])%nat /\
  ChatRoomManager.users_of "T1" (Server.rooms s1_in_chat) <> [] /\
  Db.keyed (Db.attendance_rows (Server.db s1_in_chat)) /\
  NoDup (map fst (ChatRoomManager.users_of "T1" (Server.rooms s1_in_chat))) /\
  ChatRoomManager.users_get "s1"
    (ChatRoomManager.users_of "T1"
       (Server.rooms
          (fst (Server._handle_disconnect_message all_sends_ok ids_json 11 "tok-s1"
                  ["tok-s1"; "LEAVE_CHAT"; "T1"] 1040 1040 s1_in_chat)))) = None /\
  accumulated "cs-1" "s1"
    (Db.attendance_rows
       (Server.db
          (fst (Server._handle_disconnect_message all_sends_ok ids_json 11 "tok-s1"
                  ["tok-s1"; "LEAVE_CHAT"; "T1"] 1040 1040 s1_in_chat)))) = 30.
Proof.
  assert (H1 : (3 <= length ["tok-s1"; "LEAVE_CHAT"; "T1"])%nat) by (cbn; lia).
  assert (H5 : ChatRoomManager.users_of "T1" (Server.rooms s1_in_chat) <> [])
    by by vm_compute.
  assert (H6 : Db.keyed (Db.attendance_rows (Server.db s1_in_chat))).
  { unfold Db.keyed. refine (bool_decide_unpack (NoDup _) _). by vm_compute. }
  assert (H7 : NoDup (map fst (ChatRoomManager.users_of "T1"
                                 (Server.rooms s1_in_chat)))).
  { unfold Db.keyed. refine (bool_decide_unpack (NoDup _) _). by vm_compute. }
  split; [exact H1|]. split; [exact H5|]. split; [exact H6|]. split; [exact H7|].
  destruct (leave_chat_marks_absent all_sends_ok ids_json 11
              ["tok-s1"; "LEAVE_CHAT"; "T1"] "tok-s1" 1040 1040 s1_in_chat "T1"
              {| Db.tutor_id := "t1"; Db.start_time := 1000;
                 Db.end_time := 1000 + inject_Z (10 * 60);
                 Db.chat_session_id := "cs-1" |}
              {| SessionManager.session_id := "tok-s1"; SessionManager.user_id := "s1";
                 SessionManager.role := "student"; SessionManager.name := "Sam";
                 SessionManager.login_time := 1001; SessionManager.is_active := true;
                 SessionManager.socket := Some 11 |}
              H1 eq_refl eq_refl eq_refl H5 H6 H7)
    as (_ & Hrec & Hgone & _).
  split; [exact Hgone|].
  unfold accumulated. cbn [Db.chat_session_id SessionManager.user_id] in Hrec.
  rewrite Hrec. reflexivity.
Defined.

Lemma visit_through_handlers_witness :
  Db.enrolled "s1" "T1" (Server.db s1_logged_in) = true /\
  Db.keyed (Db.attendance_rows (Server.db s1_logged_in)) /\
  not_joined_yet "cs-1" "s1" (Db.attendance_rows (Server.db s1_logged_in)) = true /\
  (0 < 1010)%Q /\
  exists r3,
    Db.record_of "cs-1" "s1"
      (Db.attendance_rows
         (Server.db
            (fst (Server._handle_join_chat all_sends_ok ids_json 12
                    ["tok-s1"; "JOIN_CHAT"; "T1"] "s1" "tok-s1" 1100 1100
                    (fst (Server._handle_disconnect_message all_sends_ok ids_json 11
                            "tok-s1" ["tok-s1"; "LEAVE_CHAT"; "T1"] (2081 # 2) 1041
                            s1_in_chat))))))
    = Some r3 /\
    Db.is_present r3 = true /\
    Db.total_duration_seconds r3 = 30 /\
    Db.first_join_time r3 = 1010%Q.
Proof.
  assert (Hk : Db.keyed (Db.attendance_rows (Server.db s1_logged_in))).
  { unfold Db.keyed. refine (bool_decide_unpack (NoDup _) _). by vm_compute. }
  assert (Ht : (0 < 1010)%Q) by reflexivity.
  split; [reflexivity|]. split; [exact Hk|]. split; [reflexivity|].
  split; [exact Ht|].
  assert (H1 : (3 <= length ["tok-s1"; "JOIN_CHAT"; "T1"])%nat) by (cbn; lia).
  assert (H2 : (3 <= length ["tok-s1"; "LEAVE_CHAT"; "T1"])%nat) by (cbn; lia).
  assert (Habs : match Db.record_of "cs-1" "s1"
                         (Db.attendance_rows (Server.db s1_logged_in)) with
                 | Some r => Db.is_present r = false
                 | None => True
                 end) by reflexivity.
  destruct (visit_through_handlers all_sends_ok ids_json 11 11 12
              ["tok-s1"; "JOIN_CHAT"; "T1"] ["tok-s1"; "LEAVE_CHAT"; "T1"]
              "s1" "tok-s1" "T1" 1010 1010 (2081 # 2) 1041 1100 1100 s1_logged_in
              {| Db.tutor_id := "t1"; Db.start_time := 1000;
                 Db.end_time := 1000 + inject_Z (10 * 60);
                 Db.chat_session_id := "cs-1" |}
              {| SessionManager.session_id := "tok-s1"; SessionManager.user_id := "s1";
                 SessionManager.role := "student"; SessionManager.name := "Sam";
                 SessionManager.login_time := 1001; SessionManager.is_active := true;
                 SessionManager.socket := Some 11 |}
              {| Db.u_name := "Sam"; Db.password_hash := "h1";
                 Db.u_role := "student"; Db.profile_pic := None |}
              H1 eq_refl H2 eq_refl eq_refl eq_refl eq_refl eq_refl eq_refl Hk Habs Ht)
    as (_ & _ & _ & r3 & Hr & Hp & _ & Hd & Hf).
  exists r3. split; [exact Hr|]. split; [exact Hp|]. split; [exact Hd|]. exact Hf.
Defined.

Lemma tutor_join_chat_owner_only_witness :
  (3 <= length ["tok-t"; "JOIN_CHAT"; "T1"])%nat /\
  Server._handle_tutor_join_chat all_sends_ok 31 ["tok-t2"; "JOIN_CHAT"; "T1"] "t2"
    chat_started
  = (Server.reply all_sends_ok 31 "FAIL:Not authorized for this chat" chat_started,
     None) /\
  In 2 (ChatRoomManager.get_primary_sockets "T1" None
          (Server.rooms
             (fst (Server._handle_tutor_join_chat all_sends_ok 2
                     ["tok-t"; "JOIN_CHAT"; "T1"] "t1" chat_started)))).
Proof.
  assert (H1 : (3 <= length ["tok-t"; "JOIN_CHAT"; "T1"])%nat) by (cbn; lia).
  split; [exact H1|]. split.
  - apply (tutor_join_chat_owner_only all_sends_ok 31 ["tok-t2"; "JOIN_CHAT"; "T1"]
             "t2" chat_started "T1"
             {| Db.tutor_id := "t1"; Db.start_time := 1000;
                Db.end_time := 1000 + inject_Z (10 * 60);
                Db.chat_session_id := "cs-1" |} H1 eq_refl eq_refl).
    discriminate.
  - by vm_compute; left.
Defined.

Lemma issued_token_resumes_witness :
  "a1" <> "" /\
  Server.handle_client all_sends_ok strip_ascii toy_checkpw silent_client 41
    {| Server.status := Server.SOCK_STATUS_OK; Server.data := "SESSION_AUTH|tok-a" |}
    "tok-x" 9
    (Server.set_sessions lobby
       (snd (SessionManager.create_session "a1" "admin" "Ada" (Some 40) "tok-a" 8
               (Server.session_manager lobby))))
  = silent_client "student" 41 "a1" "tok-a"
      (Server.reply all_sends_ok 41 "SUCCESS:Session authenticated"
         (Server.set_sessions lobby
            (snd (SessionManager.create_session "a1" "admin" "Ada" (Some 40) "tok-a" 8
                    (Server.session_manager lobby))))).
Proof.
  assert (H : "a1" <> "") by discriminate.
  split; [exact H|].
  exact (issued_token_resumes all_sends_ok strip_ascii toy_checkpw silent_client
           "a1" "admin" "Ada" (Some 40) "tok-a" 8 41 "tok-x" 9 lobby H eq_refl).
Defined.
